(** * Alert processing pipeline of the DevOps monitoring platform

    A shallow embedding of [src/automation/alert_processor.py]: alert
    construction and fingerprinting, deduplication, enrichment, escalation,
    storage, routing and notification dispatch, followed by the properties
    the specification states about them. *)

From Stdlib Require Import ZArith Ascii String List Bool Lia.
From stdpp Require Import base tactics option list gmap strings pretty.

Set Warnings "-register-all".
Local Open Scope string_scope.
Local Open Scope Z_scope.

(** ** Python strings

    A Python [str] is modelled by a Rocq [string] whose characters are the
    code points U+0000..U+00FF (Latin-1).  On this range [str.lower] is a
    per-character map and [str.encode] (UTF-8) needs at most two bytes. *)

Module PyStr.

Definition ord (c : ascii) : Z := Z.of_N (N_of_ascii c).
Definition chr (n : Z) : ascii := ascii_of_N (Z.to_N n).

(** [str.lower] on one code point: A-Z and the Latin-1 capitals
    U+00C0..U+00DE (without the multiplication sign U+00D7) move by 32. *)
Definition lower_char (c : ascii) : ascii :=
  let n := ord c in
  if ((65 <=? n) && (n <=? 90)) || ((192 <=? n) && (n <=? 222) && negb (n =? 215))
  then chr (n + 32) else c.

Fixpoint lower (s : string) : string :=
  match s with
  | EmptyString => EmptyString
  | String c r => String (lower_char c) (lower r)
  end.

(** [needle in s] for strings: some suffix of [s] starts with [needle]. *)
Fixpoint contains (needle s : string) : bool :=
  String.prefix needle s ||
  match s with
  | EmptyString => false
  | String _ r => contains needle r
  end.

(** [s.encode()]: the UTF-8 bytes of the code points of [s]. *)
Definition utf8_char (c : ascii) : list Z :=
  let n := ord c in
  if n <? 128 then [n]
  else [Z.lor 192 (Z.shiftr n 6); Z.lor 128 (Z.land n 63)].

Fixpoint encode (s : string) : list Z :=
  match s with
  | EmptyString => []
  | String c r => utf8_char c ++ encode r
  end.

Definition join (sep : string) (parts : list string) : string :=
  match parts with
  | [] => EmptyString
  | p :: ps => fold_left (fun acc q => acc +:+ sep +:+ q) ps p
  end.

End PyStr.

(** ** MD5 ([hashlib.md5]), on bytes given as integers 0..255 *)

Module MD5.

Definition mask32 : Z := 0xFFFFFFFF.
Definition w32 (x : Z) : Z := Z.land x mask32.
Definition add32 (x y : Z) : Z := w32 (x + y).
Definition not32 (x : Z) : Z := Z.lxor x mask32.
Definition rotl32 (x s : Z) : Z :=
  w32 (Z.lor (Z.shiftl x s) (Z.shiftr x (32 - s))).

Definition K : list Z :=
  [ 0xd76aa478; 0xe8c7b756; 0x242070db; 0xc1bdceee; 0xf57c0faf; 0x4787c62a;
    0xa8304613; 0xfd469501; 0x698098d8; 0x8b44f7af; 0xffff5bb1; 0x895cd7be;
    0x6b901122; 0xfd987193; 0xa679438e; 0x49b40821; 0xf61e2562; 0xc040b340;
    0x265e5a51; 0xe9b6c7aa; 0xd62f105d; 0x02441453; 0xd8a1e681; 0xe7d3fbc8;
    0x21e1cde6; 0xc33707d6; 0xf4d50d87; 0x455a14ed; 0xa9e3e905; 0xfcefa3f8;
    0x676f02d9; 0x8d2a4c8a; 0xfffa3942; 0x8771f681; 0x6d9d6122; 0xfde5380c;
    0xa4beea44; 0x4bdecfa9; 0xf6bb4b60; 0xbebfbc70; 0x289b7ec6; 0xeaa127fa;
    0xd4ef3085; 0x04881d05; 0xd9d4d039; 0xe6db99e5; 0x1fa27cf8; 0xc4ac5665;
    0xf4292244; 0x432aff97; 0xab9423a7; 0xfc93a039; 0x655b59c3; 0x8f0ccc92;
    0xffeff47d; 0x85845dd1; 0x6fa87e4f; 0xfe2ce6e0; 0xa3014314; 0x4e0811a1;
    0xf7537e82; 0xbd3af235; 0x2ad7d2bb; 0xeb86d391 ].

Definition S : list Z :=
  [ 7; 12; 17; 22; 7; 12; 17; 22; 7; 12; 17; 22; 7; 12; 17; 22;
    5; 9; 14; 20; 5; 9; 14; 20; 5; 9; 14; 20; 5; 9; 14; 20;
    4; 11; 16; 23; 4; 11; 16; 23; 4; 11; 16; 23; 4; 11; 16; 23;
    6; 10; 15; 21; 6; 10; 15; 21; 6; 10; 15; 21; 6; 10; 15; 21 ].

Definition at_ (l : list Z) (i : Z) : Z := nth (Z.to_nat i) l 0.

(** The message followed by 0x80, zeros up to 56 mod 64, and the bit
    length as a 64-bit little-endian integer. *)
Definition le_bytes (n : nat) (x : Z) : list Z :=
  map (fun i => Z.land (Z.shiftr x (8 * Z.of_nat i)) 255) (seq 0 n).

Definition pad (msg : list Z) : list Z :=
  let len := Z.of_nat (length msg) in
  let zeros := Z.to_nat ((55 - len) mod 64) in
  msg ++ [128] ++ repeat 0 zeros ++ le_bytes 8 (Z.land (8 * len) (2 ^ 64 - 1)).

Definition word_of (bs : list Z) (j : Z) : Z :=
  at_ bs (4 * j) + Z.shiftl (at_ bs (4 * j + 1)) 8
  + Z.shiftl (at_ bs (4 * j + 2)) 16 + Z.shiftl (at_ bs (4 * j + 3)) 24.

Definition state : Type := Z * Z * Z * Z.

Definition step (block : list Z) (st : state) (i : Z) : state :=
  let '(a, b, c, d) := st in
  let '(f, g) :=
    if i <? 16 then (Z.lor (Z.land b c) (Z.land (not32 b) d), i)
    else if i <? 32 then (Z.lor (Z.land d b) (Z.land (not32 d) c), (5 * i + 1) mod 16)
    else if i <? 48 then (Z.lxor (Z.lxor b c) d, (3 * i + 5) mod 16)
    else (Z.lxor c (Z.lor b (not32 d)), (7 * i) mod 16) in
  let f' := add32 (add32 (add32 f a) (at_ K i)) (word_of block g) in
  (d, add32 b (rotl32 f' (at_ S i)), b, c).

Definition compress (st : state) (block : list Z) : state :=
  let '(a0, b0, c0, d0) := st in
  let '(a, b, c, d) :=
    fold_left (step block) (map Z.of_nat (seq 0 64)) st in
  (add32 a0 a, add32 b0 b, add32 c0 c, add32 d0 d).

Fixpoint blocks (n : nat) (bs : list Z) : list (list Z) :=
  match n with
  | O => []
  | Datatypes.S n' => firstn 64 bs :: blocks n' (skipn 64 bs)
  end.

Definition init : state := (0x67452301, 0xefcdab89, 0x98badcfe, 0x10325476).

Definition digest (msg : list Z) : list Z :=
  let p := pad msg in
  let '(a, b, c, d) := fold_left compress (blocks (length p / 64)%nat p) init in
  le_bytes 4 a ++ le_bytes 4 b ++ le_bytes 4 c ++ le_bytes 4 d.

Definition hex_digit (n : Z) : ascii :=
  if n <? 10 then PyStr.chr (48 + n) else PyStr.chr (87 + n).

Fixpoint hex (bs : list Z) : string :=
  match bs with
  | [] => EmptyString
  | b :: r => String (hex_digit (Z.shiftr b 4)) (String (hex_digit (Z.land b 15)) (hex r))
  end.

Definition hexdigest (msg : list Z) : string := hex (digest msg).

End MD5.

(** ** Python values

    The values a payload can carry (a decoded JSON body or a dict built by a
    caller): [None], booleans, integers, strings, lists and dicts with string
    keys.  Numbers are integers: a float passes none of the tests this
    module makes on a value (it is no [str], [list] or [dict]).  A dict keeps
    its entries in insertion order. *)

Inductive pyval : Type :=
| JNull
| JBool (b : bool)
| JInt (n : Z)
| JStr (s : string)
| JList (items : list pyval)
| JDict (entries : list (string * pyval)).

Module PyVal.

(** [d.get(k)] and [d[k] = v] on the entries of a dict. *)
Fixpoint dict_get (d : list (string * pyval)) (k : string) : option pyval :=
  match d with
  | [] => None
  | (k', v) :: r => if String.eqb k' k then Some v else dict_get r k
  end.

Fixpoint dict_set (d : list (string * pyval)) (k : string) (v : pyval)
  : list (string * pyval) :=
  match d with
  | [] => [(k, v)]
  | (k', v') :: r =>
      if String.eqb k' k then (k', v) :: r else (k', v') :: dict_set r k v
  end.

(** Python's [==]: [True == 1], lists compare element by element, dicts
    compare by size and by key, whatever the order of the entries. *)
Definition num_of (v : pyval) : option Z :=
  match v with
  | JBool b => Some (if b then 1 else 0)
  | JInt n => Some n
  | _ => None
  end.

Fixpoint py_eq (a b : pyval) {struct a} : bool :=
  match a, b with
  | JNull, JNull => true
  | JBool x, (JBool _ | JInt _) =>
      match num_of b with Some n => (if x then 1 else 0) =? n | None => false end
  | JInt x, (JBool _ | JInt _) =>
      match num_of b with Some n => x =? n | None => false end
  | JStr s, JStr t => String.eqb s t
  | JList l1, JList l2 =>
      (fix go (l1 l2 : list pyval) : bool :=
         match l1, l2 with
         | [], [] => true
         | x :: xs, y :: ys => py_eq x y && go xs ys
         | _, _ => false
         end) l1 l2
  | JDict d1, JDict d2 =>
      (length d1 =? length d2)%nat &&
      (fix all (d : list (string * pyval)) : bool :=
         match d with
         | [] => true
         | (k, v) :: r =>
             match dict_get d2 k with
             | Some w => py_eq v w
             | None => false
             end && all r
         end) d1
  | _, _ => false
  end.

(** [repr] of a string: single quotes unless the string holds a single
    quote and no double quote; backslash, the quote, tab, newline and
    carriage return are escaped, the other non-printable code points are
    written [\xhh]. *)
Definition dquote : ascii := PyStr.chr 34.
Definition squote : ascii := PyStr.chr 39.
Definition backslash : ascii := PyStr.chr 92.

Definition has_char (c : ascii) (s : string) : bool :=
  existsb (Ascii.eqb c) (list_ascii_of_string s).

Definition repr_char (q c : ascii) : string :=
  let n := PyStr.ord c in
  if Ascii.eqb c q || Ascii.eqb c backslash then String backslash (String c EmptyString)
  else if n =? 9 then String backslash "t"
  else if n =? 10 then String backslash "n"
  else if n =? 13 then String backslash "r"
  else if (n <? 32) || (n =? 127) || ((128 <=? n) && (n <=? 160)) || (n =? 173)
  then String backslash (String "x"
         (String (MD5.hex_digit (Z.shiftr n 4)) (String (MD5.hex_digit (Z.land n 15)) EmptyString)))
  else String c EmptyString.

Definition repr_str (s : string) : string :=
  let q := if has_char squote s && negb (has_char dquote s) then dquote else squote in
  String q (String.concat EmptyString (map (repr_char q) (list_ascii_of_string s))
            +:+ String q EmptyString).

Fixpoint repr (v : pyval) : string :=
  match v with
  | JNull => "None"
  | JBool b => if b then "True" else "False"
  | JInt n => pretty n
  | JStr s => repr_str s
  | JList l => "[" +:+ String.concat ", " (map repr l) +:+ "]"
  | JDict d =>
      "{" +:+ String.concat ", "
                (map (fun kv => repr_str (fst kv) +:+ ": " +:+ repr (snd kv)) d)
      +:+ "}"
  end.

(** [str(v)], what an f-string inserts for [{v}]. *)
Definition str (v : pyval) : string :=
  match v with
  | JStr s => s
  | _ => repr v
  end.

End PyVal.

(** ** Objects and the heap

    Enrichment and escalation mutate the tags list and the metadata dict of
    the alert in place, and the alert holds the very objects the payload
    carried ([title=alert_data.get('title', ...)],
    [tags=alert_data.get('tags', [])], ...).  The objects a payload carries
    therefore have an identity: [Ref l] is the object stored at location [l]
    of the heap, which other fields, payloads and alerts may hold as well,
    and [Val v] is an object nothing else holds (a freshly decoded request
    body, a literal, a default), carried by value.  What can be shared is a
    whole field; the members of a list and the values of a dict are parts
    of it that nothing else holds.  A location that is not in the heap
    reads as [None]. *)

Definition loc : Type := positive.

Inductive pyref : Type :=
| Val (v : pyval)
| Ref (l : loc).

Definition fetch (h : gmap loc pyval) (r : pyref) : pyval :=
  match r with
  | Val v => v
  | Ref l => default JNull (h !! l)
  end.

(** The exceptions the pipeline can meet on an ill-typed payload. *)
Inductive exn : Type :=
| AttributeError
| TypeError.

Inductive result (A : Type) : Type :=
| Ok (a : A)
| Raise (e : exn).
Arguments Ok {A} a.
Arguments Raise {A} e.

(** Computations that read and write the heap and may raise; what was
    written before an exception stays written. *)
Definition Py (A : Type) : Type := gmap loc pyval → gmap loc pyval * result A.

Definition ret {A : Type} (a : A) : Py A := λ h, (h, Ok a).

Definition bind {A B : Type} (m : Py A) (f : A → Py B) : Py B := λ h,
  match m h with
  | (h', Ok a) => f a h'
  | (h', Raise e) => (h', Raise e)
  end.

Notation "'do' x <- m ; k" := (bind m (λ x, k))
  (at level 10, x name, m at level 100, k at level 200).

Definition raise {A : Type} (e : exn) : Py A := λ h, (h, Raise e).
Definition deref (r : pyref) : Py pyval := λ h, (h, Ok (fetch h r)).

(** [r.append(x)]: only a list has [append]. *)
Definition list_append (r : pyref) (x : pyval) : Py pyref := λ h,
  match r with
  | Val (JList items) => (h, Ok (Val (JList (items ++ [x]))))
  | Val _ => (h, Raise AttributeError)
  | Ref l =>
      match h !! l with
      | Some (JList items) => (<[l := JList (items ++ [x])]> h, Ok (Ref l))
      | _ => (h, Raise AttributeError)
      end
  end.

(** [r[k] = v] with a string key: only a dict accepts it. *)
Definition dict_setitem (r : pyref) (k : string) (v : pyval) : Py pyref := λ h,
  match r with
  | Val (JDict d) => (h, Ok (Val (JDict (PyVal.dict_set d k v))))
  | Val _ => (h, Raise TypeError)
  | Ref l =>
      match h !! l with
      | Some (JDict d) => (<[l := JDict (PyVal.dict_set d k v)]> h, Ok (Ref l))
      | _ => (h, Raise TypeError)
      end
  end.

(** [v.lower()]: only a string has [lower]. *)
Definition str_lower (v : pyval) : Py string :=
  match v with
  | JStr s => ret (PyStr.lower s)
  | _ => raise AttributeError
  end.

(** ** The data classes *)

(** Times are microseconds of the local wall clock ([datetime.now()]), and
    durations ([timedelta]) are microseconds. *)
Definition minutes (n : Z) : Z := n * 60000000.
Definition hours (n : Z) : Z := n * 3600000000.
Definition hour_of (t : Z) : Z := (t / 3600000000) mod 24.

Record Alert : Type := mkAlert {
  alert_id : string;
  title : pyref;
  description : pyref;
  severity : string;
  source : pyref;
  timestamp : Z;
  tags : pyref;
  metadata : pyref;
  status : string;
  assigned_to : option string
}.

Record NotificationChannel : Type := mkChannel {
  name : string;
  type : string;
  config : pyval;
  enabled : bool
}.

(** The value of an attribute of an alert, or the value a routing rule
    asks for: a Python value, a [datetime], or an object of another kind (a
    class, a method, ...), of which only its name [o] is known: two such
    objects are equal when they have the same name. *)
Inductive attr : Type :=
| AVal (v : pyval)
| ATime (t : Z)
| AObject (o : N).

Record RoutingRule : Type := mkRule {
  rule_name : string;
  conditions : list (string * attr);
  channels : list string;
  escalation_time : Z
}.

Record AlertProcessor : Type := mkProcessor {
  active_alerts : gmap string Alert;
  alert_history : list Alert;
  notification_channels : list NotificationChannel;
  routing_rules : list RoutingRule;
  deduplication_window : Z
}.

Definition set_tags (a : Alert) (t : pyref) : Alert :=
  mkAlert (alert_id a) (title a) (description a) (severity a) (source a)
          (timestamp a) t (metadata a) (status a) (assigned_to a).
Definition set_metadata (a : Alert) (m : pyref) : Alert :=
  mkAlert (alert_id a) (title a) (description a) (severity a) (source a)
          (timestamp a) (tags a) m (status a) (assigned_to a).
Definition set_severity (a : Alert) (s : string) : Alert :=
  mkAlert (alert_id a) (title a) (description a) s (source a)
          (timestamp a) (tags a) (metadata a) (status a) (assigned_to a).
Definition set_assigned_to (a : Alert) (o : option string) : Alert :=
  mkAlert (alert_id a) (title a) (description a) (severity a) (source a)
          (timestamp a) (tags a) (metadata a) (status a) o.

(** [alert.tags.append(t)] and [alert.metadata[k] = v]. *)
Definition tags_append (a : Alert) (t : string) : Py Alert :=
  do r <- list_append (tags a) (JStr t); ret (set_tags a r).
Definition metadata_set (a : Alert) (k : string) (v : pyval) : Py Alert :=
  do r <- dict_setitem (metadata a) k v; ret (set_metadata a r).

(** ** AlertProcessor *)

Definition _setup_notification_channels : list NotificationChannel :=
  [ mkChannel "email_ops" "email"
      (JDict [ ("smtp_server", JStr "smtp.gmail.com");
               ("smtp_port", JInt 587);
               ("recipients", JList [JStr "ops-team@company.com"; JStr "devops@company.com"]);
               ("sender", JStr "alerts@company.com") ])
      true;
    mkChannel "slack_critical" "slack"
      (JDict [ ("webhook_url", JStr "https://hooks.slack.com/services/YOUR/SLACK/WEBHOOK");
               ("channel", JStr "#critical-alerts");
               ("username", JStr "DevOps Bot") ])
      true;
    mkChannel "pagerduty" "webhook"
      (JDict [ ("url", JStr "https://events.pagerduty.com/v2/enqueue");
               ("routing_key", JStr "YOUR_PAGERDUTY_KEY") ])
      true ].

Definition _setup_routing_rules : list RoutingRule :=
  [ mkRule "critical_alerts" [("severity", AVal (JStr "critical"))]
           ["email_ops"; "slack_critical"; "pagerduty"] (minutes 15);
    mkRule "warning_alerts" [("severity", AVal (JStr "warning"))]
           ["email_ops"; "slack_critical"] (hours 1);
    mkRule "info_alerts" [("severity", AVal (JStr "info"))]
           ["email_ops"] (hours 4);
    mkRule "kubernetes_alerts" [("source", AVal (JStr "kubernetes"))]
           ["email_ops"; "slack_critical"] (minutes 30) ].

(** [AlertProcessor.__init__] *)
Definition init : AlertProcessor :=
  mkProcessor ∅ [] _setup_notification_channels _setup_routing_rules (minutes 5).

(** [alert_data.get(k, d)] *)
Definition get (alert_data : gmap string pyref) (k : string) (d : pyval) : pyref :=
  default (Val d) (alert_data !! k).

Definition generate_alert_id (h : gmap loc pyval) (alert_data : gmap string pyref) : string :=
  let content :=
    PyVal.str (fetch h (get alert_data "title" (JStr EmptyString)))
    +:+ PyVal.str (fetch h (get alert_data "source" (JStr EmptyString)))
    +:+ PyVal.str (fetch h (get alert_data "description" (JStr EmptyString))) in
  String.substring 0 12 (MD5.hexdigest (PyStr.encode content)).

(** The loop over [self.active_alerts.items()] returns [True] at the first
    active alert with an equal title, an equal source and a timestamp less
    than the window before [current_time], the reading of the clock made
    on entry. *)
Definition is_recent_duplicate (h : gmap loc pyval) (window current_time : Z)
    (new_alert existing_alert : Alert) : bool :=
  PyVal.py_eq (fetch h (title existing_alert)) (fetch h (title new_alert))
  && PyVal.py_eq (fetch h (source existing_alert)) (fetch h (source new_alert))
  && (current_time - timestamp existing_alert <? window).

Definition deduplicate_alert (self : AlertProcessor) (h : gmap loc pyval) (current_time : Z)
    (new_alert : Alert) : bool :=
  existsb (λ kv, is_recent_duplicate h (deduplication_window self) current_time new_alert
                   (snd kv))
          (map_to_list (active_alerts self)).

(** The [Alert(...)] call of [process_alert]: [now] is the reading of the
    clock for [timestamp]; the id is computed from the payload as it is
    now, the severity is read and lowered, and the title, the description,
    the source, the tags and the metadata are the payload's own objects. *)
Definition get_heap : Py (gmap loc pyval) := λ h, (h, Ok h).

Definition build_alert (alert_data : gmap string pyref) (now : Z) : Py Alert :=
  do h <- get_heap;
  let id := generate_alert_id h alert_data in
  let title := get alert_data "title" (JStr "Unknown Alert") in
  let description := get alert_data "description" (JStr EmptyString) in
  do sev <- deref (get alert_data "severity" (JStr "info"));
  do severity <- str_lower sev;
  let source := get alert_data "source" (JStr "unknown") in
  ret (mkAlert id title description severity source now
                (get alert_data "tags" (JList []))
                (get alert_data "metadata" (JDict []))
                "new" None).

(** [alert.source == s] *)
Definition source_is (a : Alert) (s : string) : Py bool :=
  do src <- deref (source a); ret (PyVal.py_eq src (JStr s)).

(** [kw in alert.description.lower()] *)
Definition description_has (a : Alert) (kw : string) : Py bool :=
  do text <- deref (description a);
  do d <- str_lower text; ret (PyStr.contains kw d).

Definition _enrich_alert (alert : Alert) : Py Alert :=
  let hour := hour_of (timestamp alert) in
  do alert <- (if (0 <=? hour) && (hour <? 6) then tags_append alert "night_hours"
           else if (9 <=? hour) && (hour <? 17) then tags_append alert "business_hours"
           else ret alert);
  do kubernetes <- source_is alert "kubernetes";
  do alert <- (if kubernetes then
             do alert <- tags_append alert "container_platform";
             do pod <- description_has alert "pod";
             if pod then tags_append alert "pod_issue"
             else
               do node <- description_has alert "node";
               if node then tags_append alert "node_issue" else ret alert
           else
             do aws <- source_is alert "aws";
             if aws then
               do alert <- tags_append alert "cloud_platform";
               do ec2 <- description_has alert "ec2";
               if ec2 then tags_append alert "compute_issue"
               else
                 do rds <- description_has alert "rds";
                 if rds then tags_append alert "database_issue" else ret alert
             else ret alert);
  if String.eqb (severity alert) "critical" then
    do alert <- metadata_set alert "requires_immediate_attention" (JBool true);
    metadata_set alert "max_response_time" (JStr "15 minutes")
  else if String.eqb (severity alert) "warning" then
    do alert <- metadata_set alert "requires_attention" (JBool true);
    metadata_set alert "max_response_time" (JStr "1 hour")
  else ret alert.

Definition escalation_keywords : list string := ["down"; "failed"; "error"; "timeout"].

(** [any(keyword in alert.description.lower() for keyword in keywords)]:
    the description is lowered once per keyword tried. *)
Fixpoint any_keyword (alert : Alert) (keywords : list string) : Py bool :=
  match keywords with
  | [] => ret false
  | keyword :: rest =>
      do found <- description_has alert keyword;
      if found then ret true else any_keyword alert rest
  end.

Definition _apply_severity_rules (alert : Alert) : Py Alert :=
  do hit <- any_keyword alert escalation_keywords;
  do alert <- (if hit && String.eqb (severity alert) "warning"
           then tags_append (set_severity alert "critical") "auto_escalated"
           else ret alert);
  do kubernetes <- source_is alert "kubernetes";
  if kubernetes then ret (set_assigned_to alert (Some "k8s_team"))
  else
    do aws <- source_is alert "aws";
    if aws then ret (set_assigned_to alert (Some "cloud_team"))
    else
      do database <- source_is alert "database";
      if database then ret (set_assigned_to alert (Some "dba_team"))
      else ret alert.

(** [self.active_alerts[alert.id] = alert; self.alert_history.append(alert)] *)
Definition store (self : AlertProcessor) (alert : Alert) : AlertProcessor :=
  mkProcessor (<[alert_id alert := alert]> (active_alerts self))
              (alert_history self ++ [alert])
              (notification_channels self) (routing_rules self)
              (deduplication_window self).

(** The [try] block of [process_alert].  [now_created] is the clock read
    for the timestamp of the new alert, [now_checked] the clock read by
    [deduplicate_alert]. *)
Definition process_alert_try (self : AlertProcessor) (alert_data : gmap string pyref)
    (now_created now_checked : Z) : Py (option Alert * AlertProcessor) :=
  do alert <- build_alert alert_data now_created;
  do h <- get_heap;
  if deduplicate_alert self h now_checked alert then ret (None, self)
  else
    do alert <- _enrich_alert alert;
    do alert <- _apply_severity_rules alert;
    ret (Some alert, store self alert).

(** [process_alert]: [except Exception] turns every exception of the block
    into the result [None]. *)
Definition process_alert (self : AlertProcessor) (alert_data : gmap string pyref)
    (now_created now_checked : Z) (h : gmap loc pyval)
  : gmap loc pyval * (option Alert * AlertProcessor) :=
  match process_alert_try self alert_data now_created now_checked h with
  | (h', Ok r) => (h', r)
  | (h', Raise _) => (h', (None, self))
  end.

(** ** Routing *)

(** Besides its ten fields an [Alert] has the attributes every object has
    ([__class__], [__doc__], [__dict__], [__eq__], ...).  Which these are
    and what they hold is the interpreter's business; their names all
    begin and end with two underscores.  [object_attribute h alert key] is
    what the interpreter finds under such a name, if anything. *)
Class Interpreter : Type := {
  object_attribute : gmap loc pyval → Alert → string → option attr
}.

(** A name of the form [__x__]. *)
Definition is_special (key : string) : bool :=
  String.prefix "__" key
  && String.eqb (String.substring (String.length key - 2) 2 key) "__".

Section Routing.
Context `{Interpreter}.

(** [getattr(alert, key, None)] *)
Definition getattr (h : gmap loc pyval) (alert : Alert) (key : string) : attr :=
  if String.eqb key "id" then AVal (JStr (alert_id alert))
  else if String.eqb key "title" then AVal (fetch h (title alert))
  else if String.eqb key "description" then AVal (fetch h (description alert))
  else if String.eqb key "severity" then AVal (JStr (severity alert))
  else if String.eqb key "source" then AVal (fetch h (source alert))
  else if String.eqb key "timestamp" then ATime (timestamp alert)
  else if String.eqb key "tags" then AVal (fetch h (tags alert))
  else if String.eqb key "metadata" then AVal (fetch h (metadata alert))
  else if String.eqb key "status" then AVal (JStr (status alert))
  else if String.eqb key "assigned_to" then
    AVal (match assigned_to alert with Some s => JStr s | None => JNull end)
  else if is_special key then default (AVal JNull) (object_attribute h alert key)
  else AVal JNull.

Definition attr_eq (x y : attr) : bool :=
  match x, y with
  | AVal a, AVal b => PyVal.py_eq a b
  | ATime s, ATime t => s =? t
  | AObject o, AObject o' => (o =? o')%N
  | _, _ => false
  end.

(** The inner loop of [route_alert]: the first condition that differs
    from the attribute ends it with [rule_matches = False]. *)
Fixpoint rule_matches (h : gmap loc pyval) (alert : Alert) (conds : list (string * attr)) : bool :=
  match conds with
  | [] => true
  | (condition_key, condition_value) :: rest =>
      if negb (attr_eq (getattr h alert condition_key) condition_value) then false
      else rule_matches h alert rest
  end.

Definition matching_channels (h : gmap loc pyval) (alert : Alert) (rules : list RoutingRule)
  : list string :=
  fold_left (λ (acc : list string) rule,
               if rule_matches h alert (conditions rule)
               then (acc ++ channels rule)%list else acc) rules [].

(** [list(dict.fromkeys(l))]: a key is inserted the first time it is met. *)
Definition dict_fromkeys (l : list string) : list string :=
  fold_left (λ (seen : list string) x,
               if existsb (String.eqb x) seen then seen else (seen ++ [x])%list) l [].

Definition route_alert (self : AlertProcessor) (h : gmap loc pyval) (alert : Alert) : list string :=
  dict_fromkeys (matching_channels h alert (routing_rules self)).

End Routing.

(** ** Notification dispatch *)

Record ChannelResult : Type := mkResult {
  channel : string;
  result_status : string;
  reason : option string;
  channel_type : option string
}.

Record NotificationResults : Type := mkResults {
  results_alert_id : string;
  channels_attempted : nat;
  successful_notifications : nat;
  failed_notifications : nat;
  results : list ChannelResult
}.

(** The three send methods reach the network; each returns a boolean and
    catches its own exceptions.  They are the collaborators the dispatcher
    is given. *)
Class Senders : Type := {
  send_email_notification : gmap loc pyval → Alert → pyval → bool;
  send_slack_notification : gmap loc pyval → Alert → pyval → bool;
  send_webhook_notification : gmap loc pyval → Alert → pyval → bool
}.

Section Dispatch.
Context `{Interpreter} `{Senders}.

(** [next((ch for ch in channels if ch.name == channel_name), None)] *)
Definition find_channel (self : AlertProcessor) (channel_name : string)
  : option NotificationChannel :=
  find (λ ch, String.eqb (name ch) channel_name) (notification_channels self).

Definition send (h : gmap loc pyval) (alert : Alert) (ch : NotificationChannel) : bool :=
  if String.eqb (type ch) "email" then send_email_notification h alert (config ch)
  else if String.eqb (type ch) "slack" then send_slack_notification h alert (config ch)
  else if String.eqb (type ch) "webhook" then send_webhook_notification h alert (config ch)
  else false.

(** One turn of the loop over [target_channels]. *)
Definition notify_channel (self : AlertProcessor) (h : gmap loc pyval) (alert : Alert)
    (acc : NotificationResults) (channel_name : string) : NotificationResults :=
  match find_channel self channel_name with
  | Some ch =>
      if negb (enabled ch) then
        mkResults (results_alert_id acc) (channels_attempted acc)
          (successful_notifications acc) (failed_notifications acc)
          (results acc ++ [mkResult channel_name "skipped"
                             (Some "Channel not found or disabled") None])
      else if send h alert ch then
        mkResults (results_alert_id acc) (channels_attempted acc)
          (S (successful_notifications acc)) (failed_notifications acc)
          (results acc ++ [mkResult channel_name "success" None (Some (type ch))])
      else
        mkResults (results_alert_id acc) (channels_attempted acc)
          (successful_notifications acc) (S (failed_notifications acc))
          (results acc ++ [mkResult channel_name "failed" None (Some (type ch))])
  | None =>
      mkResults (results_alert_id acc) (channels_attempted acc)
        (successful_notifications acc) (failed_notifications acc)
        (results acc ++ [mkResult channel_name "skipped"
                           (Some "Channel not found or disabled") None])
  end.

Definition notify_alert (self : AlertProcessor) (h : gmap loc pyval) (alert : Alert)
  : NotificationResults :=
  let target_channels := route_alert self h alert in
  fold_left (notify_channel self h alert) target_channels
    (mkResults (alert_id alert) (length target_channels) 0 0 []).

End Dispatch.

(** ** Summary *)

Record Summary : Type := mkSummary {
  summary_active_alerts : nat;
  severity_breakdown : list (string * Z);
  recent_alerts_24h : nat;
  total_processed : nat;
  last_processed : Z
}.

(** [counts[k] = counts.get(k, 0) + 1] *)
Fixpoint count_up (counts : list (string * Z)) (k : string) : list (string * Z) :=
  match counts with
  | [] => [(k, 0 + 1)]
  | (k', n) :: r => if String.eqb k' k then (k', n + 1) :: r else (k', n) :: count_up r k
  end.

Definition get_alert_summary (self : AlertProcessor) (current_time : Z) : Summary :=
  let severity_counts :=
    fold_left (λ counts kv, count_up counts (severity (snd kv)))
              (map_to_list (active_alerts self))
              [("critical", 0); ("warning", 0); ("info", 0)] in
  let recent_alerts :=
    filter (λ alert, current_time - timestamp alert < hours 24) (alert_history self) in
  mkSummary (size (active_alerts self)) severity_counts (length recent_alerts)
            (length (alert_history self)) current_time.

(** * Notions used in the statements *)

(** ** What enrichment and escalation may change

    [keeps a a'] relates an alert to a later state of the same alert: the
    tags and the metadata are still the same objects, the fingerprint and
    the reported fields are untouched, and the severity is the old one or
    [critical].  [frame a h h'] says that the heap changed at most at the
    tags and metadata objects of [a]. *)

Definition ref_of (r : pyref) : option loc :=
  match r with
  | Val _ => None
  | Ref l => Some l
  end.

Definition keeps (a a' : Alert) : Prop :=
  ref_of (tags a') = ref_of (tags a)
  ∧ ref_of (metadata a') = ref_of (metadata a)
  ∧ alert_id a' = alert_id a
  ∧ title a' = title a
  ∧ description a' = description a
  ∧ source a' = source a
  ∧ timestamp a' = timestamp a
  ∧ status a' = status a
  ∧ (severity a' = severity a ∨ severity a' = "critical").

Definition frame (a : Alert) (h h' : gmap loc pyval) : Prop :=
  ∀ l, ref_of (tags a) ≠ Some l → ref_of (metadata a) ≠ Some l → h' !! l = h !! l.

Definition safe (a : Alert) (m : Py Alert) : Prop :=
  ∀ h h' r, m h = (h', r) → frame a h h' ∧ ∀ a', r = Ok a' → keeps a a'.

Definition reads {A : Type} (m : Py A) : Prop :=
  ∀ h h' r, m h = (h', r) → h' = h.






(** The alert [build_alert] makes from a payload whose severity is the string [s]. *)
Definition new_alert (h : gmap loc pyval) (alert_data : gmap string pyref) (now : Z) (s : string)
  : Alert :=
  mkAlert (generate_alert_id h alert_data)
          (get alert_data "title" (JStr "Unknown Alert"))
          (get alert_data "description" (JStr EmptyString))
          (PyStr.lower s)
          (get alert_data "source" (JStr "unknown"))
          now
          (get alert_data "tags" (JList []))
          (get alert_data "metadata" (JDict []))
          "new" None.

(** The alert is well typed where it matters: its tags are the list [l] and
    its metadata the dict [d]. *)
Definition typed (h : gmap loc pyval) (a : Alert) (l : list pyval)
    (d : list (string * pyval)) : Prop :=
  fetch h (tags a) = JList l ∧ fetch h (metadata a) = JDict d.

(** [a'] differs from [a] at most in its tags and metadata. *)
Definition same_but_objects (a a' : Alert) : Prop :=
  alert_id a' = alert_id a ∧ title a' = title a ∧ description a' = description a
  ∧ severity a' = severity a ∧ source a' = source a ∧ timestamp a' = timestamp a
  ∧ status a' = status a ∧ assigned_to a' = assigned_to a.

(** A computation that, from a heap satisfying [P], returns without
    raising and establishes [Q]. *)
Definition total {A : Type} (P : gmap loc pyval → Prop) (m : Py A)
    (Q : A → gmap loc pyval → Prop) : Prop :=
  ∀ h, P h → ∃ h' x, m h = (h', Ok x) ∧ Q x h'.

(** The heaps [h0] and [h] hold the same strings at the same places. *)
Definition same_strings (h0 h : gmap loc pyval) : Prop :=
  ∀ l s, h !! l = Some (JStr s) ↔ h0 !! l = Some (JStr s).

(** The state of an alert during the enrichment of [a0], whose tags were
    [l0], begun in the heap [h0]: the tags have grown at the end, the
    metadata is [d], and no string was touched. *)
Definition enriching (h0 : gmap loc pyval) (a0 : Alert) (l0 : list pyval)
    (d : list (string * pyval)) (a : Alert) (h : gmap loc pyval) : Prop :=
  ∃ l', typed h a (l0 ++ l') d ∧ same_but_objects a0 a ∧ same_strings h0 h.

(** The metadata after enrichment of an alert of severity [sev]. *)
Definition enriched_metadata (sev : string) (d : list (string * pyval))
  : list (string * pyval) :=
  if String.eqb sev "critical" then
    PyVal.dict_set (PyVal.dict_set d "requires_immediate_attention" (JBool true))
                   "max_response_time" (JStr "15 minutes")
  else if String.eqb sev "warning" then
    PyVal.dict_set (PyVal.dict_set d "requires_attention" (JBool true))
                   "max_response_time" (JStr "1 hour")
  else d.

(** The escalation test on a description [s] and a severity. *)
Definition escalates (s sev : string) : bool :=
  existsb (λ kw, PyStr.contains kw (PyStr.lower s)) escalation_keywords
  && String.eqb sev "warning".

(** The description contains [kw] when case is ignored: some part of it
    is [kw] once lowered. *)
Definition contains_nocase (kw s : string) : Prop :=
  ∃ pre mid post, s = pre +:+ mid +:+ post ∧ PyStr.lower mid = kw.

(** The owner the escalation step assigns. *)
Definition owner (src : pyval) (old : option string) : option string :=
  if PyVal.py_eq src (JStr "kubernetes") then Some "k8s_team"
  else if PyVal.py_eq src (JStr "aws") then Some "cloud_team"
  else if PyVal.py_eq src (JStr "database") then Some "dba_team"
  else old.

(** The attributes [getattr] finds on an alert. *)
Definition alert_fields : list string :=
  [ "id"; "title"; "description"; "severity"; "source"; "timestamp"; "tags";
    "metadata"; "status"; "assigned_to" ].

(** A list without its repetitions, each name at its first place. *)
Fixpoint first_seen (l : list string) : list string :=
  match l with
  | [] => []
  | x :: r => x :: filter (λ y, y ≠ x) (first_seen r)
  end.

(** The number of per-channel results with a given status. *)
Definition count_status (st : string) (rs : list ChannelResult) : nat :=
  length (filter (λ r, result_status r = st) rs).

Section DispatchSpec.
Context `{Interpreter} `{Senders}.

(** What the dispatcher records for one routed name, on its own. *)
Definition outcome (self : AlertProcessor) (h : gmap loc pyval) (alert : Alert)
    (channel_name : string) : ChannelResult :=
  match find_channel self channel_name with
  | Some ch =>
      if enabled ch then
        mkResult channel_name (if send h alert ch then "success" else "failed")
                 None (Some (type ch))
      else mkResult channel_name "skipped" (Some "Channel not found or disabled") None
  | None => mkResult channel_name "skipped" (Some "Channel not found or disabled") None
  end.

End DispatchSpec.

(** The fingerprint as a function of three values: the first twelve
    hexadecimal digits of the MD5 of their concatenated [str]. *)
Definition fingerprint (title source description : pyval) : string :=
  String.substring 0 12
    (MD5.hexdigest (PyStr.encode (PyVal.str title +:+ PyVal.str source
                                  +:+ PyVal.str description))).

(** The three severities of the data model. *)
Definition valid_severity (s : string) : Prop :=
  s = "critical" ∨ s = "warning" ∨ s = "info".

Definition all_valid (self : AlertProcessor) : Prop :=
  (∀ k a, active_alerts self !! k = Some a → valid_severity (severity a))
  ∧ (∀ a, a ∈ alert_history self → valid_severity (severity a)).

(** A sequence of [process_alert] calls, each with its payload and its two
    readings of the clock. *)
Fixpoint process_all (calls : list (gmap string pyref * Z * Z))
    (h : gmap loc pyval) (self : AlertProcessor) : gmap loc pyval * AlertProcessor :=
  match calls with
  | [] => (h, self)
  | (alert_data, now_created, now_checked) :: rest =>
      let '(h', (_, self')) := process_alert self alert_data now_created now_checked h in
      process_all rest h' self'
  end.

(** ** Scenarios *)

Module Scenario.

(** The end-to-end payload of the specification. *)
Definition db_down : gmap string pyref :=
  {[ "title" := Val (JStr "DB down");
     "description" := Val (JStr "database connection failed");
     "severity" := Val (JStr "warning");
     "source" := Val (JStr "database") ]}.

Definition ten_o_clock : Z := hours 10.

Definition after_db_down : gmap loc pyval * (option Alert * AlertProcessor) :=
  process_alert init db_down ten_o_clock ten_o_clock ∅.

Definition db_alert : Alert :=
  mkAlert "4743f195745c" (Val (JStr "DB down")) (Val (JStr "database connection failed"))
          "critical" (Val (JStr "database")) ten_o_clock
          (Val (JList [JStr "business_hours"; JStr "auto_escalated"]))
          (Val (JDict [("requires_attention", JBool true);
                       ("max_response_time", JStr "1 hour")]))
          "new" (Some "dba_team").

(** The same report sent as informational. *)
Definition db_down_info : gmap string pyref :=
  <[ "severity" := Val (JStr "info") ]> db_down.

Definition db_alert_info : Alert :=
  mkAlert "4743f195745c" (Val (JStr "DB down")) (Val (JStr "database connection failed"))
          "info" (Val (JStr "database")) ten_o_clock
          (Val (JList [JStr "business_hours"]))
          (Val (JDict []))
          "new" (Some "dba_team").

(** The informational report, a day later. *)
Definition db_alert_next_day : Alert :=
  mkAlert "4743f195745c" (Val (JStr "DB down")) (Val (JStr "database connection failed"))
          "info" (Val (JStr "database")) (hours 34)
          (Val (JList [JStr "business_hours"]))
          (Val (JDict []))
          "new" (Some "dba_team").

(** A report whose tags are null. *)
Definition null_tags : gmap string pyref :=
  {[ "title" := Val (JStr "Backup finished"); "tags" := Val JNull ]}.

(** An alert as it reaches the escalation step. *)
Definition api_warning : Alert :=
  mkAlert "0123456789ab" (Val (JStr "API")) (Val (JStr "Service DOWN since noon"))
          "warning" (Val (JStr "monitoring")) ten_o_clock
          (Val (JList [JStr "api"])) (Val (JDict [])) "new" None.

(** A warning whose sender already flagged it in the metadata. *)
Definition flagged : gmap string pyref :=
  {[ "title" := Val (JStr "DB down");
     "description" := Val (JStr "db down");
     "severity" := Val (JStr "warning");
     "metadata" := Val (JDict [("requires_immediate_attention", JBool true)]) ]}.

(** A stored alert that is critical and comes from kubernetes. *)
Definition pod_crash : Alert :=
  mkAlert "0123456789ab" (Val (JStr "Pod crash")) (Val (JStr "CrashLoopBackOff")) "critical"
          (Val (JStr "kubernetes")) ten_o_clock (Val (JList [JStr "container_platform"]))
          (Val (JDict [])) "new" (Some "k8s_team").

(** An interpreter for the scenarios: of the attributes every object has
    it is given the docstring of the class. *)
Definition interpreter : Interpreter :=
  {| object_attribute := λ _ _ key,
       if String.eqb key "__doc__"
       then Some (AVal (JStr "Data class for alert information")) else None |}.

(** A rule that asks for [None] on an attribute alerts do not have. *)
Definition unowned_rule : RoutingRule :=
  mkRule "unowned" [("team", AVal JNull)] ["email_ops"] (minutes 30).

Definition unowned_processor : AlertProcessor :=
  mkProcessor ∅ [] _setup_notification_channels [unowned_rule] (minutes 5).

(** A processor with a text-message channel and a disabled chat channel. *)
Definition sms_processor : AlertProcessor :=
  mkProcessor ∅ []
    [ mkChannel "email_ops" "email" (JDict []) true;
      mkChannel "slack_critical" "slack" (JDict []) false;
      mkChannel "sms_oncall" "sms" (JDict [("number", JStr "+4512345678")]) true ]
    [ mkRule "critical_alerts" [("severity", AVal (JStr "critical"))]
             ["email_ops"; "slack_critical"; "sms_oncall"] (minutes 15) ]
    (minutes 5).

(** A processor whose chat channel is disabled. *)
Definition quiet_chat_processor : AlertProcessor :=
  mkProcessor ∅ []
    [ mkChannel "email_ops" "email" (JDict []) true;
      mkChannel "slack_critical" "slack" (JDict []) false;
      mkChannel "pagerduty" "webhook" (JDict []) true ]
    _setup_routing_rules (minutes 5).

(** Senders that deliver everything. *)
Definition all_delivered : Senders :=
  {| send_email_notification := λ _ _ _, true;
     send_slack_notification := λ _ _ _, true;
     send_webhook_notification := λ _ _ _, true |}.

(** Senders of which the mail server is down. *)
Definition mail_down : Senders :=
  {| send_email_notification := λ _ _ _, false;
     send_slack_notification := λ _ _ _, true;
     send_webhook_notification := λ _ _ _, true |}.



Definition seven_o_clock : Z := hours 7.




(** A payload without title and source, and one that spells out the
    defaults, an hour later. *)
Definition spelled_out : gmap string pyref :=
  {[ "title" := Val (JStr "Unknown Alert"); "source" := Val (JStr "unknown") ]}.

Definition after_two_unknown : gmap loc pyval * (option Alert * AlertProcessor) :=
  let r := process_alert init ∅ seven_o_clock seven_o_clock ∅ in
  process_alert (snd (snd r)) spelled_out (hours 8) (hours 8) (fst r).

Definition high_load : gmap string pyref :=
  {[ "title" := Val (JStr "Load"); "severity" := Val (JStr "HIGH") ]}.

End Scenario.

(** * The rest of the module and its callers *)

(** [bool(v)] *)
Definition truthy (v : pyval) : bool :=
  match v with
  | JNull => false
  | JBool b => b
  | JInt n => negb (n =? 0)
  | JStr s => negb (String.eqb s EmptyString)
  | JList items => match items with [] => false | _ => true end
  | JDict entries => match entries with [] => false | _ => true end
  end.

(** ** The send methods

    Each method builds its message inside a [try] and returns [False] on
    any exception.  What can raise is [channel_config.get] on a
    configuration that is no dict, [', '.join(...)] on something that is
    no collection of strings, [startswith] on a URL that is no string, and
    the HTTP request.  The request is the one thing left to the outside:
    [post url h alert config] tells whether [requests.post] followed by
    [raise_for_status] returned without raising. *)

Class Network : Type := {
  post : pyval → gmap loc pyval → Alert → pyval → bool
}.

Module Send.

Definition is_str (v : pyval) : bool :=
  match v with
  | JStr _ => true
  | _ => false
  end.

(** [', '.join(v)] returns for a list of strings, for a string and for a
    dict (whose keys are strings), and raises [TypeError] otherwise. *)
Definition join (v : pyval) : option unit :=
  match v with
  | JList items => if forallb is_str items then Some tt else None
  | JStr _ => Some tt
  | JDict _ => Some tt
  | _ => None
  end.

(** [channel_config.get(k, d)]; only a dict has [get]. *)
Definition config_get (channel_config : pyval) (k : string) (d : pyval) : option pyval :=
  match channel_config with
  | JDict entries => Some (default d (PyVal.dict_get entries k))
  | _ => None
  end.

Definition slack_placeholder : string :=
  "https://hooks.slack.com/services/YOUR/SLACK/WEBHOOK".

Definition send_email_notification (h : gmap loc pyval) (alert : Alert)
    (channel_config : pyval) : bool :=
  default false
    (sender ← config_get channel_config "sender" (JStr "alerts@company.com");
     recipients ← config_get channel_config "recipients" (JList []);
     _ ← join recipients;
     _ ← join (fetch h (tags alert));
     Some true).

Definition send_slack_notification `{Network} (h : gmap loc pyval) (alert : Alert)
    (channel_config : pyval) : bool :=
  default false
    (_ ← config_get channel_config "channel" (JStr "#alerts");
     _ ← config_get channel_config "username" (JStr "DevOps Bot");
     _ ← join (fetch h (tags alert));
     webhook_url ← config_get channel_config "webhook_url" JNull;
     if truthy webhook_url && negb (PyVal.py_eq webhook_url (JStr slack_placeholder))
     then (if post webhook_url h alert channel_config then Some true else None)
     else Some true).

Definition send_webhook_notification `{Network} (h : gmap loc pyval) (alert : Alert)
    (channel_config : pyval) : bool :=
  default false
    (webhook_url ← config_get channel_config "url" JNull;
     if truthy webhook_url then
       match webhook_url with
       | JStr url =>
           if String.prefix "https://events.pagerduty.com" url then Some true
           else if post webhook_url h alert channel_config then Some true else None
       | _ => None
       end
     else Some true).

(** The processor's own senders, over a network. *)
Definition senders `{Network} : Senders :=
  Build_Senders send_email_notification send_slack_notification
                send_webhook_notification.

End Send.

(** A network on which every request fails. *)
Definition unreachable : Network := Build_Network (λ _ _ _ _, false).

(** A critical alert one of whose tags is a number. *)
Definition numbered_tag : Alert :=
  set_tags Scenario.pod_crash (Val (JList [JStr "pod"; JInt 7])).

(** ** The periodic job

    [process_pending_alerts] builds its two sample payloads anew on every
    call, processes each and notifies for each alert produced; it returns
    the number of alerts produced.  The metadata of the first sample holds
    a float, which [pyval] does not have: it is the parameter
    [cpu_percent].  Each call of [process_alert] comes with its two
    readings of the clock. *)

Definition cpu_sample (cpu_percent : pyval) : gmap string pyref :=
  {[ "title" := Val (JStr "High CPU Usage on Production Server");
     "description" :=
       Val (JStr "CPU usage has exceeded 90% for the last 5 minutes on server prod-web-01");
     "severity" := Val (JStr "warning");
     "source" := Val (JStr "monitoring");
     "tags" := Val (JList [JStr "cpu"; JStr "performance"; JStr "production"]);
     "metadata" := Val (JDict [("server", JStr "prod-web-01");
                               ("cpu_percent", cpu_percent)]) ]}.

Definition pod_sample : gmap string pyref :=
  {[ "title" := Val (JStr "Kubernetes Pod CrashLoopBackOff");
     "description" :=
       Val (JStr "Pod 'api-service-7d4b8c9f-xyz' is in CrashLoopBackOff state");
     "severity" := Val (JStr "critical");
     "source" := Val (JStr "kubernetes");
     "tags" := Val (JList [JStr "pod"; JStr "crash"; JStr "api"]);
     "metadata" := Val (JDict [("namespace", JStr "production");
                               ("pod", JStr "api-service-7d4b8c9f-xyz")]) ]}.

Definition sample_alerts (cpu_percent : pyval) : list (gmap string pyref) :=
  [ cpu_sample cpu_percent; pod_sample ].

Section Pending.
Context `{Interpreter} `{Senders}.

(** The loop [for alert_data in sample_alerts], each payload with the two
    readings of the clock of its [process_alert] call. *)
Fixpoint pending_loop (calls : list (gmap string pyref * (Z * Z)))
    (self : AlertProcessor) (h : gmap loc pyval) (processed_count : nat)
  : gmap loc pyval * (nat * AlertProcessor) :=
  match calls with
  | [] => (h, (processed_count, self))
  | (alert_data, (now_created, now_checked)) :: rest =>
      let '(h', (alert, self')) :=
        process_alert self alert_data now_created now_checked h in
      match alert with
      | Some a =>
          let _ := notify_alert self' h' a in
          pending_loop rest self' h' (S processed_count)
      | None => pending_loop rest self' h' processed_count
      end
  end.

(** [clock1] and [clock2] are the readings of the clock for the first and
    for the second sample. *)
Definition process_pending_alerts (self : AlertProcessor) (cpu_percent : pyval)
    (clock1 clock2 : Z * Z) (h : gmap loc pyval)
  : gmap loc pyval * (nat * AlertProcessor) :=
  pending_loop (zip (sample_alerts cpu_percent) [clock1; clock2]) self h 0%nat.

(** ** The HTTP entry point ([create_alert] of the Flask application)

    [body] is what [request.get_json()] returned.  A body that is no dict
    has no [get]: [process_alert] catches the [AttributeError] and returns
    [None].  A decoded body is nobody else's: its values are carried by
    value. *)
Inductive response : Type :=
| BadRequest
| Processed (alert_id : string) (notifications : NotificationResults)
| Deduplicated.

Definition payload_of (entries : list (string * pyval)) : gmap string pyref :=
  list_to_map (map (λ kv, (fst kv, Val (snd kv))) entries).

Definition create_alert (self : AlertProcessor) (body : pyval)
    (now_created now_checked : Z) (h : gmap loc pyval)
  : gmap loc pyval * (response * AlertProcessor) :=
  if negb (truthy body) then (h, (BadRequest, self))
  else
    match body with
    | JDict entries =>
        let '(h', (alert, self')) :=
          process_alert self (payload_of entries) now_created now_checked h in
        match alert with
        | Some a => (h', (Processed (alert_id a) (notify_alert self' h' a), self'))
        | None => (h', (Deduplicated, self'))
        end
    | _ => (h, (Deduplicated, self))
    end.

End Pending.

(** The processor after a run of the periodic job at ten o'clock. *)
Definition cpu_alert : Alert :=
  mkAlert "ed63df09a7b9" (Val (JStr "High CPU Usage on Production Server"))
          (Val (JStr "CPU usage has exceeded 90% for the last 5 minutes on server prod-web-01"))
          "warning" (Val (JStr "monitoring")) Scenario.ten_o_clock
          (Val (JList [JStr "cpu"; JStr "performance"; JStr "production";
                       JStr "business_hours"]))
          (Val (JDict [("server", JStr "prod-web-01"); ("cpu_percent", JInt 92);
                       ("requires_attention", JBool true);
                       ("max_response_time", JStr "1 hour")]))
          "new" None.

Definition pod_alert : Alert :=
  mkAlert "e279d9b65902" (Val (JStr "Kubernetes Pod CrashLoopBackOff"))
          (Val (JStr "Pod 'api-service-7d4b8c9f-xyz' is in CrashLoopBackOff state"))
          "critical" (Val (JStr "kubernetes")) Scenario.ten_o_clock
          (Val (JList [JStr "pod"; JStr "crash"; JStr "api"; JStr "business_hours";
                       JStr "container_platform"; JStr "pod_issue"]))
          (Val (JDict [("namespace", JStr "production");
                       ("pod", JStr "api-service-7d4b8c9f-xyz");
                       ("requires_immediate_attention", JBool true);
                       ("max_response_time", JStr "15 minutes")]))
          "new" (Some "k8s_team").

Definition after_first_run : AlertProcessor := store (store init cpu_alert) pod_alert.

(** ** More notions used in the statements *)

(** The field [k] of the payload is absent or carried by value. *)
Definition by_value (alert_data : gmap string pyref) (k : string) : Prop :=
  ∀ l, alert_data !! k ≠ Some (Ref l).



(** What holds of every processor obtained from [init] by calls of
    [process_alert]: an active alert is stored under its own id and is in
    the history, and the configuration is the initial one. *)
Definition well_formed (self : AlertProcessor) : Prop :=
  (∀ k a, active_alerts self !! k = Some a → alert_id a = k ∧ a ∈ alert_history self)
  ∧ (size (active_alerts self) ≤ length (alert_history self))%nat
  ∧ (∀ a, a ∈ alert_history self → PyStr.lower (severity a) = severity a)
  ∧ notification_channels self = _setup_notification_channels
  ∧ routing_rules self = _setup_routing_rules
  ∧ deduplication_window self = minutes 5.

(** The tags enrichment and escalation can append. *)
Definition pipeline_tags : list string :=
  [ "night_hours"; "business_hours"; "container_platform"; "pod_issue"; "node_issue";
    "cloud_platform"; "compute_issue"; "database_issue"; "auto_escalated" ].

(** The tags enrichment appends, by the hour of the timestamp and by the
    source and the lowered description. *)
Definition hour_tags (t : Z) : list string :=
  if (0 <=? hour_of t) && (hour_of t <? 6) then ["night_hours"]
  else if (9 <=? hour_of t) && (hour_of t <? 17) then ["business_hours"]
  else [].

Definition source_tags (src : pyval) (d : string) : list string :=
  if PyVal.py_eq src (JStr "kubernetes") then
    "container_platform" ::
      (if PyStr.contains "pod" d then ["pod_issue"]
       else if PyStr.contains "node" d then ["node_issue"] else [])
  else if PyVal.py_eq src (JStr "aws") then
    "cloud_platform" ::
      (if PyStr.contains "ec2" d then ["compute_issue"]
       else if PyStr.contains "rds" d then ["database_issue"] else [])
  else [].

(** The state of an alert during the enrichment of [a0], begun in the
    heap [h0]: the tags [ts] have been appended to its tags [l0]. *)
Definition appended (h0 : gmap loc pyval) (a0 : Alert) (l0 : list pyval)
    (d : list (string * pyval)) (ts : list string) (a : Alert) (h : gmap loc pyval) : Prop :=
  typed h a (l0 ++ map JStr ts) d ∧ same_but_objects a0 a ∧ same_strings h0 h.


(** The sum of the counters of a severity breakdown. *)
Definition total_count (counts : list (string * Z)) : Z :=
  fold_right (λ kv acc, snd kv + acc) 0 counts.

Fixpoint count_of (counts : list (string * Z)) (k : string) : option Z :=
  match counts with
  | [] => None
  | (k', n) :: r => if String.eqb k' k then Some n else count_of r k
  end.

(** * Properties *)

(** ** The hash and the formatting agree with Python on test vectors *)

Example md5_empty :
  MD5.hexdigest (PyStr.encode EmptyString) = "d41d8cd98f00b204e9800998ecf8427e".
Proof. by vm_compute. Qed.

Example md5_abc : MD5.hexdigest (PyStr.encode "abc") = "900150983cd24fb0d6963f7d28e17f72".
Proof. by vm_compute. Qed.

Example md5_two_blocks :
  MD5.hexdigest (repeat 97 56) = "3b0c8ac703f828b04c6c197006d17218".
Proof. by vm_compute. Qed.

Example md5_utf8 :
  MD5.hexdigest (PyStr.encode (String (PyStr.chr 233) EmptyString))
  = "66ddcd97cfdeabb2f6fb8a999b4bc76f".
Proof. by vm_compute. Qed.

Example str_of_values :
  PyVal.str (JList [JInt 1; JStr "a"; JNull; JBool true; JDict [("k", JList [JInt (-3)])]])
  = "[1, 'a', None, True, {'k': [-3]}]".
Proof. by vm_compute. Qed.

(** ** Running a computation *)

Lemma bind_ok {A B : Type} (m : Py A) (f : A → Py B) h h1 x :
  m h = (h1, Ok x) → bind m f h = f x h1.
Proof. intros E. unfold bind. by rewrite E. Qed.

Lemma bind_raise {A B : Type} (m : Py A) (f : A → Py B) h h1 e :
  m h = (h1, Raise e) → bind m f h = (h1, Raise e).
Proof. intros E. unfold bind. by rewrite E. Qed.

Lemma bind_inv {A B : Type} (m : Py A) (f : A → Py B) h h' r :
  bind m f h = (h', r) →
  (∃ h1 x, m h = (h1, Ok x) ∧ f x h1 = (h', r))
  ∨ (∃ e, m h = (h', Raise e) ∧ r = Raise e).
Proof.
  unfold bind. destruct (m h) as [h1 [x|e]]; intros E.
  - left. by exists h1, x.
  - right. exists e. by inversion E.
Qed.

(** ** What enrichment and escalation may change *)

Lemma keeps_refl a : keeps a a.
Proof. unfold keeps. tauto. Qed.

Lemma keeps_trans a b c : keeps a b → keeps b c → keeps a c.
Proof.
  unfold keeps. intros (?&?&?&?&?&?&?&?&Hs) (?&?&?&?&?&?&?&?&Hs').
  repeat split; try congruence.
  destruct Hs' as [-> | ->]; [exact Hs | by right].
Qed.

Lemma frame_refl a h : frame a h h.
Proof. by intros l _ _. Qed.

Lemma frame_trans a b h1 h2 h3 :
  keeps a b → frame a h1 h2 → frame b h2 h3 → frame a h1 h3.
Proof.
  intros (Ht & Hm & _) F1 F2 l Hl1 Hl2.
  rewrite F2; [by apply F1 | by rewrite Ht | by rewrite Hm].
Qed.

Lemma safe_ret a a' : keeps a a' → safe a (ret a').
Proof.
  intros K h h' r E. inversion E; subst. split; [apply frame_refl|].
  intros ? [= <-]. exact K.
Qed.

Lemma safe_bind a (m : Py Alert) (f : Alert → Py Alert) :
  safe a m → (∀ a1, keeps a a1 → safe a1 (f a1)) → safe a (bind m f).
Proof.
  intros Hm Hf h h' r E.
  destruct (bind_inv _ _ _ _ _ E) as [(h1 & x & E1 & E2) | (e & E1 & ->)].
  - destruct (Hm _ _ _ E1) as [F1 K1]. specialize (K1 x eq_refl).
    destruct (Hf x K1 _ _ _ E2) as [F2 K2].
    split; [by eapply frame_trans | intros a' ->; eapply keeps_trans; eauto].
  - destruct (Hm _ _ _ E1) as [F1 _]. split; [done | by intros ? [=]].
Qed.

Lemma safe_bind_reads {A : Type} a (m : Py A) (f : A → Py Alert) :
  reads m → (∀ x, safe a (f x)) → safe a (bind m f).
Proof.
  intros Hm Hf h h' r E.
  destruct (bind_inv _ _ _ _ _ E) as [(h1 & x & E1 & E2) | (e & E1 & ->)].
  - rewrite (Hm _ _ _ E1) in E2. by apply (Hf x).
  - rewrite (Hm _ _ _ E1). split; [apply frame_refl | by intros ? [=]].
Qed.

Lemma safe_weaken a b m : keeps a b → safe b m → safe a m.
Proof.
  intros K Hm h h' r E. destruct (Hm _ _ _ E) as [F K'].
  split; [| intros a' ->; eapply keeps_trans; eauto].
  eapply frame_trans; [exact K | apply frame_refl | exact F].
Qed.

Lemma reads_ret {A : Type} (x : A) : reads (ret x).
Proof. intros h h' r E. by inversion E. Qed.

Lemma reads_raise {A : Type} e : reads (@raise A e).
Proof. intros h h' r E. by inversion E. Qed.

Lemma reads_bind {A B : Type} (m : Py A) (f : A → Py B) :
  reads m → (∀ x, reads (f x)) → reads (bind m f).
Proof.
  intros Hm Hf h h' r E.
  destruct (bind_inv _ _ _ _ _ E) as [(h1 & x & E1 & E2) | (e & E1 & ->)].
  - rewrite <- (Hm _ _ _ E1). by apply (Hf x _ _ _ E2).
  - by apply (Hm _ _ _ E1).
Qed.

Lemma reads_str_lower v : reads (str_lower v).
Proof. destruct v; first [apply reads_ret | apply reads_raise]. Qed.

Lemma reads_deref r : reads (deref r).
Proof. intros h h' x E. by inversion E. Qed.

Lemma bind_get_heap {A : Type} (f : gmap loc pyval → Py A) h :
  bind get_heap f h = f h h.
Proof. reflexivity. Qed.

Lemma reads_get_heap : reads get_heap.
Proof. intros h h' x E. by inversion E. Qed.

Lemma reads_description_has a kw : reads (description_has a kw).
Proof.
  apply reads_bind; [apply reads_deref | intros text].
  apply reads_bind; [apply reads_str_lower | intros; apply reads_ret].
Qed.

Lemma reads_source_is a s : reads (source_is a s).
Proof. apply reads_bind; [apply reads_deref | intros; apply reads_ret]. Qed.

Lemma reads_any_keyword a kws : reads (any_keyword a kws).
Proof.
  induction kws as [|kw kws IH]; simpl; [apply reads_ret|].
  apply reads_bind; [apply reads_description_has|].
  intros []; [apply reads_ret | exact IH].
Qed.

Lemma reads_build_alert alert_data now : reads (build_alert alert_data now).
Proof.
  unfold build_alert.
  repeat (apply reads_bind;
          [first [apply reads_get_heap | apply reads_deref | apply reads_str_lower] | intros ?]).
  apply reads_ret.
Qed.

Lemma safe_tags_append a t : safe a (tags_append a t).
Proof.
  intros h h' r E. unfold tags_append, bind, list_append, ret in E.
  destruct (tags a) as [v|l] eqn:Et.
  - destruct v; inversion E; subst; (split; [apply frame_refl|]);
      intros a' [=]; subst; unfold keeps; simpl; rewrite ?Et; tauto.
  - destruct (h !! l) as [[]|] eqn:El; inversion E; subst;
      try (split; [apply frame_refl | by intros ? [=]]).
    split.
    + intros l' Hl _. rewrite Et in Hl. simpl in Hl.
      apply lookup_insert_ne. congruence.
    + intros a' [= <-]. unfold keeps; simpl; rewrite ?Et; tauto.
Qed.

Lemma safe_metadata_set a k v : safe a (metadata_set a k v).
Proof.
  intros h h' r E. unfold metadata_set, bind, dict_setitem, ret in E.
  destruct (metadata a) as [w|l] eqn:Et.
  - destruct w; inversion E; subst; (split; [apply frame_refl|]);
      intros a' [=]; subst; unfold keeps; simpl; rewrite ?Et; tauto.
  - destruct (h !! l) as [[]|] eqn:El; inversion E; subst;
      try (split; [apply frame_refl | by intros ? [=]]).
    split.
    + intros l' _ Hl. rewrite Et in Hl. simpl in Hl.
      apply lookup_insert_ne. congruence.
    + intros a' [= <-]. unfold keeps; simpl; rewrite ?Et; tauto.
Qed.

Ltac safe_step :=
  first
    [ apply safe_tags_append
    | apply safe_metadata_set
    | apply safe_ret; apply keeps_refl
    | apply safe_bind_reads;
      [first [apply reads_description_has | apply reads_any_keyword | apply reads_source_is]
      | intros ?]
    | apply safe_bind; [| intros ? ?]
    | match goal with |- safe _ (if ?c then _ else _) => destruct c end ].

Lemma safe_enrich_alert a : safe a (_enrich_alert a).
Proof. unfold _enrich_alert. repeat safe_step. Qed.

Lemma keeps_set_severity_critical a : keeps a (set_severity a "critical").
Proof. unfold keeps; simpl. tauto. Qed.

Lemma keeps_set_assigned_to a o : keeps a (set_assigned_to a o).
Proof. unfold keeps; simpl. tauto. Qed.

Lemma safe_apply_severity_rules a : safe a (_apply_severity_rules a).
Proof.
  unfold _apply_severity_rules.
  apply safe_bind_reads; [apply reads_any_keyword | intros hit].
  apply safe_bind.
  - destruct (_ && _); [| apply safe_ret, keeps_refl].
    eapply safe_weaken; [apply keeps_set_severity_critical | apply safe_tags_append].
  - intros a1 K1.
    repeat first
      [ apply safe_ret; first [apply keeps_set_assigned_to | apply keeps_refl]
      | apply safe_bind_reads; [apply reads_source_is | intros ?]
      | match goal with |- safe _ (if ?c then _ else _) => destruct c end ].
Qed.

(** ** Ingestion *)

Lemma build_alert_spec alert_data now h :
  build_alert alert_data now h =
    match fetch h (get alert_data "severity" (JStr "info")) with
    | JStr s => (h, Ok (new_alert h alert_data now s))
    | _ => (h, Raise AttributeError)
    end.
Proof.
  unfold build_alert, bind, get_heap, deref, str_lower, new_alert, ret, raise.
  by destruct (fetch h (get alert_data "severity" (JStr "info"))).
Qed.

Lemma deduplicate_alert_true self h now a k existing :
  active_alerts self !! k = Some existing →
  is_recent_duplicate h (deduplication_window self) now a existing = true →
  deduplicate_alert self h now a = true.
Proof.
  intros Hk Hd. unfold deduplicate_alert. apply existsb_exists.
  exists (k, existing). split; [| exact Hd].
  apply list_elem_of_In, elem_of_map_to_list, Hk.
Qed.

Lemma deduplicate_alert_false self h now a :
  deduplicate_alert self h now a = false ↔
  ∀ k existing, active_alerts self !! k = Some existing →
                is_recent_duplicate h (deduplication_window self) now a existing = false.
Proof.
  unfold deduplicate_alert. split.
  - intros Hf k existing Hk.
    destruct (is_recent_duplicate _ _ _ _ existing) eqn:E; [| done].
    pose proof (deduplicate_alert_true self h now a k existing Hk E) as Ht.
    unfold deduplicate_alert in Ht. congruence.
  - intros Hall. apply not_true_is_false. intros Ht.
    apply existsb_exists in Ht as ([k existing] & Hin & Hd).
    apply list_elem_of_In, elem_of_map_to_list in Hin. simpl in Hd.
    rewrite (Hall k existing Hin) in Hd. discriminate.
Qed.

(** The three outcomes of the [try] block. *)
Lemma process_alert_try_cases self alert_data now_created now_checked h :
  match fetch h (get alert_data "severity" (JStr "info")) with
  | JStr s =>
      let a0 := new_alert h alert_data now_created s in
      if deduplicate_alert self h now_checked a0
      then process_alert_try self alert_data now_created now_checked h = (h, Ok (None, self))
      else process_alert_try self alert_data now_created now_checked h =
             bind (_enrich_alert a0)
               (λ a1, bind (_apply_severity_rules a1)
                        (λ a2, ret (Some a2, store self a2))) h
  | _ => process_alert_try self alert_data now_created now_checked h = (h, Raise AttributeError)
  end.
Proof.
  unfold process_alert_try.
  pose proof (build_alert_spec alert_data now_created h) as Hb.
  destruct (fetch h (get alert_data "severity" (JStr "info"))) eqn:Hs;
    try (by rewrite (bind_raise _ _ _ _ _ Hb)).
  simpl. rewrite !(bind_ok _ _ _ _ _ Hb), !bind_get_heap.
  by destruct (deduplicate_alert self h now_checked _).
Qed.

Lemma safe_enrich_then_escalate a :
  safe a (bind (_enrich_alert a) _apply_severity_rules).
Proof.
  apply safe_bind; [apply safe_enrich_alert | intros a1 _; apply safe_apply_severity_rules].
Qed.


(** What is known of a call that returned an alert. *)
Lemma process_alert_some self alert_data now_created now_checked h h' a self' :
  process_alert self alert_data now_created now_checked h = (h', (Some a, self')) →
  ∃ s, fetch h (get alert_data "severity" (JStr "info")) = JStr s
       ∧ deduplicate_alert self h now_checked (new_alert h alert_data now_created s) = false
       ∧ keeps (new_alert h alert_data now_created s) a
       ∧ self' = store self a.
Proof.
  unfold process_alert. intros E.
  pose proof (process_alert_try_cases self alert_data now_created now_checked h) as Hc.
  destruct (fetch h (get alert_data "severity" (JStr "info"))) eqn:Hs;
    try (rewrite Hc in E; by inversion E).
  exists s. split; [done|]. simpl in Hc.
  destruct (deduplicate_alert self h now_checked _) eqn:Hd;
    rewrite Hc in E; [by inversion E|].
  split; [done|].
  set (a0 := new_alert h alert_data now_created s) in *.
  unfold bind in E.
  destruct (_enrich_alert a0 h) as [h1 [a1|e1]] eqn:E1; [| by inversion E].
  destruct (_apply_severity_rules a1 h1) as [h2 [a2|e2]] eqn:E2; [| by inversion E].
  inversion E; subst.
  destruct (safe_enrich_alert a0 _ _ _ E1) as [_ K1].
  destruct (safe_apply_severity_rules a1 _ _ _ E2) as [_ K2].
  split; [| done]. eapply keeps_trans; eauto.
Qed.

Lemma process_alert_none self alert_data now_created now_checked h h' self' :
  process_alert self alert_data now_created now_checked h = (h', (None, self')) →
  self' = self.
Proof.
  unfold process_alert. intros E.
  pose proof (process_alert_try_cases self alert_data now_created now_checked h) as Hc.
  destruct (fetch h (get alert_data "severity" (JStr "info"))) eqn:Hs;
    try (rewrite Hc in E; by inversion E).
  simpl in Hc. destruct (deduplicate_alert self h now_checked _) eqn:Hd;
    rewrite Hc in E; [by inversion E|].
  unfold bind in E.
  destruct (_enrich_alert _ h) as [h1 [a1|e1]]; [| by inversion E].
  destruct (_apply_severity_rules a1 h1) as [h2 [a2|e2]]; by inversion E.
Qed.

(** ** Claims on ingestion *)

Lemma generate_alert_id_fingerprint h alert_data :
  generate_alert_id h alert_data =
    fingerprint (fetch h (get alert_data "title" (JStr EmptyString)))
                (fetch h (get alert_data "source" (JStr EmptyString)))
                (fetch h (get alert_data "description" (JStr EmptyString))).
Proof. reflexivity. Qed.

Lemma get_present (alert_data : gmap string pyref) k d d' :
  is_Some (alert_data !! k) → get alert_data k d = get alert_data k d'.
Proof. intros [v Hv]. unfold get. by rewrite Hv. Qed.

Lemma store_active self a k x :
  active_alerts (store self a) !! k = Some x →
  x = a ∨ active_alerts self !! k = Some x.
Proof.
  simpl. intros [[_ ->] | [_ Hx]]%lookup_insert_Some; [by left | by right].
Qed.

Lemma store_history self a x :
  x ∈ alert_history (store self a) → x = a ∨ x ∈ alert_history self.
Proof.
  simpl. intros [Hx | ->%list_elem_of_singleton]%elem_of_app; [by right | by left].
Qed.

Lemma all_valid_store self a :
  all_valid self → valid_severity (severity a) → all_valid (store self a).
Proof.
  intros [Ha Hh] Hv. split.
  - intros k x Hx. apply store_active in Hx as [-> | Hx]; [done | by eapply Ha].
  - intros x Hx. apply store_history in Hx as [-> | Hx]; [done | by apply Hh].
Qed.



(** C1. When an alert with an equal title and an equal source is active
    and the clock read by the duplicate check is less than five minutes
    after its timestamp, [process_alert] returns [None] and the active map,
    its size, the history and the heap are as before; unless the severity
    is no string, it is the duplicate check that ends the call. *)
Theorem duplicate_is_dropped self h alert_data now_created now_checked k existing :
  active_alerts self !! k = Some existing →
  deduplication_window self = minutes 5 →
  PyVal.py_eq (fetch h (title existing))
              (fetch h (get alert_data "title" (JStr "Unknown Alert"))) = true →
  PyVal.py_eq (fetch h (source existing))
              (fetch h (get alert_data "source" (JStr "unknown"))) = true →
  now_checked - timestamp existing < minutes 5 →
  let r := process_alert self alert_data now_created now_checked h in
  fst (snd r) = None
  ∧ active_alerts (snd (snd r)) = active_alerts self
  ∧ size (active_alerts (snd (snd r))) = size (active_alerts self)
  ∧ alert_history (snd (snd r)) = alert_history self
  ∧ r = (h, (None, self))
  ∧ (∀ s, fetch h (get alert_data "severity" (JStr "info")) = JStr s →
          process_alert_try self alert_data now_created now_checked h = (h, Ok (None, self))).
Proof.
  intros Hk Hw Ht Hs Hlt r.
  assert (∀ s, deduplicate_alert self h now_checked
                 (new_alert h alert_data now_created s) = true) as Hd.
  { intros s. apply (deduplicate_alert_true _ _ _ _ k existing Hk).
    unfold is_recent_duplicate. simpl. rewrite Ht, Hs, Hw. simpl.
    by apply Z.ltb_lt. }
  pose proof (process_alert_try_cases self alert_data now_created now_checked h) as Hc.
  assert (r = (h, (None, self))) as Hr.
  { unfold r, process_alert.
    destruct (fetch h (get alert_data "severity" (JStr "info"))) eqn:E;
      try (by rewrite Hc).
    simpl in Hc. rewrite Hd in Hc. by rewrite Hc. }
  rewrite Hr. simpl. repeat split; try done.
  intros s E. rewrite E in Hc. simpl in Hc. by rewrite Hd in Hc.
Qed.

Lemma duplicate_is_dropped_witness :
  process_alert (snd (snd Scenario.after_db_down)) Scenario.db_down
                (hours 10 + minutes 4) (hours 10 + minutes 4)
                (fst Scenario.after_db_down)
  = (fst Scenario.after_db_down, (None, snd (snd Scenario.after_db_down))).
Proof.
  apply (duplicate_is_dropped (snd (snd Scenario.after_db_down))
           (fst Scenario.after_db_down) Scenario.db_down
           (hours 10 + minutes 4) (hours 10 + minutes 4)
           "4743f195745c" Scenario.db_alert);
    vm_compute; reflexivity.
Defined.




(** C3. The claim fails on the code by a slip: [generate_alert_id] reads
    an absent title and an absent source as the empty string, the
    [Alert(...)] call two lines on reads them as [Unknown Alert] and
    [unknown].  A payload without title and source is stored with the
    defaults and fingerprinted with empty strings; a payload that spells
    the defaults out, an hour later, is stored with the same title, source
    and description and another id, and both are active. *)
Lemma same_fields_other_id :
  map (λ a, (title a, source a, description a))
      (alert_history (snd (snd Scenario.after_two_unknown)))
  = [ (Val (JStr "Unknown Alert"), Val (JStr "unknown"), Val (JStr EmptyString));
      (Val (JStr "Unknown Alert"), Val (JStr "unknown"), Val (JStr EmptyString)) ]
  ∧ map alert_id (alert_history (snd (snd Scenario.after_two_unknown)))
    = [ "d41d8cd98f00"; "51879abaca78" ]
  ∧ size (active_alerts (snd (snd Scenario.after_two_unknown))) = 2%nat.
Proof. by vm_compute. Qed.

(** C8 (as amended). The severity of a stored alert is the payload's
    severity in lower case ([info] when absent), or [critical]; nothing
    checks it against the three severities.  So over any sequence of
    calls, every alert in the active map and in the history has one of the
    three severities provided the processor starts so and every payload's
    severity is, in lower case, one of the three. *)
Theorem severities_stay_valid calls h self :
  all_valid self →
  (∀ alert_data now_created now_checked,
      (alert_data, now_created, now_checked) ∈ calls →
      ∀ h0 s, fetch h0 (get alert_data "severity" (JStr "info")) = JStr s →
              valid_severity (PyStr.lower s)) →
  all_valid (snd (process_all calls h self))
  ∧ (∀ alert_data now_created now_checked h' a self',
       process_alert self alert_data now_created now_checked h = (h', (Some a, self')) →
       ∃ s, fetch h (get alert_data "severity" (JStr "info")) = JStr s
            ∧ (severity a = PyStr.lower s ∨ severity a = "critical")).
Proof.
  intros Hv Hc. split.
  - revert h self Hv. induction calls as [|[[p t] t'] calls IH]; intros h self Hv; [done|].
    simpl. destruct (process_alert self p t t' h) as [h' [[a|] self']] eqn:E.
    + apply IH.
      { intros p0 t0 t0' Hin. apply (Hc p0 t0 t0'). apply elem_of_cons. by right. }
      destruct (process_alert_some _ _ _ _ _ _ _ _ E) as (s & Hs & _ & K & ->).
      apply all_valid_store; [done|].
      destruct K as (_ & _ & _ & _ & _ & _ & _ & _ & [-> | ->]).
      * simpl. eapply (Hc p t t'); [apply elem_of_cons; by left | exact Hs].
      * by left.
    + apply IH.
      { intros p0 t0 t0' Hin. apply (Hc p0 t0 t0'). apply elem_of_cons. by right. }
      by rewrite (process_alert_none _ _ _ _ _ _ _ E).
  - intros p t t' h' a self' E.
    destruct (process_alert_some _ _ _ _ _ _ _ _ E) as (s & Hs & _ & K & _).
    exists s. split; [done|].
    by destruct K as (_ & _ & _ & _ & _ & _ & _ & _ & [-> | ->]); [left | right].
Qed.

Lemma init_all_valid : all_valid init.
Proof.
  split.
  - intros k a Hk. simpl in Hk. by rewrite lookup_empty in Hk.
  - intros a Ha. simpl in Ha. inversion Ha.
Qed.

Lemma severities_stay_valid_witness :
  all_valid (snd (process_all
                    [ (Scenario.db_down, Scenario.ten_o_clock, Scenario.ten_o_clock);
                      (Scenario.db_down_info, hours 11, hours 11) ] ∅ init)).
Proof.
  apply (severities_stay_valid
           [ (Scenario.db_down, Scenario.ten_o_clock, Scenario.ten_o_clock);
             (Scenario.db_down_info, hours 11, hours 11) ] ∅ init init_all_valid).
  intros p t t' Hin h0 s Hs.
  apply elem_of_cons in Hin as [[= -> -> ->] | Hin].
  { vm_compute in Hs. injection Hs as <-. right. left. reflexivity. }
  apply elem_of_cons in Hin as [[= -> -> ->] | Hin].
  { vm_compute in Hs. injection Hs as <-. right. right. reflexivity. }
  inversion Hin.
Defined.

(** C8, the claim as stated fails: a payload whose severity is [HIGH] is
    stored, in the active map and in the history, with the severity
    [high]. *)
Lemma unknown_severity_is_stored :
  let r := process_alert init Scenario.high_load Scenario.seven_o_clock
                         Scenario.seven_o_clock ∅ in
  map severity (alert_history (snd (snd r))) = [ "high" ]
  ∧ severity <$> active_alerts (snd (snd r)) !! "f19dbf2edb3a" = Some "high"
  ∧ ¬ valid_severity "high".
Proof.
  split; [by vm_compute | split; [by vm_compute |]].
  intros [H | [H | H]]; discriminate.
Qed.

(** ** Enrichment and escalation of a well-typed alert *)

Lemma dict_get_set_eq d k v : PyVal.dict_get (PyVal.dict_set d k v) k = Some v.
Proof.
  induction d as [|[k' v'] d IH]; simpl.
  - by rewrite String.eqb_refl.
  - destruct (String.eqb k' k) eqn:E; simpl; rewrite E; [done | exact IH].
Qed.

Lemma dict_get_set_ne d k k' v :
  k ≠ k' → PyVal.dict_get (PyVal.dict_set d k v) k' = PyVal.dict_get d k'.
Proof.
  intros Hne. induction d as [|[k0 v0] d IH]; simpl.
  - destruct (String.eqb k k') eqn:E; [| done]. by apply String.eqb_eq in E.
  - destruct (String.eqb k0 k) eqn:E; simpl.
    + apply String.eqb_eq in E as ->.
      destruct (String.eqb k k') eqn:E'; [| done]. by apply String.eqb_eq in E'.
    + by rewrite IH.
Qed.

Lemma same_but_objects_refl a : same_but_objects a a.
Proof. unfold same_but_objects. tauto. Qed.

Lemma same_but_objects_trans a b c :
  same_but_objects a b → same_but_objects b c → same_but_objects a c.
Proof. unfold same_but_objects. intuition congruence. Qed.

Lemma same_strings_refl h : same_strings h h.
Proof. by intros l s. Qed.

Lemma same_strings_trans h0 h1 h2 :
  same_strings h0 h1 → same_strings h1 h2 → same_strings h0 h2.
Proof. intros H1 H2 l s. etrans; [apply H2 | apply H1]. Qed.

(** Replacing a list or a dict by another one touches no string. *)
Lemma same_strings_insert h l v w :
  h !! l = Some v → (∀ s, v ≠ JStr s) → (∀ s, w ≠ JStr s) →
  same_strings h (<[l := w]> h).
Proof.
  intros Hl Hv Hw l' s. destruct (decide (l = l')) as [<- | Hne].
  - rewrite lookup_insert_eq, Hl. split; intros [= E]; [by destruct (Hw s) | by destruct (Hv s)].
  - by rewrite lookup_insert_ne.
Qed.

Lemma fetch_str_same_strings h0 h r s :
  same_strings h0 h → fetch h r = JStr s ↔ fetch h0 r = JStr s.
Proof.
  intros Hs. destruct r as [v|l]; [done|]. simpl.
  assert (∀ g : gmap loc pyval, default JNull (g !! l) = JStr s ↔ g !! l = Some (JStr s)) as Hd.
  { intros g. destruct (g !! l) as [v|]; simpl; [| by split].
    split; [by intros -> | by intros [= ->]]. }
  by rewrite !Hd.
Qed.

Lemma tags_append_typed h a t l d :
  typed h a l d →
  ∃ h' a', tags_append a t h = (h', Ok a')
           ∧ typed h' a' (l ++ [JStr t]) d ∧ same_but_objects a a'
           ∧ metadata a' = metadata a ∧ ref_of (tags a') = ref_of (tags a)
           ∧ same_strings h h'.
Proof.
  intros [Ht Hm]. unfold tags_append, bind, list_append, ret, typed.
  destruct (tags a) as [v|p] eqn:Et; simpl in Ht.
  - subst v. eexists _, _. split; [done|]. simpl.
    split; [done|]. split; [by unfold same_but_objects|].
    split; [done|]. split; [by rewrite ?Et|]. apply same_strings_refl.
  - destruct (h !! p) as [v|] eqn:Ep; simpl in Ht; [| done]. subst v.
    eexists _, _. split; [done|]. simpl. rewrite lookup_insert_eq. simpl.
    split; [split; [done|] |].
    + destruct (metadata a) as [w|q]; [done|]. simpl in *.
      destruct (decide (p = q)) as [<-|Hne].
      * rewrite Ep in Hm. simpl in Hm. discriminate.
      * by rewrite lookup_insert_ne.
    + split; [by unfold same_but_objects|].
      split; [done|]. split; [by rewrite ?Et|].
      by apply (same_strings_insert h p (JList l)).
Qed.

Lemma metadata_set_typed h a k v l d :
  typed h a l d →
  ∃ h' a', metadata_set a k v h = (h', Ok a')
           ∧ typed h' a' l (PyVal.dict_set d k v) ∧ same_but_objects a a'
           ∧ tags a' = tags a
           ∧ same_strings h h'.
Proof.
  intros [Ht Hm]. unfold metadata_set, bind, dict_setitem, ret, typed.
  destruct (metadata a) as [w|q] eqn:Em; simpl in Hm.
  - subst w. eexists _, _. split; [done|]. simpl.
    split; [done|]. split; [by unfold same_but_objects|].
    split; [done|]. apply same_strings_refl.
  - destruct (h !! q) as [w|] eqn:Eq; simpl in Hm; [| done]. subst w.
    eexists _, _. split; [done|]. simpl. rewrite lookup_insert_eq. simpl.
    split; [split; [| done] |].
    + destruct (tags a) as [w|p]; [done|]. simpl in *.
      destruct (decide (q = p)) as [<-|Hne].
      * rewrite Eq in Ht. simpl in Ht. discriminate.
      * by rewrite lookup_insert_ne.
    + split; [by unfold same_but_objects|]. split; [done|].
      by apply (same_strings_insert h q (JDict d)).
Qed.

Lemma description_has_str h a kw s :
  fetch h (description a) = JStr s →
  description_has a kw h = (h, Ok (PyStr.contains kw (PyStr.lower s))).
Proof. intros E. unfold description_has, bind, deref. by rewrite E. Qed.

Lemma source_is_spec h a s :
  source_is a s h = (h, Ok (PyVal.py_eq (fetch h (source a)) (JStr s))).
Proof. reflexivity. Qed.

Lemma any_keyword_str h a kws s :
  fetch h (description a) = JStr s →
  any_keyword a kws h = (h, Ok (existsb (λ kw, PyStr.contains kw (PyStr.lower s)) kws)).
Proof.
  intros E. induction kws as [|kw kws IH]; simpl; [done|].
  rewrite (bind_ok _ _ _ _ _ (description_has_str h a kw s E)).
  destruct (PyStr.contains kw (PyStr.lower s)); [done | exact IH].
Qed.

(** Rules for [total]. *)
Lemma total_ret {A : Type} (Q : A → gmap loc pyval → Prop) (x : A) :
  total (Q x) (ret x) Q.
Proof. intros h Hh. by exists h, x. Qed.

Lemma total_bind {A B : Type} P (m : Py A) Q (f : A → Py B) R :
  total P m Q → (∀ x, total (Q x) (f x) R) → total P (bind m f) R.
Proof.
  intros Hm Hf h Hh. destruct (Hm h Hh) as (h1 & x & E1 & Hq).
  destruct (Hf x h1 Hq) as (h2 & y & E2 & Hr).
  exists h2, y. split; [| done]. by rewrite (bind_ok _ _ _ _ _ E1).
Qed.

Lemma total_if {A : Type} P (c : bool) (m1 m2 : Py A) Q :
  total P m1 Q → total P m2 Q → total P (if c then m1 else m2) Q.
Proof. by destruct c. Qed.

Lemma total_tags_append h0 a0 l0 d a t :
  total (enriching h0 a0 l0 d a) (tags_append a t) (enriching h0 a0 l0 d).
Proof.
  intros h (l' & T & S & G).
  destruct (tags_append_typed h a t _ _ T) as (h' & a' & E & T' & S' & _ & _ & G').
  exists h', a'. split; [done|]. exists (l' ++ [JStr t])%list.
  split; [by rewrite app_assoc|].
  split; [by eapply same_but_objects_trans | by eapply same_strings_trans].
Qed.

Lemma total_metadata_set h0 a0 l0 d a k v :
  total (enriching h0 a0 l0 d a) (metadata_set a k v)
        (enriching h0 a0 l0 (PyVal.dict_set d k v)).
Proof.
  intros h (l' & T & S & G).
  destruct (metadata_set_typed h a k v _ _ T) as (h' & a' & E & T' & S' & _ & G').
  exists h', a'. split; [done|]. exists l'.
  split; [done|].
  split; [by eapply same_but_objects_trans | by eapply same_strings_trans].
Qed.

Lemma total_description_has h0 a0 l0 d a kw s :
  fetch h0 (description a0) = JStr s →
  total (enriching h0 a0 l0 d a) (description_has a kw) (λ _, enriching h0 a0 l0 d a).
Proof.
  intros Hs h (l' & T & S & G). exists h, (PyStr.contains kw (PyStr.lower s)).
  split; [| by exists l'].
  apply description_has_str. destruct S as (_ & _ & -> & _).
  by apply (fetch_str_same_strings h0 h).
Qed.

Lemma total_source_is h0 a0 l0 d a s :
  total (enriching h0 a0 l0 d a) (source_is a s) (λ _, enriching h0 a0 l0 d a).
Proof. intros h Hh. exists h, (PyVal.py_eq (fetch h (source a)) (JStr s)). by split. Qed.

Ltac total_step s :=
  first
    [ apply total_tags_append
    | apply total_ret
    | apply total_if
    | eapply total_bind;
      [ first [ apply total_tags_append
              | apply total_source_is
              | apply (total_description_has _ _ _ _ _ _ s); assumption ]
      | intros ? ] ].

Lemma enrich_alert_typed h a l d s :
  fetch h (description a) = JStr s → typed h a l d →
  ∃ h' a' l', _enrich_alert a h = (h', Ok a')
              ∧ typed h' a' (l ++ l') (enriched_metadata (severity a) d)
              ∧ same_but_objects a a'
              ∧ same_strings h h'.
Proof.
  intros Hs T.
  assert (total (enriching h a l d a) (_enrich_alert a)
                (enriching h a l (enriched_metadata (severity a) d))) as Ht.
  { unfold _enrich_alert.
    eapply total_bind; [repeat total_step s | intros a1].
    eapply total_bind; [apply total_source_is | intros kubernetes].
    eapply total_bind; [repeat total_step s | intros a2].
    intros h2 (l2 & T2 & S2 & G2). unfold enriched_metadata.
    pose proof S2 as (_ & _ & _ & S2s & _). rewrite S2s.
    assert (enriching h a l d a2 h2) as H2 by (by exists l2).
    destruct (String.eqb (severity a) "critical").
    { destruct (total_metadata_set h a l d a2 "requires_immediate_attention" (JBool true)
                  h2 H2) as (h3 & a3 & E3 & H3).
      destruct (total_metadata_set h a l _ a3 "max_response_time" (JStr "15 minutes")
                  h3 H3) as (h4 & a4 & E4 & H4).
      exists h4, a4. split; [by rewrite (bind_ok _ _ _ _ _ E3) | done]. }
    destruct (String.eqb (severity a) "warning").
    { destruct (total_metadata_set h a l d a2 "requires_attention" (JBool true)
                  h2 H2) as (h3 & a3 & E3 & H3).
      destruct (total_metadata_set h a l _ a3 "max_response_time" (JStr "1 hour")
                  h3 H3) as (h4 & a4 & E4 & H4).
      exists h4, a4. split; [by rewrite (bind_ok _ _ _ _ _ E3) | done]. }
    by exists h2, a2. }
  destruct (Ht h) as (h' & a' & E & l' & T' & S' & G').
  { exists []. rewrite app_nil_r.
    split; [done|]. split; [apply same_but_objects_refl | apply same_strings_refl]. }
  by exists h', a', l'.
Qed.

(** Python's [==] against a string literal holds for that string only. *)
Lemma py_eq_str v s : PyVal.py_eq v (JStr s) = true ↔ v = JStr s.
Proof.
  destruct v; simpl; try (split; [discriminate | intros [=]]).
  rewrite String.eqb_eq. split; [by intros -> | by intros [= ->]].
Qed.

Lemma py_eq_none v : PyVal.py_eq JNull v = true ↔ v = JNull.
Proof. destruct v; simpl; split; (done || discriminate). Qed.

Lemma py_eq_same_strings h0 h r s :
  same_strings h0 h →
  PyVal.py_eq (fetch h r) (JStr s) = PyVal.py_eq (fetch h0 r) (JStr s).
Proof.
  intros G. apply eq_true_iff_eq. rewrite !py_eq_str.
  by apply fetch_str_same_strings.
Qed.

Lemma tags_append_list h a t l :
  fetch h (tags a) = JList l →
  ∃ h' a', tags_append a t h = (h', Ok a')
           ∧ fetch h' (tags a') = JList (l ++ [JStr t])
           ∧ same_but_objects a a'
           ∧ metadata a' = metadata a
           ∧ (∀ d, fetch h (metadata a) = JDict d → fetch h' (metadata a') = JDict d)
           ∧ same_strings h h'.
Proof.
  intros Ht. unfold tags_append, bind, list_append, ret.
  destruct (tags a) as [v|p] eqn:Et; simpl in Ht.
  - subst v. eexists _, _. split; [done|]. simpl.
    split; [done|]. split; [by unfold same_but_objects|].
    split; [done|]. split; [done|]. apply same_strings_refl.
  - destruct (h !! p) as [v|] eqn:Ep; simpl in Ht; [| done]. subst v.
    eexists _, _. split; [done|]. simpl. rewrite lookup_insert_eq. simpl.
    split; [done|]. split; [by unfold same_but_objects|].
    split; [done|]. split.
    + intros d Hd. destruct (metadata a) as [w|q]; [done|]. simpl in *.
      destruct (decide (p = q)) as [<-|Hne].
      * rewrite Ep in Hd. simpl in Hd. discriminate.
      * by rewrite lookup_insert_ne.
    + by apply (same_strings_insert h p (JList l)).
Qed.

Lemma keeps_of_same a a' :
  same_but_objects a a' → ref_of (tags a') = ref_of (tags a) →
  ref_of (metadata a') = ref_of (metadata a) → keeps a a'.
Proof.
  intros (?&?&?&?&?&?&?&?) ? ?. unfold keeps. repeat split; try done. by left.
Qed.

(** The escalation step on an alert whose description is the string [s]
    and whose tags are the list [l]. *)
Lemma apply_severity_rules_typed h a s l :
  fetch h (description a) = JStr s → fetch h (tags a) = JList l →
  ∃ h' a', _apply_severity_rules a h = (h', Ok a')
    ∧ severity a' = (if escalates s (severity a) then "critical" else severity a)
    ∧ fetch h' (tags a') =
        JList (if escalates s (severity a) then l ++ [JStr "auto_escalated"] else l)
    ∧ (escalates s (severity a) = false → h' = h ∧ tags a' = tags a)
    ∧ assigned_to a' = owner (fetch h (source a)) (assigned_to a)
    ∧ metadata a' = metadata a
    ∧ (∀ d, fetch h (metadata a) = JDict d → fetch h' (metadata a') = JDict d)
    ∧ alert_id a' = alert_id a ∧ title a' = title a ∧ description a' = description a
    ∧ source a' = source a ∧ timestamp a' = timestamp a ∧ status a' = status a
    ∧ same_strings h h'.
Proof.
  intros Hs Ht. unfold _apply_severity_rules.
  rewrite (bind_ok _ _ _ _ _ (any_keyword_str h a escalation_keywords s Hs)).
  fold (escalates s (severity a)).
  assert (∃ h1 a1, (if escalates s (severity a)
                    then tags_append (set_severity a "critical") "auto_escalated"
                    else ret a) h = (h1, Ok a1)
            ∧ severity a1 = (if escalates s (severity a) then "critical" else severity a)
            ∧ fetch h1 (tags a1) =
                JList (if escalates s (severity a) then l ++ [JStr "auto_escalated"] else l)
            ∧ (escalates s (severity a) = false → h1 = h ∧ tags a1 = tags a)
            ∧ metadata a1 = metadata a
            ∧ (∀ d, fetch h (metadata a) = JDict d → fetch h1 (metadata a1) = JDict d)
            ∧ alert_id a1 = alert_id a ∧ title a1 = title a
            ∧ description a1 = description a ∧ source a1 = source a
            ∧ timestamp a1 = timestamp a ∧ status a1 = status a
            ∧ assigned_to a1 = assigned_to a
            ∧ same_strings h h1)
    as (h1 & a1 & E1 & Hsev & Htags & Hno & Hmd & Hmdv & Hi & Hti & Hd & Hsrc & Hts & Hst
        & Has & G).
  { destruct (escalates s (severity a)).
    - destruct (tags_append_list h (set_severity a "critical") "auto_escalated" l Ht)
        as (h1 & a1 & E1 & T1 & (?&?&?&?&?&?&?&?) & M1 & M1' & G1).
      exists h1, a1. repeat split; try done; try congruence; apply G1.
    - exists h, a. repeat split; done. }
  rewrite (bind_ok _ _ _ _ _ E1).
  rewrite (bind_ok _ _ _ _ _ (source_is_spec h1 a1 "kubernetes")).
  unfold owner. rewrite Hsrc, !(py_eq_same_strings h h1 _ _ G).
  destruct (PyVal.py_eq (fetch h (source a)) (JStr "kubernetes")).
  { eexists _, _. split; [done|]. simpl. repeat split; solve [done | by apply Hno | apply G]. }
  rewrite (bind_ok _ _ _ _ _ (source_is_spec h1 a1 "aws")).
  rewrite Hsrc, !(py_eq_same_strings h h1 _ _ G).
  destruct (PyVal.py_eq (fetch h (source a)) (JStr "aws")).
  { eexists _, _. split; [done|]. simpl. repeat split; solve [done | by apply Hno | apply G]. }
  rewrite (bind_ok _ _ _ _ _ (source_is_spec h1 a1 "database")).
  rewrite Hsrc, !(py_eq_same_strings h h1 _ _ G).
  destruct (PyVal.py_eq (fetch h (source a)) (JStr "database")).
  { eexists _, _. split; [done|]. simpl. repeat split; solve [done | by apply Hno | apply G]. }
  eexists _, _. split; [done|]. repeat split; solve [done | by apply Hno | apply G].
Qed.


(** ** Substrings and case *)

Lemma append_nil_l s : EmptyString +:+ s = s.
Proof. reflexivity. Qed.

Lemma append_cons c a b : String c a +:+ b = String c (a +:+ b).
Proof. reflexivity. Qed.

Lemma prefix_spec p s : String.prefix p s = true ↔ ∃ post, s = p +:+ post.
Proof.
  revert s. induction p as [|c p IH]; intros s.
  - split; [intros _; by exists s | by destruct s].
  - destruct s as [|c' s]; simpl.
    + split; [done | by intros [post [=]]].
    + destruct (Ascii.ascii_dec c c') as [<-|Hne].
      * rewrite IH. split; intros [post E]; exists post.
        -- by rewrite append_cons, <- E.
        -- rewrite append_cons in E. by injection E.
      * split; [done | intros [post E]]. rewrite append_cons in E. by injection E.
Qed.

Lemma contains_spec kw s :
  PyStr.contains kw s = true ↔ ∃ pre post, s = pre +:+ kw +:+ post.
Proof.
  induction s as [|c s IH].
  - change (PyStr.contains kw EmptyString)
      with (String.prefix kw EmptyString || false).
    rewrite orb_true_iff, prefix_spec. split.
    + intros [[post E] | ?]; [| done]. by exists EmptyString, post.
    + intros (pre & post & E). left. destruct pre; [| done]. by exists post.
  - change (PyStr.contains kw (String c s))
      with (String.prefix kw (String c s) || PyStr.contains kw s).
    rewrite orb_true_iff, prefix_spec, IH. split.
    + intros [[post E] | (pre & post & E)].
      * by exists EmptyString, post.
      * exists (String c pre), post. by rewrite append_cons, <- E.
    + intros (pre & post & E). destruct pre as [|c' pre].
      * left. by exists post.
      * right. rewrite append_cons in E. injection E as _ E. by exists pre, post.
Qed.

Lemma lower_app a b : PyStr.lower (a +:+ b) = PyStr.lower a +:+ PyStr.lower b.
Proof.
  induction a as [|c a IH]; [done|].
  rewrite append_cons. simpl. by rewrite IH.
Qed.

Lemma lower_split s x y :
  PyStr.lower s = x +:+ y →
  ∃ s1 s2, s = s1 +:+ s2 ∧ PyStr.lower s1 = x ∧ PyStr.lower s2 = y.
Proof.
  revert s. induction x as [|c x IH]; intros s E.
  - by exists EmptyString, s.
  - destruct s as [|c' s]; [done|]. rewrite append_cons in E. simpl in E.
    injection E as Ec E.
    destruct (IH s E) as (s1 & s2 & -> & <- & <-).
    exists (String c' s1), s2. simpl. by rewrite Ec.
Qed.

Lemma contains_lower_nocase kw s :
  PyStr.contains kw (PyStr.lower s) = true ↔ contains_nocase kw s.
Proof.
  rewrite contains_spec. unfold contains_nocase. split.
  - intros (pre & post & E).
    destruct (lower_split _ _ _ E) as (s1 & s23 & -> & _ & E').
    destruct (lower_split _ _ _ E') as (s2 & s3 & -> & Hk & _).
    by exists s1, s2, s3.
  - intros (pre & mid & post & -> & <-).
    exists (PyStr.lower pre), (PyStr.lower post). by rewrite !lower_app.
Qed.

Lemma escalates_spec s sev :
  escalates s sev = true ↔
  (∃ kw, kw ∈ escalation_keywords ∧ contains_nocase kw s) ∧ sev = "warning".
Proof.
  unfold escalates. rewrite andb_true_iff, String.eqb_eq, existsb_exists.
  split; intros [(kw & Hin & Hk) ->]; (split; [| done]); exists kw.
  - by rewrite list_elem_of_In, <- contains_lower_nocase.
  - by rewrite <- list_elem_of_In, contains_lower_nocase.
Qed.

(** ** A call on a well-typed payload that is no duplicate *)

Lemma process_alert_typed self alert_data now_created now_checked h sv s l d :
  fetch h (get alert_data "severity" (JStr "info")) = JStr sv →
  fetch h (get alert_data "description" (JStr EmptyString)) = JStr s →
  fetch h (get alert_data "tags" (JList [])) = JList l →
  fetch h (get alert_data "metadata" (JDict [])) = JDict d →
  deduplicate_alert self h now_checked (new_alert h alert_data now_created sv) = false →
  ∃ h' a l',
    process_alert self alert_data now_created now_checked h = (h', (Some a, store self a))
    ∧ severity a = (if escalates s (PyStr.lower sv) then "critical" else PyStr.lower sv)
    ∧ fetch h' (tags a) =
        JList (if escalates s (PyStr.lower sv)
               then (l ++ l') ++ [JStr "auto_escalated"] else l ++ l')
    ∧ fetch h' (metadata a) = JDict (enriched_metadata (PyStr.lower sv) d)
    ∧ assigned_to a = owner (fetch h (get alert_data "source" (JStr "unknown"))) None
    ∧ alert_id a = generate_alert_id h alert_data
    ∧ title a = get alert_data "title" (JStr "Unknown Alert")
    ∧ description a = get alert_data "description" (JStr EmptyString)
    ∧ fetch h' (description a) = JStr s
    ∧ source a = get alert_data "source" (JStr "unknown")
    ∧ timestamp a = now_created
    ∧ status a = "new"
    ∧ same_strings h h'.
Proof.
  intros Hsv Hs Hl Hd Hdup.
  pose proof (process_alert_try_cases self alert_data now_created now_checked h) as Hc.
  rewrite Hsv in Hc. simpl in Hc. rewrite Hdup in Hc.
  set (a0 := new_alert h alert_data now_created sv) in *.
  assert (fetch h (description a0) = JStr s) as Hs0 by exact Hs.
  assert (typed h a0 l d) as T0 by (by split).
  destruct (enrich_alert_typed h a0 l d s Hs0 T0)
    as (h1 & a1 & l' & E1 & [T1 T1'] & S1 & G1).
  destruct S1 as (S1i & S1t & S1d & S1s & S1r & S1ts & S1st & S1a).
  assert (fetch h1 (description a1) = JStr s) as Hs1.
  { rewrite S1d. by apply (fetch_str_same_strings h h1). }
  destruct (apply_severity_rules_typed h1 a1 s _ Hs1 T1)
    as (h2 & a2 & E2 & Hsev & Htags & _ & Hown & Hmd & Hmdv & Hi & Hti & Hde & Hsrc & Hts
        & Hst & G2).
  assert (same_strings h h2) as G by (by eapply same_strings_trans).
  exists h2, a2, l'. split.
  - unfold process_alert. rewrite Hc.
    rewrite (bind_ok _ _ _ _ _ E1), (bind_ok _ _ _ _ _ E2). done.
  - rewrite S1s in Hsev, Htags. rewrite S1a in Hown.
    assert (owner (fetch h1 (source a1)) None
            = owner (fetch h (get alert_data "source" (JStr "unknown"))) None) as Ho.
    { unfold owner. rewrite S1r, !(py_eq_same_strings h h1 _ _ G1). done. }
    split; [exact Hsev|]. split; [exact Htags|].
    split; [by apply Hmdv|].
    split; [rewrite Hown; exact Ho|].
    split; [by rewrite Hi, S1i|].
    split; [by rewrite Hti, S1t|].
    split; [by rewrite Hde, S1d|].
    split.
    { rewrite Hde, S1d. apply (fetch_str_same_strings h h2); [exact G | exact Hs]. }
    split; [by rewrite Hsrc, S1r|].
    split; [by rewrite Hts, S1ts|].
    split; [by rewrite Hst, S1st|].
    exact G.
Qed.

(** ** Claims on enrichment and escalation *)

(** C4. On an alert whose description is a string and whose tags are a
    list, the escalation step returns, and it sets the severity to
    [critical] and appends [auto_escalated] to the tags if and only if the
    description contains, case ignored, one of [down], [failed], [error],
    [timeout] and the severity is [warning]; otherwise severity, tags and
    heap are untouched, so an [info] alert stays [info] and gains no tag. *)
Theorem escalation_rule h a s l :
  fetch h (description a) = JStr s → fetch h (tags a) = JList l →
  ∃ h' a', _apply_severity_rules a h = (h', Ok a')
    ∧ ((severity a' = "critical"
        ∧ fetch h' (tags a') = JList (l ++ [JStr "auto_escalated"]))
       ↔ ((∃ kw, kw ∈ escalation_keywords ∧ contains_nocase kw s)
          ∧ severity a = "warning"))
    ∧ (¬ ((∃ kw, kw ∈ escalation_keywords ∧ contains_nocase kw s)
          ∧ severity a = "warning") →
       severity a' = severity a ∧ fetch h' (tags a') = JList l
       ∧ tags a' = tags a ∧ h' = h)
    ∧ (severity a = "info" →
       severity a' = "info" ∧ fetch h' (tags a') = JList l ∧ tags a' = tags a).
Proof.
  intros Hs Hl.
  destruct (apply_severity_rules_typed h a s l Hs Hl)
    as (h' & a' & E & Hsev & Htags & Hno & _).
  exists h', a'. split; [done|].
  pose proof (escalates_spec s (severity a)) as Hesc.
  destruct (escalates s (severity a)) eqn:Ee.
  - split; [| split].
    + split; [intros _; by apply Hesc | by intros _].
    + intros Hn. destruct Hn. by apply Hesc.
    + intros Hi. destruct (proj1 Hesc eq_refl) as [_ Hw]. congruence.
  - destruct (Hno eq_refl) as [-> Ht]. split; [| split].
    + split.
      * intros [_ Ha]. rewrite Htags in Ha. injection Ha as Ha.
        apply (f_equal length) in Ha. rewrite length_app in Ha. simpl in Ha. lia.
      * intros Hc. apply Hesc in Hc. discriminate.
    + by intros _.
    + intros Hi. by rewrite Hsev, Hi.
Qed.

Lemma escalation_rule_witness :
  ∃ h' a', _apply_severity_rules Scenario.api_warning ∅ = (h', Ok a')
    ∧ severity a' = "critical"
    ∧ fetch h' (tags a') = JList [JStr "api"; JStr "auto_escalated"].
Proof.
  destruct (escalation_rule ∅ Scenario.api_warning "Service DOWN since noon"
              [JStr "api"] eq_refl eq_refl) as (h' & a' & E & [_ Hup] & _).
  exists h', a'. split; [exact E|]. apply Hup. split; [| reflexivity].
  exists "down". split; [apply elem_of_cons; by left|].
  by exists "Service ", "DOWN", " since noon".
Defined.

(** C7. The escalation step assigns [k8s_team], [cloud_team] or
    [dba_team] when the source is exactly the string [kubernetes], [aws]
    or [database], and leaves [assigned_to] as it was otherwise; and the
    payload [DB down] of the specification, when the duplicate check does
    not fire, is stored with severity [critical], [auto_escalated] among
    its tags and [dba_team] as owner. *)
Theorem ownership_by_source h a s l self now_created now_checked :
  fetch h (description a) = JStr s → fetch h (tags a) = JList l →
  deduplicate_alert self h now_checked
    (new_alert h Scenario.db_down now_created "warning") = false →
  (∃ h' a', _apply_severity_rules a h = (h', Ok a')
     ∧ (fetch h (source a) = JStr "kubernetes" → assigned_to a' = Some "k8s_team")
     ∧ (fetch h (source a) = JStr "aws" → assigned_to a' = Some "cloud_team")
     ∧ (fetch h (source a) = JStr "database" → assigned_to a' = Some "dba_team")
     ∧ (fetch h (source a) ≠ JStr "kubernetes" → fetch h (source a) ≠ JStr "aws" →
        fetch h (source a) ≠ JStr "database" → assigned_to a' = assigned_to a))
  ∧ (∃ h' a' tl,
       process_alert self Scenario.db_down now_created now_checked h
         = (h', (Some a', store self a'))
       ∧ active_alerts (store self a') !! alert_id a' = Some a'
       ∧ severity a' = "critical"
       ∧ fetch h' (tags a') = JList tl ∧ JStr "auto_escalated" ∈ tl
       ∧ assigned_to a' = Some "dba_team").
Proof.
  intros Hs Hl Hdup. split.
  - destruct (apply_severity_rules_typed h a s l Hs Hl)
      as (h' & a' & E & _ & _ & _ & Hown & _).
    exists h', a'. split; [done|]. unfold owner in Hown.
    repeat split.
    + intros Hk. rewrite Hk in Hown. exact Hown.
    + intros Hk. rewrite Hk in Hown. exact Hown.
    + intros Hk. rewrite Hk in Hown. exact Hown.
    + intros H1 H2 H3.
      destruct (PyVal.py_eq (fetch h (source a)) (JStr "kubernetes")) eqn:E1;
        [by apply py_eq_str in E1|].
      destruct (PyVal.py_eq (fetch h (source a)) (JStr "aws")) eqn:E2;
        [by apply py_eq_str in E2|].
      destruct (PyVal.py_eq (fetch h (source a)) (JStr "database")) eqn:E3;
        [by apply py_eq_str in E3|].
      exact Hown.
  - destruct (process_alert_typed self Scenario.db_down now_created now_checked h
                "warning" "database connection failed" [] []
                eq_refl eq_refl eq_refl eq_refl Hdup)
      as (h' & a' & l' & E & Hsev & Htags & _ & Hown & _).
    exists h', a', (([] ++ l') ++ [JStr "auto_escalated"])%list.
    repeat split; try done.
    + simpl. apply lookup_insert_eq.
    + apply elem_of_app. right. apply list_elem_of_singleton. done.
Qed.

Lemma deduplicate_alert_init h now a : deduplicate_alert init h now a = false.
Proof. reflexivity. Qed.

Lemma ownership_by_source_witness :
  fst (snd (process_alert init Scenario.db_down Scenario.ten_o_clock
                          Scenario.ten_o_clock ∅)) = Some Scenario.db_alert
  ∧ assigned_to Scenario.db_alert = Some "dba_team".
Proof.
  destruct (ownership_by_source ∅ Scenario.api_warning "Service DOWN since noon"
              [JStr "api"] init Scenario.ten_o_clock Scenario.ten_o_clock
              eq_refl eq_refl (deduplicate_alert_init _ _ _))
    as [_ (h' & a' & tl & E & _)].
  split; [| reflexivity]. rewrite E. simpl.
  vm_compute in E. by injection E as _ <- _.
Defined.

(** C9 (as amended). A payload of severity [warning] (in any case) whose
    description contains an escalation keyword, when it is well typed and
    no duplicate, is stored with severity [critical] and with the
    warning-level metadata: [requires_attention] is [True] and
    [max_response_time] is [1 hour].  Enrichment writes no
    [requires_immediate_attention]: the stored metadata has this key only
    if the payload's own metadata had it, with the payload's value. *)
Theorem metadata_of_escalated_warning
    self alert_data now_created now_checked h sv s l d :
  fetch h (get alert_data "severity" (JStr "info")) = JStr sv →
  PyStr.lower sv = "warning" →
  fetch h (get alert_data "description" (JStr EmptyString)) = JStr s →
  (∃ kw, kw ∈ escalation_keywords ∧ contains_nocase kw s) →
  fetch h (get alert_data "tags" (JList [])) = JList l →
  fetch h (get alert_data "metadata" (JDict [])) = JDict d →
  deduplicate_alert self h now_checked (new_alert h alert_data now_created sv) = false →
  ∃ h' a md,
    process_alert self alert_data now_created now_checked h = (h', (Some a, store self a))
    ∧ severity a = "critical"
    ∧ fetch h' (metadata a) = JDict md
    ∧ PyVal.dict_get md "requires_attention" = Some (JBool true)
    ∧ PyVal.dict_get md "max_response_time" = Some (JStr "1 hour")
    ∧ PyVal.dict_get md "requires_immediate_attention"
      = PyVal.dict_get d "requires_immediate_attention"
    ∧ (PyVal.dict_get d "requires_immediate_attention" = None →
       PyVal.dict_get md "requires_immediate_attention" = None).
Proof.
  intros Hsv Hw Hs Hkw Hl Hd Hdup.
  destruct (process_alert_typed self alert_data now_created now_checked h sv s l d
              Hsv Hs Hl Hd Hdup) as (h' & a & l' & E & Hsev & _ & Hmd & _).
  rewrite Hw in Hsev, Hmd.
  assert (escalates s "warning" = true) as He by (by apply escalates_spec).
  rewrite He in Hsev. unfold enriched_metadata in Hmd. simpl in Hmd.
  eexists h', a, _. split; [exact E|]. split; [exact Hsev|]. split; [exact Hmd|].
  assert (PyVal.dict_get
            (PyVal.dict_set (PyVal.dict_set d "requires_attention" (JBool true))
                            "max_response_time" (JStr "1 hour"))
            "requires_immediate_attention"
          = PyVal.dict_get d "requires_immediate_attention") as Hria.
  { rewrite !dict_get_set_ne; done. }
  repeat split.
  - rewrite dict_get_set_ne; [apply dict_get_set_eq | done].
  - apply dict_get_set_eq.
  - exact Hria.
  - intros Hn. by rewrite Hria.
Qed.

Lemma metadata_of_escalated_warning_witness :
  ∃ h' a md,
    process_alert init Scenario.db_down Scenario.ten_o_clock Scenario.ten_o_clock ∅
      = (h', (Some a, store init a))
    ∧ severity a = "critical"
    ∧ fetch h' (metadata a) = JDict md
    ∧ PyVal.dict_get md "requires_attention" = Some (JBool true)
    ∧ PyVal.dict_get md "max_response_time" = Some (JStr "1 hour")
    ∧ PyVal.dict_get md "requires_immediate_attention" = None.
Proof.
  destruct (metadata_of_escalated_warning init Scenario.db_down Scenario.ten_o_clock
              Scenario.ten_o_clock ∅ "warning" "database connection failed" [] [])
    as (h' & a & md & E & H1 & H2 & H3 & H4 & _ & H6); try reflexivity.
  { exists "failed". split; [apply elem_of_cons; right; apply elem_of_cons; by left|].
    by exists "database connection ", "failed", EmptyString. }
  exists h', a, md.
  split; [exact E|]. split; [exact H1|]. split; [exact H2|].
  split; [exact H3|]. split; [exact H4|]. apply H6. reflexivity.
Defined.

(** C9, the claim as stated fails: a warning whose own metadata carries
    [requires_immediate_attention] is escalated and stored with that
    entry next to the warning-level ones. *)
Lemma flagged_payload_keeps_its_flag :
  let r := process_alert init Scenario.flagged Scenario.ten_o_clock
                         Scenario.ten_o_clock ∅ in
  option_map (λ a, (severity a, fetch (fst r) (metadata a))) (fst (snd r))
  = Some ("critical",
          JDict [ ("requires_immediate_attention", JBool true);
                  ("requires_attention", JBool true);
                  ("max_response_time", JStr "1 hour") ]).
Proof. by vm_compute. Qed.

(** ** Routing *)

Section RoutingProperties.
Context `{Interpreter}.

Lemma rule_matches_spec h a conds :
  rule_matches h a conds = true ↔
  ∀ k v, (k, v) ∈ conds → attr_eq (getattr h a k) v = true.
Proof.
  induction conds as [|[k v] conds IH]; simpl.
  - split; [intros _ k v Hin; inversion Hin | done].
  - destruct (attr_eq (getattr h a k) v) eqn:E; simpl.
    + rewrite IH. split.
      * intros Hall k' v' [[= -> ->] | Hin]%elem_of_cons; [done | by apply Hall].
      * intros Hall k' v' Hin. apply Hall, elem_of_cons. by right.
    + split; [done|]. intros Hall.
      rewrite (Hall k v) in E; [done | apply elem_of_cons; by left].
Qed.

(** What [getattr] reads under a name that is no field: what the
    interpreter finds under a name of the form [__x__], and [None]. *)
Lemma getattr_other h a k :
  k ∉ alert_fields →
  getattr h a k
  = if is_special k then default (AVal JNull) (object_attribute h a k) else AVal JNull.
Proof.
  intros Hk. unfold getattr.
  repeat match goal with
  | |- context [String.eqb k ?s] =>
      destruct (String.eqb k s) eqn:?E;
        [apply String.eqb_eq in E; subst k; exfalso; apply Hk;
         unfold alert_fields; set_solver | clear E]
  end.
  reflexivity.
Qed.

Lemma getattr_missing h a k :
  k ∉ alert_fields → is_special k = false ∨ object_attribute h a k = None →
  getattr h a k = AVal JNull.
Proof.
  intros Hk Hs. rewrite (getattr_other h a k Hk).
  destruct (is_special k); [| done]. by destruct Hs as [? | ->].
Qed.

Lemma attr_eq_none v : attr_eq (AVal JNull) v = true ↔ v = AVal JNull.
Proof.
  destruct v as [v|t|o]; [| by split | by split].
  change (attr_eq (AVal JNull) (AVal v)) with (PyVal.py_eq JNull v).
  rewrite py_eq_none. split; [by intros -> | by intros [= ->]].
Qed.

Lemma matching_channels_spec h a rules :
  matching_channels h a rules =
    flat_map (λ r, if rule_matches h a (conditions r) then channels r else []) rules.
Proof.
  unfold matching_channels.
  assert (∀ acc : list string,
            fold_left (λ (acc : list string) rule,
                         if rule_matches h a (conditions rule)
                         then (acc ++ channels rule)%list else acc) rules acc
            = (acc ++ flat_map (λ r, if rule_matches h a (conditions r)
                                     then channels r else []) rules)%list) as Hg.
  { induction rules as [|r rules IH]; intros acc; simpl.
    - by rewrite app_nil_r.
    - rewrite IH. destruct (rule_matches h a (conditions r)); simpl; [| done].
      by rewrite app_assoc. }
  apply (Hg []).
Qed.

Lemma existsb_eqb_elem_of (x : string) (l : list string) :
  existsb (String.eqb x) l = true ↔ x ∈ l.
Proof.
  rewrite existsb_exists, list_elem_of_In. split.
  - intros (y & Hin & ->%String.eqb_eq). done.
  - intros Hin. exists x. split; [done | apply String.eqb_refl].
Qed.

Lemma filter_not_in_nil (l : list string) : filter (λ y, y ∉ []) l = l.
Proof.
  induction l as [|y r IH]; [done|].
  rewrite filter_cons_True; [by rewrite IH | intros Hin; inversion Hin].
Qed.

Lemma dict_fromkeys_first_seen l : dict_fromkeys l = first_seen l.
Proof.
  unfold dict_fromkeys.
  assert (∀ seen : list string,
            fold_left (λ (seen : list string) x,
                         if existsb (String.eqb x) seen then seen
                         else (seen ++ [x])%list) l seen
            = (seen ++ filter (λ y, y ∉ seen) (first_seen l))%list) as Hg.
  { induction l as [|x l IH]; intros seen; simpl.
    - by rewrite app_nil_r.
    - rewrite IH. destruct (existsb (String.eqb x) seen) eqn:E.
      + apply existsb_eqb_elem_of in E.
        rewrite filter_cons_False by (intros Hn; by apply Hn).
        rewrite list_filter_filter. f_equal. apply list_filter_iff.
        intros y. split; [intros Hy; split; [done | by intros ->] | by intros [? _]].
      + assert (x ∉ seen) as Hx.
        { intros Hin. apply existsb_eqb_elem_of in Hin. congruence. }
        rewrite filter_cons_True by done.
        rewrite list_filter_filter, <- app_assoc. simpl. do 2 f_equal.
        apply list_filter_iff. intros y.
        rewrite elem_of_app, list_elem_of_singleton. tauto. }
  rewrite (Hg []). simpl. apply filter_not_in_nil.
Qed.

Lemma elem_of_first_seen x l : x ∈ first_seen l ↔ x ∈ l.
Proof.
  induction l as [|y l IH]; simpl; [done|].
  rewrite !elem_of_cons, list_elem_of_filter, IH.
  destruct (decide (x = y)); tauto.
Qed.

Lemma NoDup_first_seen l : NoDup (first_seen l).
Proof.
  induction l as [|y l IH]; simpl; [constructor|].
  apply NoDup_cons. split; [| by apply NoDup_filter].
  rewrite list_elem_of_filter. tauto.
Qed.

End RoutingProperties.

Section RoutingClaim.
Context `{Interpreter}.

(** C5 (as amended). The rules are tried in their order.  A rule fires
    if and only if each of its conditions equals what [getattr] reads
    under its key: the field of that name, or what the interpreter finds
    there among the attributes every object has, or [None] when the alert
    has no attribute of that name; so a missing attribute matches exactly
    the conditions that ask for [None].  The channel names of the firing
    rules, in rule order, are reduced to their first occurrences: the
    result has no repetition and holds exactly the names of the firing
    rules.  Under the default rules a critical alert from [kubernetes] is
    routed to [email_ops], [slack_critical], [pagerduty]. *)
Theorem route_alert_spec self h a :
  (getattr h a "id" = AVal (JStr (alert_id a))
   ∧ getattr h a "title" = AVal (fetch h (title a))
   ∧ getattr h a "description" = AVal (fetch h (description a))
   ∧ getattr h a "severity" = AVal (JStr (severity a))
   ∧ getattr h a "source" = AVal (fetch h (source a))
   ∧ getattr h a "timestamp" = ATime (timestamp a)
   ∧ getattr h a "tags" = AVal (fetch h (tags a))
   ∧ getattr h a "metadata" = AVal (fetch h (metadata a))
   ∧ getattr h a "status" = AVal (JStr (status a))
   ∧ getattr h a "assigned_to"
     = AVal (match assigned_to a with Some s => JStr s | None => JNull end))
  ∧ (∀ k, k ∉ alert_fields →
          (∀ o, is_special k = true → object_attribute h a k = Some o →
                getattr h a k = o)
          ∧ (is_special k = false ∨ object_attribute h a k = None →
             ∀ v, attr_eq (getattr h a k) v = true ↔ v = AVal JNull))
  ∧ (∀ x y, attr_eq x y = true ↔
            match x, y with
            | AVal u, AVal v => PyVal.py_eq u v = true
            | ATime s, ATime t => s = t
            | AObject o, AObject o' => o = o'
            | _, _ => False
            end)
  ∧ (∀ r, rule_matches h a (conditions r) = true ↔
          ∀ k v, (k, v) ∈ conditions r → attr_eq (getattr h a k) v = true)
  ∧ route_alert self h a =
      first_seen (flat_map (λ r, if rule_matches h a (conditions r)
                                 then channels r else []) (routing_rules self))
  ∧ NoDup (route_alert self h a)
  ∧ (∀ x, x ∈ route_alert self h a ↔
          ∃ r, r ∈ routing_rules self ∧ rule_matches h a (conditions r) = true
               ∧ x ∈ channels r)
  ∧ (routing_rules self = _setup_routing_rules →
     severity a = "critical" → fetch h (source a) = JStr "kubernetes" →
     route_alert self h a = ["email_ops"; "slack_critical"; "pagerduty"]).
Proof.
  assert (route_alert self h a =
            first_seen (flat_map (λ r, if rule_matches h a (conditions r)
                                       then channels r else []) (routing_rules self)))
    as Hr.
  { unfold route_alert. by rewrite dict_fromkeys_first_seen, matching_channels_spec. }
  split; [by repeat split|].
  split.
  { intros k Hk. split.
    - intros o Hs Ho. by rewrite (getattr_other h a k Hk), Hs, Ho.
    - intros Hs v. rewrite (getattr_missing h a k Hk Hs). apply attr_eq_none. }
  split.
  { intros [u|s|o] [v|t|o']; simpl; try (split; [discriminate | done]); try done.
    - apply Z.eqb_eq.
    - apply N.eqb_eq. }
  split; [intros r; apply rule_matches_spec|].
  split; [exact Hr|].
  split; [rewrite Hr; apply NoDup_first_seen|].
  split.
  - intros x. rewrite Hr, elem_of_first_seen, list_elem_of_In, in_flat_map.
    split.
    + intros (r & Hin & Hx). exists r.
      destruct (rule_matches h a (conditions r)); [| inversion Hx].
      by rewrite !list_elem_of_In.
    + intros (r & Hin & Hm & Hx). exists r. rewrite Hm.
      by rewrite <- !list_elem_of_In.
  - intros Hrules Hsev Hsrc. rewrite Hr, Hrules.
    unfold _setup_routing_rules. simpl. rewrite Hsev, Hsrc. reflexivity.
Qed.

End RoutingClaim.

Lemma route_alert_spec_witness :
  @route_alert Scenario.interpreter init ∅ Scenario.pod_crash
  = ["email_ops"; "slack_critical"; "pagerduty"].
Proof.
  apply (@route_alert_spec Scenario.interpreter init ∅ Scenario.pod_crash); reflexivity.
Defined.

(** C5, the claim as stated fails: alerts have no attribute [team], under
    any interpreter, yet the rule that asks for [None] on [team] fires and
    its channel is returned. *)
Lemma missing_attribute_matches_none :
  ("team" ∉ alert_fields) ∧ is_special "team" = false
  ∧ @rule_matches Scenario.interpreter ∅ Scenario.db_alert
      (conditions Scenario.unowned_rule) = true
  ∧ @route_alert Scenario.interpreter Scenario.unowned_processor ∅ Scenario.db_alert
    = ["email_ops"].
Proof.
  split; [| split; [| split]]; try reflexivity.
  unfold alert_fields. intros Hin.
  repeat (apply elem_of_cons in Hin as [Hin | Hin]; [discriminate|]).
  inversion Hin.
Qed.

(** ** Notification dispatch *)

Section DispatchProperties.
Context `{Interpreter} `{Senders}.

Lemma notify_channel_outcome self h a acc channel_name :
  notify_channel self h a acc channel_name =
    let o := outcome self h a channel_name in
    mkResults (results_alert_id acc) (channels_attempted acc)
      (successful_notifications acc
       + (if decide (result_status o = "success") then 1 else 0))%nat
      (failed_notifications acc
       + (if decide (result_status o = "failed") then 1 else 0))%nat
      (results acc ++ [o]).
Proof.
  unfold notify_channel, outcome.
  destruct (find_channel self channel_name) as [ch|]; simpl.
  - destruct (enabled ch); simpl.
    + destruct (send h a ch); simpl; f_equal; lia.
    + f_equal; lia.
  - f_equal; lia.
Qed.

Lemma notify_fold self h a names acc :
  fold_left (notify_channel self h a) names acc =
    mkResults (results_alert_id acc) (channels_attempted acc)
      (successful_notifications acc
       + count_status "success" (map (outcome self h a) names))%nat
      (failed_notifications acc
       + count_status "failed" (map (outcome self h a) names))%nat
      (results acc ++ map (outcome self h a) names).
Proof.
  revert acc. induction names as [|n names IH]; intros acc; simpl.
  - destruct acc; simpl. unfold count_status. simpl.
    by rewrite !Nat.add_0_r, app_nil_r.
  - rewrite IH, notify_channel_outcome. simpl. unfold count_status.
    rewrite !filter_cons. f_equal.
    + destruct (decide (result_status (outcome self h a n) = "success")); simpl; lia.
    + destruct (decide (result_status (outcome self h a n) = "failed")); simpl; lia.
    + by rewrite <- app_assoc.
Qed.

Lemma notify_alert_outcomes self h a :
  notify_alert self h a =
    let names := route_alert self h a in
    mkResults (alert_id a) (length names)
      (count_status "success" (map (outcome self h a) names))
      (count_status "failed" (map (outcome self h a) names))
      (map (outcome self h a) names).
Proof. unfold notify_alert. by rewrite notify_fold. Qed.

Lemma outcome_status self h a n :
  result_status (outcome self h a n) = "success"
  ∨ result_status (outcome self h a n) = "failed"
  ∨ result_status (outcome self h a n) = "skipped".
Proof.
  unfold outcome. destruct (find_channel self n) as [ch|]; simpl; [| tauto].
  destruct (enabled ch); simpl; [| tauto]. destruct (send h a ch); tauto.
Qed.

Lemma count_status_total self h a names :
  (count_status "success" (map (outcome self h a) names)
   + count_status "failed" (map (outcome self h a) names)
   + count_status "skipped" (map (outcome self h a) names))%nat = length names.
Proof.
  unfold count_status. induction names as [|n names IH]; simpl; [done|].
  rewrite !filter_cons.
  destruct (outcome_status self h a n) as [E | [E | E]]; rewrite E; simpl in *; lia.
Qed.

End DispatchProperties.

Section DispatchClaims.
Context `{Interpreter} `{Senders}.

Lemma channel_outcome self h a n : channel (outcome self h a n) = n.
Proof.
  unfold outcome. destruct (find_channel self n) as [ch|]; [| done].
  by destruct (enabled ch).
Qed.

Lemma send_unknown_type h a ch :
  type ch ≠ "email" → type ch ≠ "slack" → type ch ≠ "webhook" → send h a ch = false.
Proof.
  intros H1 H2 H3. unfold send.
  destruct (String.eqb (type ch) "email") eqn:E1; [by apply String.eqb_eq in E1|].
  destruct (String.eqb (type ch) "slack") eqn:E2; [by apply String.eqb_eq in E2|].
  destruct (String.eqb (type ch) "webhook") eqn:E3; [by apply String.eqb_eq in E3|].
  done.
Qed.

(** The channel [next(...)] finds for a name is the first one registered
    under it. *)
Lemma find_channel_first self n :
  match find_channel self n with
  | Some ch =>
      ∃ before after,
        notification_channels self = (before ++ ch :: after)%list
        ∧ name ch = n ∧ ∀ c, c ∈ before → name c ≠ n
  | None => ∀ c, c ∈ notification_channels self → name c ≠ n
  end.
Proof.
  unfold find_channel. induction (notification_channels self) as [|c cs IH]; simpl.
  - intros c Hc. inversion Hc.
  - destruct (String.eqb (name c) n) eqn:E.
    + apply String.eqb_eq in E. exists [], cs. split; [done|]. split; [done|].
      intros c' Hc'. inversion Hc'.
    + assert (name c ≠ n) as Hn by (intros Heq; apply String.eqb_eq in Heq; congruence).
      destruct (find _ cs) as [ch|].
      * destruct IH as (before & after & -> & Hname & Hbefore).
        exists (c :: before), after. split; [done|]. split; [done|].
        intros c' [-> | Hc']%elem_of_cons; [done | by apply Hbefore].
      * intros c' [-> | Hc']%elem_of_cons; [done | by apply IH].
Qed.

(** C6. [channels_attempted] is the number of routed names; the results
    are the outcomes of the routed names, one each and in order, the
    outcome of a name depending on that name alone, so that a failure
    does not keep the later channels from being tried; the channel of a
    name is the first one registered under it; a name whose channel is
    absent or disabled is [skipped] and adds to neither counter; an enabled channel is [success] when the send method of its
    type returned true and [failed] when it returned false or when there
    is no method for its type; the two counters count the [success] and
    the [failed] results, and together with the skipped results they add
    up to the attempts. *)
Theorem dispatch_accounting self h a :
  let r := notify_alert self h a in
  let names := route_alert self h a in
  channels_attempted r = length names
  ∧ results r = map (outcome self h a) names
  ∧ (∀ n, match find_channel self n with
          | Some ch =>
              ∃ before after,
                notification_channels self = (before ++ ch :: after)%list
                ∧ name ch = n ∧ ∀ c, c ∈ before → name c ≠ n
          | None => ∀ c, c ∈ notification_channels self → name c ≠ n
          end)
  ∧ (∀ n, (find_channel self n = None
           ∨ ∃ ch, find_channel self n = Some ch ∧ enabled ch = false) →
          outcome self h a n
          = mkResult n "skipped" (Some "Channel not found or disabled") None)
  ∧ (∀ n ch, find_channel self n = Some ch → enabled ch = true →
             ∃ delivered : bool,
               outcome self h a n
               = mkResult n (if delivered then "success" else "failed")
                          None (Some (type ch))
               ∧ (type ch = "email" →
                  delivered = send_email_notification h a (config ch))
               ∧ (type ch = "slack" →
                  delivered = send_slack_notification h a (config ch))
               ∧ (type ch = "webhook" →
                  delivered = send_webhook_notification h a (config ch))
               ∧ (type ch ≠ "email" → type ch ≠ "slack" → type ch ≠ "webhook" →
                  delivered = false))
  ∧ successful_notifications r = count_status "success" (results r)
  ∧ failed_notifications r = count_status "failed" (results r)
  ∧ (successful_notifications r + failed_notifications r
     + count_status "skipped" (results r) = channels_attempted r)%nat
  ∧ (successful_notifications r + failed_notifications r
     = channels_attempted r - count_status "skipped" (results r))%nat.
Proof.
  intros r names. unfold r. rewrite notify_alert_outcomes. simpl. fold names.
  pose proof (count_status_total self h a names) as Ht.
  split; [done|]. split; [done|]. split; [apply find_channel_first|]. split; [| split].
  - intros n [Hn | (ch & Hn & He)]; unfold outcome; rewrite Hn; [done|].
    by rewrite He.
  - intros n ch Hn He. exists (send h a ch). split.
    { unfold outcome. by rewrite Hn, He. }
    unfold send.
    split; [by intros ->|]. split; [by intros ->|]. split; [by intros ->|].
    intros H1 H2 H3.
    destruct (String.eqb (type ch) "email") eqn:E1; [by apply String.eqb_eq in E1|].
    destruct (String.eqb (type ch) "slack") eqn:E2; [by apply String.eqb_eq in E2|].
    destruct (String.eqb (type ch) "webhook") eqn:E3; [by apply String.eqb_eq in E3|].
    done.
  - split; [done|]. split; [done|]. split; lia.
Qed.

(** C10. A routed name whose channel is registered and enabled but of
    a type other than [email], [slack] and [webhook] is recorded as
    [failed], not [skipped], and counts in [failed_notifications]. *)
Theorem unknown_type_is_failed self h a n ch :
  n ∈ route_alert self h a →
  find_channel self n = Some ch → enabled ch = true →
  type ch ≠ "email" → type ch ≠ "slack" → type ch ≠ "webhook" →
  let r := notify_alert self h a in
  mkResult n "failed" None (Some (type ch)) ∈ results r
  ∧ (∀ o, o ∈ results r → channel o = n → result_status o = "failed")
  ∧ failed_notifications r = count_status "failed" (results r)
  ∧ (1 ≤ failed_notifications r)%nat.
Proof.
  intros Hin Hn He H1 H2 H3 r. unfold r. rewrite notify_alert_outcomes. simpl.
  assert (outcome self h a n = mkResult n "failed" None (Some (type ch))) as Ho.
  { unfold outcome. by rewrite Hn, He, (send_unknown_type h a ch H1 H2 H3). }
  assert (mkResult n "failed" None (Some (type ch))
            ∈ map (outcome self h a) (route_alert self h a)) as Hmem.
  { rewrite <- Ho. by apply list_elem_of_fmap_2. }
  repeat split; try done.
  - intros o Ho' Hc. apply list_elem_of_fmap in Ho' as (n' & -> & _).
    rewrite channel_outcome in Hc. subst n'. by rewrite Ho.
  - unfold count_status.
    assert (mkResult n "failed" None (Some (type ch))
              ∈ filter (λ r, result_status r = "failed")
                       (map (outcome self h a) (route_alert self h a))) as Hf.
    { apply list_elem_of_filter. by split. }
    destruct (filter _ _) as [|x xs]; [inversion Hf | simpl; lia].
Qed.

End DispatchClaims.

Lemma dispatch_accounting_witness :
  let r := @notify_alert Scenario.interpreter Scenario.mail_down
             Scenario.quiet_chat_processor ∅ Scenario.pod_crash in
  channels_attempted r = 3%nat
  ∧ map result_status (results r) = ["failed"; "skipped"; "success"]
  ∧ (successful_notifications r + failed_notifications r = 3 - 1)%nat.
Proof.
  pose proof (@dispatch_accounting Scenario.interpreter Scenario.mail_down
                Scenario.quiet_chat_processor ∅ Scenario.pod_crash)
    as (H1 & H2 & _ & _ & _ & _ & _ & _ & H8).
  split; [exact H1|]. split; [by rewrite H2 | exact H8].
Defined.

Lemma unknown_type_is_failed_witness :
  let r := @notify_alert Scenario.interpreter Scenario.all_delivered Scenario.sms_processor ∅ Scenario.pod_crash in
  mkResult "sms_oncall" "failed" None (Some "sms") ∈ results r
  ∧ (1 ≤ failed_notifications r)%nat.
Proof.
  destruct (@unknown_type_is_failed Scenario.interpreter Scenario.all_delivered Scenario.sms_processor ∅
              Scenario.pod_crash "sms_oncall"
              (mkChannel "sms_oncall" "sms" (JDict [("number", JStr "+4512345678")]) true))
    as (H1 & _ & _ & H4); try done.
  vm_compute. apply elem_of_cons. right. apply elem_of_cons. right.
  apply elem_of_cons. by left.
Defined.

(** * Further properties *)

(** ** Invariants of the store *)

Lemma lower_char_idempotent c : PyStr.lower_char (PyStr.lower_char c) = PyStr.lower_char c.
Proof. destruct c as [[] [] [] [] [] [] [] []]; reflexivity. Qed.

Lemma lower_idempotent s : PyStr.lower (PyStr.lower s) = PyStr.lower s.
Proof.
  induction s as [|c s IH]; simpl; [done|].
  by rewrite lower_char_idempotent, IH.
Qed.

Lemma length_lower s : String.length (PyStr.lower s) = String.length s.
Proof. induction s as [|c s IH]; simpl; [done | by rewrite IH]. Qed.

Lemma well_formed_init : well_formed init.
Proof.
  unfold well_formed. simpl.
  split; [| split; [| split]]; [| done | | done].
  - intros k a Hk. rewrite lookup_empty in Hk. discriminate.
  - intros a Ha. inversion Ha.
Qed.

Lemma well_formed_store self a :
  well_formed self → PyStr.lower (severity a) = severity a → well_formed (store self a).
Proof.
  intros (Hk & Hs & Hl & Hc & Hr & Hw) Ha. unfold well_formed. simpl.
  split; [| split; [| split]]; [| | | done].
  - intros k x [[<- <-] | [Hne Hx]]%lookup_insert_Some.
    + split; [done|]. apply elem_of_app. right. by apply list_elem_of_singleton.
    + destruct (Hk k x Hx) as [Hi Hin]. split; [done|].
      apply elem_of_app. by left.
  - rewrite length_app. simpl.
    destruct (active_alerts self !! alert_id a) eqn:E.
    + rewrite map_size_insert_Some by done. lia.
    + rewrite map_size_insert_None by done. lia.
  - intros x [Hx | ->%list_elem_of_singleton]%elem_of_app; [by apply Hl | done].
Qed.

Lemma well_formed_process_alert self alert_data now_created now_checked h h' r self' :
  well_formed self →
  process_alert self alert_data now_created now_checked h = (h', (r, self')) →
  well_formed self'.
Proof.
  intros Hw E. destruct r as [a|].
  - destruct (process_alert_some _ _ _ _ _ _ _ _ E) as (s & _ & _ & K & ->).
    apply well_formed_store; [done|].
    destruct K as (_ & _ & _ & _ & _ & _ & _ & _ & [-> | ->]); [| done].
    simpl. apply lower_idempotent.
  - by rewrite (process_alert_none _ _ _ _ _ _ _ E).
Qed.

Lemma history_grows self alert_data now_created now_checked h h' r self' :
  process_alert self alert_data now_created now_checked h = (h', (r, self')) →
  alert_history self' =
    (alert_history self ++ match r with Some a => [a] | None => [] end)%list.
Proof.
  intros E. destruct r as [a|].
  - by destruct (process_alert_some _ _ _ _ _ _ _ _ E) as (s & _ & _ & _ & ->).
  - rewrite (process_alert_none _ _ _ _ _ _ _ E). by rewrite app_nil_r.
Qed.

(** X1. In every processor reached from a new one by calls of
    [process_alert], an active alert is stored under its own id and occurs
    in the history, the active map is no larger than the history, every
    stored severity is in lower case, and the channels, the rules and the
    window are the initial ones. *)
Theorem reachable_well_formed calls h :
  well_formed (snd (process_all calls h init)).
Proof.
  assert (∀ self h, well_formed self → well_formed (snd (process_all calls h self))) as Hg.
  { induction calls as [|[[p t] t'] calls IH]; intros self h0 Hw; [done|].
    simpl. destruct (process_alert self p t t' h0) as [h' [r self']] eqn:E.
    apply IH. by eapply well_formed_process_alert. }
  apply Hg, well_formed_init.
Qed.

(** X2. The history is append-only: a sequence of calls leaves the old
    history as a prefix and adds at most one entry per call. *)
Theorem history_append_only calls h self :
  ∃ added,
    alert_history (snd (process_all calls h self)) = (alert_history self ++ added)%list
    ∧ (length added ≤ length calls)%nat.
Proof.
  revert h self. induction calls as [|[[p t] t'] calls IH]; intros h self.
  - exists []. by rewrite app_nil_r.
  - simpl. destruct (process_alert self p t t' h) as [h' [r self']] eqn:E.
    destruct (IH h' self') as (added & Ha & Hl).
    rewrite (history_grows _ _ _ _ _ _ _ _ E) in Ha.
    exists (match r with Some a => [a] | None => [] end ++ added)%list.
    split; [by rewrite Ha, app_assoc|].
    rewrite length_app. destruct r; simpl; lia.
Qed.

(** ** The fingerprint *)










Lemma lookup_other_keys (alert_data : gmap string pyref) k v k' d :
  k ≠ k' → get (<[k := v]> alert_data) k' d = get alert_data k' d.
Proof. intros Hne. unfold get. by rewrite lookup_insert_ne. Qed.

(** X4. The id reads the title, the source and the description only:
    setting any other field of a payload (severity, tags, metadata or an
    unknown key) leaves the id as it was. *)
Theorem alert_id_ignores_other_fields h alert_data k v :
  k ≠ "title" → k ≠ "source" → k ≠ "description" →
  generate_alert_id h (<[k := v]> alert_data) = generate_alert_id h alert_data.
Proof.
  intros H1 H2 H3. unfold generate_alert_id.
  by rewrite !lookup_other_keys.
Qed.

Lemma alert_id_ignores_other_fields_witness :
  generate_alert_id ∅ Scenario.db_down_info = generate_alert_id ∅ Scenario.db_down.
Proof.
  apply (alert_id_ignores_other_fields ∅ Scenario.db_down "severity" (Val (JStr "info")));
    discriminate.
Defined.




(** ** Deduplication and resubmission *)




Lemma fetch_by_value h h' (alert_data alert_data' : gmap string pyref) k d :
  by_value alert_data k → alert_data' !! k = alert_data !! k →
  fetch h' (get alert_data' k d) = fetch h (get alert_data k d).
Proof.
  intros Hv He. unfold get. rewrite He.
  destruct (alert_data !! k) as [[v|l]|] eqn:E; try done.
  by destruct (Hv l).
Qed.

(** X7. When a payload is stored and a later payload with the same
    title, source and description (given by value) is stored too, for
    instance the same report once the window has passed, the second alert
    has the id of the first and takes its place in the active map, whose
    size does not change, while the history keeps both. *)
Theorem resubmission_replaces
    self h p t1 t1' h1 a1 self1 p' t2 t2' h2 a2 self2 :
  process_alert self p t1 t1' h = (h1, (Some a1, self1)) →
  process_alert self1 p' t2 t2' h1 = (h2, (Some a2, self2)) →
  (∀ k, k = "title" ∨ k = "source" ∨ k = "description" →
        by_value p k ∧ p' !! k = p !! k) →
  alert_id a2 = alert_id a1
  ∧ active_alerts self2 = <[alert_id a1 := a2]> (active_alerts self)
  ∧ active_alerts self2 !! alert_id a1 = Some a2
  ∧ size (active_alerts self2) = size (active_alerts self1)
  ∧ alert_history self2 = (alert_history self ++ [a1; a2])%list.
Proof.
  intros E1 E2 Hsame.
  destruct (process_alert_some _ _ _ _ _ _ _ _ E1) as (s1 & _ & _ & K1 & ->).
  destruct (process_alert_some _ _ _ _ _ _ _ _ E2) as (s2 & _ & _ & K2 & ->).
  destruct K1 as (_ & _ & K1 & _). destruct K2 as (_ & _ & K2 & _).
  assert (alert_id a2 = alert_id a1) as Hid.
  { rewrite K1, K2. simpl. unfold generate_alert_id.
    destruct (Hsame "title") as [V1 L1]; [by left|].
    destruct (Hsame "source") as [V2 L2]; [by right; left|].
    destruct (Hsame "description") as [V3 L3]; [by right; right|].
    by rewrite (fetch_by_value h h1 p p' "title" _ V1 L1),
               (fetch_by_value h h1 p p' "source" _ V2 L2),
               (fetch_by_value h h1 p p' "description" _ V3 L3). }
  split; [done|]. simpl. rewrite Hid.
  split; [apply insert_insert_eq|].
  split; [apply lookup_insert_eq|].
  split.
  - rewrite insert_insert_eq.
    rewrite !map_size_insert. destruct (active_alerts self !! alert_id a1); done.
  - by rewrite <- app_assoc.
Qed.

Lemma resubmission_replaces_witness :
  alert_id Scenario.db_alert_next_day = alert_id Scenario.db_alert
  ∧ size (active_alerts (store (store init Scenario.db_alert) Scenario.db_alert_next_day))
    = size (active_alerts (store init Scenario.db_alert)).
Proof.
  destruct (resubmission_replaces init ∅ Scenario.db_down Scenario.ten_o_clock
              Scenario.ten_o_clock ∅ Scenario.db_alert (store init Scenario.db_alert)
              Scenario.db_down_info (hours 34) (hours 34) ∅
              Scenario.db_alert_next_day
              (store (store init Scenario.db_alert) Scenario.db_alert_next_day))
    as (H1 & _ & _ & H4 & _).
  - by vm_compute.
  - by vm_compute.
  - intros k [-> | [-> | ->]]; (split; [intros l Hl; vm_compute in Hl; discriminate |]);
      by vm_compute.
  - by split.
Defined.
(** ** What enrichment adds *)

Lemma total_appended_tag h0 a0 l0 d ts a t :
  total (appended h0 a0 l0 d ts a) (tags_append a t) (appended h0 a0 l0 d (ts ++ [t])).
Proof.
  intros h (T & S & G).
  destruct (tags_append_typed h a t _ _ T) as (h' & a' & E & T' & S' & _ & _ & G').
  exists h', a'. split; [done|]. split; [by rewrite map_app, app_assoc|].
  split; [by eapply same_but_objects_trans | by eapply same_strings_trans].
Qed.

Lemma total_appended_has h0 a0 l0 d ts a kw s :
  fetch h0 (description a0) = JStr s →
  total (appended h0 a0 l0 d ts a) (description_has a kw)
        (λ b h, b = PyStr.contains kw (PyStr.lower s) ∧ appended h0 a0 l0 d ts a h).
Proof.
  intros Hs h (T & S & G). exists h, (PyStr.contains kw (PyStr.lower s)).
  split; [| done]. apply description_has_str.
  destruct S as (_ & _ & -> & _). by apply (fetch_str_same_strings h0 h).
Qed.

Lemma total_appended_source h0 a0 l0 d ts a s :
  total (appended h0 a0 l0 d ts a) (source_is a s)
        (λ b h, b = PyVal.py_eq (fetch h0 (source a0)) (JStr s)
                ∧ appended h0 a0 l0 d ts a h).
Proof.
  intros h (T & S & G). exists h, (PyVal.py_eq (fetch h (source a)) (JStr s)).
  split; [apply source_is_spec|]. split; [| done].
  destruct S as (_ & _ & _ & _ & -> & _). by apply py_eq_same_strings.
Qed.

Lemma total_pre {A : Type} (P P' : gmap loc pyval → Prop) (m : Py A) Q :
  (∀ h, P' h → P h) → total P m Q → total P' m Q.
Proof. intros Hp Hm h Hh. apply Hm, Hp, Hh. Qed.

Lemma enrich_hour_tags h0 a l d :
  total (appended h0 a l d [] a)
        (if (0 <=? hour_of (timestamp a)) && (hour_of (timestamp a) <? 6)
         then tags_append a "night_hours"
         else if (9 <=? hour_of (timestamp a)) && (hour_of (timestamp a) <? 17)
              then tags_append a "business_hours" else ret a)
        (appended h0 a l d (hour_tags (timestamp a))).
Proof.
  unfold hour_tags.
  destruct ((0 <=? hour_of (timestamp a)) && (hour_of (timestamp a) <? 6)).
  { apply (total_appended_tag h0 a l d [] a). }
  destruct ((9 <=? hour_of (timestamp a)) && (hour_of (timestamp a) <? 17)).
  { apply (total_appended_tag h0 a l d [] a). }
  apply total_ret.
Qed.

Lemma enrich_issue_tags h0 a0 l d ts a s first_kw first_tag second_kw second_tag :
  fetch h0 (description a0) = JStr s →
  total (appended h0 a0 l d ts a)
        (do found <- description_has a first_kw;
         if found then tags_append a first_tag
         else do found' <- description_has a second_kw;
              if found' then tags_append a second_tag else ret a)
        (appended h0 a0 l d
           (ts ++ (if PyStr.contains first_kw (PyStr.lower s) then [first_tag]
                   else if PyStr.contains second_kw (PyStr.lower s) then [second_tag]
                        else []))).
Proof.
  intros Hs.
  eapply total_bind; [apply (total_appended_has _ _ _ _ _ _ first_kw s Hs) | intros b].
  intros h [-> Hh]. revert h Hh.
  destruct (PyStr.contains first_kw (PyStr.lower s)).
  { apply total_appended_tag. }
  eapply total_bind; [apply (total_appended_has _ _ _ _ _ _ second_kw s Hs) | intros b].
  intros h [-> Hh]. revert h Hh.
  destruct (PyStr.contains second_kw (PyStr.lower s)).
  { apply total_appended_tag. }
  rewrite app_nil_r. apply total_ret.
Qed.

Lemma app_snoc_cons {A : Type} (l : list A) x r : (l ++ x :: r = (l ++ [x]) ++ r)%list.
Proof. by rewrite <- app_assoc. Qed.

(** The source-based part of enrichment, once the source was compared
    with [kubernetes]. *)
Lemma enrich_source_tags h0 a0 l d ts a s :
  fetch h0 (description a0) = JStr s →
  total (appended h0 a0 l d ts a)
        (if PyVal.py_eq (fetch h0 (source a0)) (JStr "kubernetes") then
           do alert <- tags_append a "container_platform";
           do pod <- description_has alert "pod";
           if pod then tags_append alert "pod_issue"
           else do node <- description_has alert "node";
                if node then tags_append alert "node_issue" else ret alert
         else
           do aws <- source_is a "aws";
           if aws then
             do alert <- tags_append a "cloud_platform";
             do ec2 <- description_has alert "ec2";
             if ec2 then tags_append alert "compute_issue"
             else do rds <- description_has alert "rds";
                  if rds then tags_append alert "database_issue" else ret alert
           else ret a)
        (appended h0 a0 l d (ts ++ source_tags (fetch h0 (source a0)) (PyStr.lower s))).
Proof.
  intros Hs. unfold source_tags.
  destruct (PyVal.py_eq (fetch h0 (source a0)) (JStr "kubernetes")).
  { rewrite app_snoc_cons.
    apply (total_bind _ _ (appended h0 a0 l d (ts ++ ["container_platform"])));
      [apply total_appended_tag | intros a1].
    exact (enrich_issue_tags h0 a0 l d _ a1 s "pod" "pod_issue" "node" "node_issue" Hs). }
  eapply total_bind; [apply (total_appended_source _ _ _ _ _ _ "aws") | intros b].
  intros h [-> Hh]. revert h Hh.
  destruct (PyVal.py_eq (fetch h0 (source a0)) (JStr "aws")).
  { rewrite app_snoc_cons.
    apply (total_bind _ _ (appended h0 a0 l d (ts ++ ["cloud_platform"])));
      [apply total_appended_tag | intros a1].
    exact (enrich_issue_tags h0 a0 l d _ a1 s "ec2" "compute_issue" "rds" "database_issue"
             Hs). }
  rewrite app_nil_r. apply total_ret.
Qed.

Lemma enrich_alert_exact h a l d s :
  fetch h (description a) = JStr s → typed h a l d →
  ∃ h' a', _enrich_alert a h = (h', Ok a')
    ∧ typed h' a'
        (l ++ map JStr (hour_tags (timestamp a)
                        ++ source_tags (fetch h (source a)) (PyStr.lower s)))
        (enriched_metadata (severity a) d)
    ∧ same_but_objects a a'
    ∧ same_strings h h'.
Proof.
  intros Hs T.
  assert (total (appended h a l d [] a) (_enrich_alert a)
            (λ a' h', typed h' a'
                        (l ++ map JStr (hour_tags (timestamp a)
                                        ++ source_tags (fetch h (source a)) (PyStr.lower s)))
                        (enriched_metadata (severity a) d)
                      ∧ same_but_objects a a'
                      ∧ same_strings h h')) as Ht.
  { unfold _enrich_alert.
    eapply total_bind; [apply enrich_hour_tags | intros a1].
    eapply total_bind; [apply (total_appended_source _ _ _ _ _ _ "kubernetes") | intros b].
    intros h1 [-> H1]. revert h1 H1.
    eapply total_bind; [apply (enrich_source_tags h a l d _ a1 s Hs) | intros a2].
    intros h2 (T2 & S2 & G2). pose proof S2 as (_ & _ & _ & S2s & _). rewrite S2s.
    unfold enriched_metadata.
    destruct (String.eqb (severity a) "critical").
    { destruct (metadata_set_typed h2 a2 "requires_immediate_attention" (JBool true) _ _ T2)
        as (h3 & a3 & E3 & T3 & S3 & _ & G3).
      destruct (metadata_set_typed h3 a3 "max_response_time" (JStr "15 minutes") _ _ T3)
        as (h4 & a4 & E4 & T4 & S4 & _ & G4).
      exists h4, a4. split; [by rewrite (bind_ok _ _ _ _ _ E3)|].
      split; [done|]. split.
      - eapply same_but_objects_trans; [exact S2|]. by eapply same_but_objects_trans.
      - eapply same_strings_trans; [exact G2|]. by eapply same_strings_trans. }
    destruct (String.eqb (severity a) "warning").
    { destruct (metadata_set_typed h2 a2 "requires_attention" (JBool true) _ _ T2)
        as (h3 & a3 & E3 & T3 & S3 & _ & G3).
      destruct (metadata_set_typed h3 a3 "max_response_time" (JStr "1 hour") _ _ T3)
        as (h4 & a4 & E4 & T4 & S4 & _ & G4).
      exists h4, a4. split; [by rewrite (bind_ok _ _ _ _ _ E3)|].
      split; [done|]. split.
      - eapply same_but_objects_trans; [exact S2|]. by eapply same_but_objects_trans.
      - eapply same_strings_trans; [exact G2|]. by eapply same_strings_trans. }
    by exists h2, a2. }
  destruct (Ht h) as (h' & a' & E & T' & S' & G').
  { split; [| split; [apply same_but_objects_refl | apply same_strings_refl]].
    simpl. by rewrite app_nil_r. }
  by exists h', a'.
Qed.

(** The tags a call appends, in order. *)
Lemma process_alert_exact self alert_data now_created now_checked h sv s l d :
  fetch h (get alert_data "severity" (JStr "info")) = JStr sv →
  fetch h (get alert_data "description" (JStr EmptyString)) = JStr s →
  fetch h (get alert_data "tags" (JList [])) = JList l →
  fetch h (get alert_data "metadata" (JDict [])) = JDict d →
  deduplicate_alert self h now_checked (new_alert h alert_data now_created sv) = false →
  ∃ h' a,
    process_alert self alert_data now_created now_checked h = (h', (Some a, store self a))
    ∧ fetch h' (tags a) =
        JList (l ++ map JStr
                 (hour_tags now_created
                  ++ source_tags (fetch h (get alert_data "source" (JStr "unknown")))
                                 (PyStr.lower s)
                  ++ (if escalates s (PyStr.lower sv) then ["auto_escalated"] else [])))
    ∧ fetch h' (metadata a) = JDict (enriched_metadata (PyStr.lower sv) d)
    ∧ severity a = (if escalates s (PyStr.lower sv) then "critical" else PyStr.lower sv)
    ∧ ref_of (tags a) = ref_of (get alert_data "tags" (JList []))
    ∧ ref_of (metadata a) = ref_of (get alert_data "metadata" (JDict [])).
Proof.
  intros Hsv Hs Hl Hd Hdup.
  pose proof (process_alert_try_cases self alert_data now_created now_checked h) as Hc.
  rewrite Hsv in Hc. simpl in Hc. rewrite Hdup in Hc.
  set (a0 := new_alert h alert_data now_created sv) in *.
  assert (fetch h (description a0) = JStr s) as Hs0 by exact Hs.
  assert (typed h a0 l d) as T0 by (by split).
  destruct (enrich_alert_exact h a0 l d s Hs0 T0) as (h1 & a1 & E1 & [T1 T1'] & S1 & G1).
  destruct (safe_enrich_alert a0 _ _ _ E1) as [_ K1]. specialize (K1 a1 eq_refl).
  destruct S1 as (S1i & S1t & S1d & S1s & S1r & S1ts & S1st & S1a).
  assert (fetch h1 (description a1) = JStr s) as Hs1.
  { rewrite S1d. by apply (fetch_str_same_strings h h1). }
  destruct (apply_severity_rules_typed h1 a1 s _ Hs1 T1)
    as (h2 & a2 & E2 & Hsev & Htags & _ & Hown & Hmd & Hmdv & _).
  destruct (safe_apply_severity_rules a1 _ _ _ E2) as [_ K2]. specialize (K2 a2 eq_refl).
  destruct K1 as (K1t & K1m & _). destruct K2 as (K2t & K2m & _).
  exists h2, a2. split; [| split; [| split; [| split; [| split]]]].
  - unfold process_alert. rewrite Hc.
    by rewrite (bind_ok _ _ _ _ _ E1), (bind_ok _ _ _ _ _ E2).
  - rewrite Htags, S1s. f_equal. subst a0. simpl.
    destruct (escalates s (PyStr.lower sv)).
    + by rewrite <- app_assoc, !map_app, <- !app_assoc.
    + by rewrite app_nil_r.
  - apply Hmdv. exact T1'.
  - by rewrite Hsev, S1s.
  - by rewrite K2t, K1t.
  - by rewrite K2m, K1m.
Qed.

Ltac in_list :=
  repeat first [ apply list_elem_of_here | apply list_elem_of_further ].

Ltac not_in_list H :=
  solve [repeat (apply elem_of_cons in H as [H | H]; [discriminate|]); inversion H].

Lemma hour_tags_spec t :
  (length (hour_tags t) ≤ 1)%nat
  ∧ ("night_hours" ∈ hour_tags t ↔ 0 ≤ hour_of t < 6)
  ∧ ("business_hours" ∈ hour_tags t ↔ 9 ≤ hour_of t < 17)
  ∧ (∀ x, x ∈ hour_tags t → x = "night_hours" ∨ x = "business_hours").
Proof.
  unfold hour_tags.
  destruct ((0 <=? hour_of t) && (hour_of t <? 6)) eqn:E1.
  { apply andb_true_iff in E1 as [?%Z.leb_le ?%Z.ltb_lt].
    split; [simpl; lia|].
    split; [split; [intros _; lia | intros _; in_list]|].
    split; [split; [intros Hin; not_in_list Hin | intros ?; lia]|].
    intros x ->%list_elem_of_singleton. by left. }
  apply andb_false_iff in E1.
  destruct ((9 <=? hour_of t) && (hour_of t <? 17)) eqn:E2.
  { apply andb_true_iff in E2 as [?%Z.leb_le ?%Z.ltb_lt].
    split; [simpl; lia|].
    split; [split; [intros Hin; not_in_list Hin | intros ?; lia]|].
    split; [split; [intros _; lia | intros _; in_list]|].
    intros x ->%list_elem_of_singleton. by right. }
  apply andb_false_iff in E2.
  split; [simpl; lia|].
  split; [split; [intros Hin; inversion Hin |]|].
  { intros ?. destruct E1 as [?%Z.leb_gt | ?%Z.ltb_ge]; lia. }
  split; [split; [intros Hin; inversion Hin |]|].
  { intros ?. destruct E2 as [?%Z.leb_gt | ?%Z.ltb_ge]; lia. }
  intros x Hin. inversion Hin.
Qed.

Lemma source_tags_spec src d :
  (length (source_tags src d) ≤ 2)%nat
  ∧ (∀ x, x ∈ source_tags src d →
          x ∈ [ "container_platform"; "pod_issue"; "node_issue";
                "cloud_platform"; "compute_issue"; "database_issue" ])
  ∧ ¬ ("pod_issue" ∈ source_tags src d ∧ "node_issue" ∈ source_tags src d).
Proof.
  unfold source_tags.
  destruct (PyVal.py_eq src (JStr "kubernetes"));
    [destruct (PyStr.contains "pod" d); [| destruct (PyStr.contains "node" d)] |
     destruct (PyVal.py_eq src (JStr "aws"));
       [destruct (PyStr.contains "ec2" d); [| destruct (PyStr.contains "rds" d)] |]];
    (split; [simpl; lia|]);
    (split;
     [ intros x Hx; repeat (apply elem_of_cons in Hx as [-> | Hx]; [in_list|]);
       inversion Hx
     | intros [H1 H2]; first [not_in_list H1 | not_in_list H2] ]).
Qed.

(** X8. Ingestion never removes or reorders the tags submitted with a
    well-typed payload: the stored alert has them followed by at most four
    tags of the pipeline's own, never both [pod_issue] and [node_issue];
    [night_hours] is among them exactly for timestamps from 0 to 5 o'clock,
    [business_hours] exactly from 9 to 16 o'clock, and [auto_escalated]
    exactly when the alert was escalated. *)
Theorem ingestion_appends_tags self alert_data now_created now_checked h sv s l d :
  fetch h (get alert_data "severity" (JStr "info")) = JStr sv →
  fetch h (get alert_data "description" (JStr EmptyString)) = JStr s →
  fetch h (get alert_data "tags" (JList [])) = JList l →
  fetch h (get alert_data "metadata" (JDict [])) = JDict d →
  deduplicate_alert self h now_checked (new_alert h alert_data now_created sv) = false →
  ∃ h' a added,
    process_alert self alert_data now_created now_checked h = (h', (Some a, store self a))
    ∧ fetch h' (tags a) = JList (l ++ map JStr added)
    ∧ (length added ≤ 4)%nat
    ∧ (∀ t, t ∈ added → t ∈ pipeline_tags)
    ∧ ¬ ("pod_issue" ∈ added ∧ "node_issue" ∈ added)
    ∧ ("night_hours" ∈ added ↔ 0 ≤ hour_of now_created < 6)
    ∧ ("business_hours" ∈ added ↔ 9 ≤ hour_of now_created < 17)
    ∧ ("auto_escalated" ∈ added ↔ severity a = "critical" ∧ PyStr.lower sv = "warning").
Proof.
  intros Hsv Hs Hl Hd Hdup.
  destruct (process_alert_exact self alert_data now_created now_checked h sv s l d
              Hsv Hs Hl Hd Hdup) as (h' & a & E & Htags & _ & Hsev & _).
  set (src := fetch h (get alert_data "source" (JStr "unknown"))) in *.
  destruct (hour_tags_spec now_created) as (Hh1 & Hh2 & Hh3 & Hh4).
  destruct (source_tags_spec src (PyStr.lower s)) as (Hs1 & Hs2 & Hs3).
  set (esc := if escalates s (PyStr.lower sv) then ["auto_escalated"] else []) in *.
  assert ((length esc ≤ 1)%nat
          ∧ (∀ x, x ∈ esc → x = "auto_escalated")
          ∧ ("auto_escalated" ∈ esc ↔ severity a = "critical" ∧ PyStr.lower sv = "warning"))
    as (He1 & He2 & He3).
  { unfold esc. rewrite Hsev. destruct (escalates s (PyStr.lower sv)) eqn:Ee.
    - apply escalates_spec in Ee as [_ Hw].
      split; [simpl; lia|].
      split; [intros x Hx; by apply list_elem_of_singleton in Hx|].
      split; [by intros _ | intros _; in_list].
    - split; [simpl; lia|].
      split; [intros x Hx; inversion Hx|].
      split; [intros Hx; inversion Hx|].
      intros [Hc Hw]. rewrite Hw in Hc. discriminate. }
  exists h', a, (hour_tags now_created ++ source_tags src (PyStr.lower s) ++ esc)%list.
  split; [exact E|]. split; [exact Htags|].
  split; [rewrite !length_app; lia|].
  split; [| split; [| split; [| split]]].
  - intros t [Ht | [Ht | Ht]%elem_of_app]%elem_of_app.
    + destruct (Hh4 t Ht) as [-> | ->]; unfold pipeline_tags; in_list.
    + specialize (Hs2 t Ht). unfold pipeline_tags.
      repeat (apply elem_of_cons in Hs2 as [-> | Hs2]; [in_list|]). inversion Hs2.
    + rewrite (He2 t Ht). unfold pipeline_tags. in_list.
  - intros [Hp Hn]. apply Hs3. split.
    + apply elem_of_app in Hp as [Hp | [Hp | Hp]%elem_of_app]; [| done |].
      * destruct (Hh4 _ Hp); discriminate.
      * specialize (He2 _ Hp). discriminate.
    + apply elem_of_app in Hn as [Hn | [Hn | Hn]%elem_of_app]; [| done |].
      * destruct (Hh4 _ Hn); discriminate.
      * specialize (He2 _ Hn). discriminate.
  - rewrite <- Hh2, !elem_of_app. split; [| by left].
    intros [Hx | [Hx | Hx]]; [done | |].
    + specialize (Hs2 _ Hx). not_in_list Hs2.
    + specialize (He2 _ Hx). discriminate.
  - rewrite <- Hh3, !elem_of_app. split; [| by left].
    intros [Hx | [Hx | Hx]]; [done | |].
    + specialize (Hs2 _ Hx). not_in_list Hs2.
    + specialize (He2 _ Hx). discriminate.
  - rewrite <- He3, !elem_of_app. split; [| by right; right].
    intros [Hx | [Hx | Hx]]; [| | done].
    + destruct (Hh4 _ Hx); discriminate.
    + specialize (Hs2 _ Hx). not_in_list Hs2.
Qed.

Lemma ingestion_appends_tags_witness :
  ∃ h' a added,
    process_alert init Scenario.db_down Scenario.ten_o_clock Scenario.ten_o_clock ∅
      = (h', (Some a, store init a))
    ∧ fetch h' (tags a) = JList ([] ++ map JStr added)
    ∧ (length added ≤ 4)%nat.
Proof.
  destruct (ingestion_appends_tags init Scenario.db_down Scenario.ten_o_clock
              Scenario.ten_o_clock ∅ "warning" "database connection failed" [] [])
    as (h' & a & added & E & Ht & Hl & _); try reflexivity.
  exists h', a, added. split; [exact E|]. split; [exact Ht | exact Hl].
Defined.

(** ** What enrichment writes in the metadata *)




(** ** Escalation run twice *)

Lemma owner_idempotent src old : owner src (owner src old) = owner src old.
Proof.
  unfold owner.
  destruct (PyVal.py_eq src (JStr "kubernetes")); [done|].
  destruct (PyVal.py_eq src (JStr "aws")); [done|].
  by destruct (PyVal.py_eq src (JStr "database")).
Qed.

Lemma owner_same_strings h0 h r old :
  same_strings h0 h → owner (fetch h r) old = owner (fetch h0 r) old.
Proof. intros G. unfold owner. by rewrite !(py_eq_same_strings h0 h _ _ G). Qed.

Lemma escalates_critical s : escalates s "critical" = false.
Proof. unfold escalates. simpl. apply andb_false_r. Qed.

(** X10. The escalation step is idempotent on an alert whose description
    is a string and whose tags are a list: applied to its own result it
    changes neither the alert nor the heap, so an escalated alert is not
    tagged [auto_escalated] a second time. *)
Theorem escalation_idempotent h a s l :
  fetch h (description a) = JStr s → fetch h (tags a) = JList l →
  ∃ h1 a1, _apply_severity_rules a h = (h1, Ok a1)
           ∧ _apply_severity_rules a1 h1 = (h1, Ok a1).
Proof.
  intros Hs Hl.
  destruct (apply_severity_rules_typed h a s l Hs Hl)
    as (h1 & a1 & E1 & Hsev & Htags & _ & Hown & _ & _ & Hi & Hti & Hd & Hsrc & Hts & Hst
        & G).
  exists h1, a1. split; [exact E1|].
  assert (fetch h1 (description a1) = JStr s) as Hs1.
  { rewrite Hd. by apply (fetch_str_same_strings h h1). }
  destruct (apply_severity_rules_typed h1 a1 s _ Hs1 Htags)
    as (h2 & a2 & E2 & Hsev2 & _ & Hno & Hown2 & Hmd2 & _ & Hi2 & Hti2 & Hd2 & Hsrc2
        & Hts2 & Hst2 & _).
  assert (escalates s (severity a1) = false) as He.
  { rewrite Hsev. destruct (escalates s (severity a)) eqn:E; [apply escalates_critical | done]. }
  destruct (Hno He) as [-> Htg]. rewrite He in Hsev2.
  rewrite Hsrc, (owner_same_strings h h1 _ _ G), Hown, owner_idempotent, <- Hown in Hown2.
  rewrite E2. do 2 f_equal.
  destruct a1, a2; simpl in *; congruence.
Qed.

Lemma escalation_idempotent_witness :
  ∃ h1 a1, _apply_severity_rules Scenario.api_warning ∅ = (h1, Ok a1)
           ∧ _apply_severity_rules a1 h1 = (h1, Ok a1).
Proof.
  apply (escalation_idempotent ∅ Scenario.api_warning "Service DOWN since noon"
           [JStr "api"]); reflexivity.
Defined.

(** ** Ill-typed payloads *)

Lemma tags_append_raises h a t :
  (∀ l, fetch h (tags a) ≠ JList l) → tags_append a t h = (h, Raise AttributeError).
Proof.
  intros Hn. unfold tags_append, bind, list_append.
  destruct (tags a) as [v|p]; simpl in Hn.
  - destruct v; try done. by destruct (Hn items).
  - destruct (h !! p) as [v|]; simpl in Hn; [| done].
    destruct v; try done. by destruct (Hn items).
Qed.

(** X11. A payload whose severity is no string is dropped before
    anything is touched, and so is, between 0 and 5 and between 9 and 16
    o'clock, a payload whose tags are no list: the call returns [None] and
    the processor and the heap are as they were. *)
Theorem ill_typed_payload_dropped self alert_data now_created now_checked h :
  (∀ s, fetch h (get alert_data "severity" (JStr "info")) ≠ JStr s)
  ∨ ((∀ l, fetch h (get alert_data "tags" (JList [])) ≠ JList l)
     ∧ (0 ≤ hour_of now_created < 6 ∨ 9 ≤ hour_of now_created < 17)) →
  process_alert self alert_data now_created now_checked h = (h, (None, self)).
Proof.
  intros Hill.
  pose proof (process_alert_try_cases self alert_data now_created now_checked h) as Hc.
  unfold process_alert.
  destruct (fetch h (get alert_data "severity" (JStr "info"))) eqn:Hs;
    try (by rewrite Hc).
  destruct Hill as [Hn | [Hn Hhour]]; [by destruct (Hn s)|].
  simpl in Hc. destruct (deduplicate_alert self h now_checked _); [by rewrite Hc|].
  rewrite Hc. set (a0 := new_alert h alert_data now_created s).
  assert (_enrich_alert a0 h = (h, Raise AttributeError)) as Hr.
  { unfold _enrich_alert.
    assert (hour_of (timestamp a0) = hour_of now_created) as -> by reflexivity.
    apply bind_raise.
    destruct Hhour as [[H1 H2] | [H1 H2]].
    - apply Z.leb_le in H1. apply Z.ltb_lt in H2. rewrite H1, H2. simpl.
      by apply tags_append_raises.
    - assert ((0 <=? hour_of now_created) && (hour_of now_created <? 6) = false) as ->.
      { apply andb_false_iff. right. apply Z.ltb_ge. lia. }
      apply Z.leb_le in H1. apply Z.ltb_lt in H2. rewrite H1, H2. simpl.
      by apply tags_append_raises. }
  by rewrite (bind_raise _ _ _ _ _ Hr).
Qed.

Lemma ill_typed_payload_dropped_witness :
  process_alert init Scenario.null_tags Scenario.ten_o_clock Scenario.ten_o_clock ∅
  = (∅, (None, init)).
Proof.
  apply (ill_typed_payload_dropped init Scenario.null_tags Scenario.ten_o_clock
           Scenario.ten_o_clock ∅).
  right. split; [intros l Hl; vm_compute in Hl; discriminate|].
  right. vm_compute. split; [discriminate | reflexivity].
Defined.

(** X12. Outside these hours the same payload is accepted: when no tag is
    due (the hour is 6 to 8 or 17 to 23, the source is neither
    [kubernetes] nor [aws], the description is a string) and the
    severity is neither [critical] nor [warning], an alert that is no
    duplicate is stored with the payload's tags and metadata as they are,
    of whatever type, and the heap is untouched. *)
Theorem untyped_objects_pass_through self alert_data now_created now_checked h sv s :
  fetch h (get alert_data "severity" (JStr "info")) = JStr sv →
  fetch h (get alert_data "description" (JStr EmptyString)) = JStr s →
  (6 ≤ hour_of now_created < 9 ∨ 17 ≤ hour_of now_created) →
  fetch h (get alert_data "source" (JStr "unknown")) ≠ JStr "kubernetes" →
  fetch h (get alert_data "source" (JStr "unknown")) ≠ JStr "aws" →
  PyStr.lower sv ≠ "critical" → PyStr.lower sv ≠ "warning" →
  deduplicate_alert self h now_checked (new_alert h alert_data now_created sv) = false →
  ∃ a, process_alert self alert_data now_created now_checked h = (h, (Some a, store self a))
       ∧ tags a = get alert_data "tags" (JList [])
       ∧ metadata a = get alert_data "metadata" (JDict [])
       ∧ severity a = PyStr.lower sv.
Proof.
  intros Hsv Hs Hhour Hk Ha Hc Hw Hdup.
  pose proof (process_alert_try_cases self alert_data now_created now_checked h) as Ht.
  rewrite Hsv in Ht. simpl in Ht. rewrite Hdup in Ht.
  set (a0 := new_alert h alert_data now_created sv) in *.
  assert (source_is a0 "kubernetes" h = (h, Ok false)) as Ek.
  { rewrite source_is_spec. do 2 f_equal.
    apply not_true_is_false. by intros ?%py_eq_str. }
  assert (source_is a0 "aws" h = (h, Ok false)) as Ea.
  { rewrite source_is_spec. do 2 f_equal.
    apply not_true_is_false. by intros ?%py_eq_str. }
  assert (String.eqb (severity a0) "critical" = false) as Ec.
  { apply not_true_is_false. by intros ?%String.eqb_eq. }
  assert (String.eqb (severity a0) "warning" = false) as Ew.
  { apply not_true_is_false. by intros ?%String.eqb_eq. }
  assert (_enrich_alert a0 h = (h, Ok a0)) as E1.
  { unfold _enrich_alert.
    assert (hour_of (timestamp a0) = hour_of now_created) as -> by reflexivity.
    assert ((0 <=? hour_of now_created) && (hour_of now_created <? 6) = false) as ->.
    { apply andb_false_iff. right. apply Z.ltb_ge. lia. }
    assert ((9 <=? hour_of now_created) && (hour_of now_created <? 17) = false) as ->.
    { apply andb_false_iff. destruct Hhour; [left; apply Z.leb_gt | right; apply Z.ltb_ge]; lia. }
    rewrite (bind_ok (ret a0) _ h h a0 eq_refl).
    rewrite (bind_ok _ _ _ _ _ Ek).
    assert ((do aws <- source_is a0 "aws";
             if aws then
               do alert <- tags_append a0 "cloud_platform";
               do ec2 <- description_has alert "ec2";
               if ec2 then tags_append alert "compute_issue"
               else do rds <- description_has alert "rds";
                    if rds then tags_append alert "database_issue" else ret alert
             else ret a0) h = (h, Ok a0)) as Eaws.
    { by rewrite (bind_ok _ _ _ _ _ Ea). }
    rewrite (bind_ok _ _ _ _ _ Eaws). by rewrite Ec, Ew. }
  assert (fetch h (description a0) = JStr s) as Hs0 by exact Hs.
  assert (∃ a, _apply_severity_rules a0 h = (h, Ok a)
               ∧ tags a = tags a0 ∧ metadata a = metadata a0 ∧ severity a = severity a0)
    as (a & E2 & Ht2 & Hm2 & Hs2).
  { unfold _apply_severity_rules.
    rewrite (bind_ok _ _ _ _ _ (any_keyword_str h a0 escalation_keywords s Hs0)).
    rewrite Ew, andb_false_r.
    rewrite (bind_ok (ret a0) _ h h a0 eq_refl).
    rewrite (bind_ok _ _ _ _ _ Ek), (bind_ok _ _ _ _ _ Ea).
    rewrite (bind_ok _ _ _ _ _ (source_is_spec h a0 "database")).
    destruct (PyVal.py_eq (fetch h (source a0)) (JStr "database")); by eexists. }
  exists a. split; [| by rewrite Ht2, Hm2, Hs2].
  unfold process_alert. rewrite Ht.
  by rewrite (bind_ok _ _ _ _ _ E1), (bind_ok _ _ _ _ _ E2).
Qed.

Lemma untyped_objects_pass_through_witness :
  ∃ a, process_alert init Scenario.null_tags Scenario.seven_o_clock
                     Scenario.seven_o_clock ∅ = (∅, (Some a, store init a))
       ∧ tags a = Val JNull.
Proof.
  assert (6 ≤ hour_of Scenario.seven_o_clock < 9 ∨ 17 ≤ hour_of Scenario.seven_o_clock)
    as Hhour by (left; vm_compute; split; [discriminate | reflexivity]).
  destruct (untyped_objects_pass_through init Scenario.null_tags Scenario.seven_o_clock
              Scenario.seven_o_clock ∅ "info" EmptyString eq_refl eq_refl Hhour)
    as (a & E & Ht & _).
  - vm_compute. discriminate.
  - vm_compute. discriminate.
  - vm_compute. discriminate.
  - vm_compute. discriminate.
  - apply deduplicate_alert_init.
  - exists a. split; [exact E | exact Ht].
Defined.

(** ** Routing under the default rules, and under more rules *)

Section RoutingExtras.
Context `{Interpreter}.

Lemma route_alert_default self h a :
  routing_rules self = _setup_routing_rules →
  route_alert self h a =
    first_seen
      ((if String.eqb (severity a) "critical"
        then ["email_ops"; "slack_critical"; "pagerduty"] else [])
       ++ (if String.eqb (severity a) "warning" then ["email_ops"; "slack_critical"] else [])
       ++ (if String.eqb (severity a) "info" then ["email_ops"] else [])
       ++ (if PyVal.py_eq (fetch h (source a)) (JStr "kubernetes")
           then ["email_ops"; "slack_critical"] else [])).
Proof.
  intros Hr. unfold route_alert.
  rewrite dict_fromkeys_first_seen, matching_channels_spec, Hr.
  unfold _setup_routing_rules. simpl.
  destruct (String.eqb (severity a) "critical"),
           (String.eqb (severity a) "warning"),
           (String.eqb (severity a) "info"),
           (PyVal.py_eq (fetch h (source a)) (JStr "kubernetes")); reflexivity.
Qed.

(** X13. The routing table of the default rules: a critical alert goes
    to [email_ops], [slack_critical] and [pagerduty]; a warning to
    [email_ops] and [slack_critical]; an [info] alert to [email_ops], and
    to [slack_critical] as well when it comes from [kubernetes]; an alert
    of any other severity goes to [email_ops] and [slack_critical] when it
    comes from [kubernetes] and to no channel at all otherwise. *)
Theorem default_routing_table self h a :
  routing_rules self = _setup_routing_rules →
  (severity a = "critical" →
   route_alert self h a = ["email_ops"; "slack_critical"; "pagerduty"])
  ∧ (severity a = "warning" → route_alert self h a = ["email_ops"; "slack_critical"])
  ∧ (severity a = "info" → fetch h (source a) = JStr "kubernetes" →
     route_alert self h a = ["email_ops"; "slack_critical"])
  ∧ (severity a = "info" → fetch h (source a) ≠ JStr "kubernetes" →
     route_alert self h a = ["email_ops"])
  ∧ (¬ valid_severity (severity a) → fetch h (source a) = JStr "kubernetes" →
     route_alert self h a = ["email_ops"; "slack_critical"])
  ∧ (¬ valid_severity (severity a) → fetch h (source a) ≠ JStr "kubernetes" →
     route_alert self h a = []).
Proof.
  intros Hr. rewrite (route_alert_default self h a Hr).
  assert (∀ s, String.eqb (severity a) s = false ↔ severity a ≠ s) as Hneq.
  { intros s. rewrite <- not_true_iff_false, String.eqb_eq. done. }
  assert (PyVal.py_eq (fetch h (source a)) (JStr "kubernetes") = false
          ↔ fetch h (source a) ≠ JStr "kubernetes") as Hsrc.
  { rewrite <- not_true_iff_false, py_eq_str. done. }
  split; [| split; [| split; [| split; [| split]]]].
  - intros ->. simpl. by destruct (PyVal.py_eq (fetch h (source a)) (JStr "kubernetes")).
  - intros ->. simpl. by destruct (PyVal.py_eq (fetch h (source a)) (JStr "kubernetes")).
  - intros -> ->. reflexivity.
  - intros -> Hn. apply Hsrc in Hn. simpl. by rewrite Hn.
  - intros Hv ->. unfold valid_severity in Hv.
    rewrite (proj2 (Hneq "critical")), (proj2 (Hneq "warning")), (proj2 (Hneq "info"))
      by tauto.
    reflexivity.
  - intros Hv Hn. unfold valid_severity in Hv. apply Hsrc in Hn.
    rewrite (proj2 (Hneq "critical")), (proj2 (Hneq "warning")), (proj2 (Hneq "info")), Hn
      by tauto.
    reflexivity.
Qed.

Lemma fold_seen (l seen : list string) :
  fold_left (λ (seen : list string) x,
               if existsb (String.eqb x) seen then seen else (seen ++ [x])%list) l seen
  = (seen ++ filter (λ y, y ∉ seen) (first_seen l))%list.
Proof.
  revert seen. induction l as [|x l IH]; intros seen; simpl.
  - by rewrite app_nil_r.
  - rewrite IH. destruct (existsb (String.eqb x) seen) eqn:E.
    + apply existsb_eqb_elem_of in E.
      rewrite filter_cons_False by (intros Hn; by apply Hn).
      rewrite list_filter_filter. f_equal. apply list_filter_iff.
      intros y. split; [intros Hy; split; [done | by intros ->] | by intros [? _]].
    + assert (x ∉ seen) as Hx.
      { intros Hin. apply existsb_eqb_elem_of in Hin. congruence. }
      rewrite filter_cons_True by done.
      rewrite list_filter_filter, <- app_assoc. simpl. do 2 f_equal.
      apply list_filter_iff. intros y.
      rewrite elem_of_app, list_elem_of_singleton. tauto.
Qed.

Lemma dict_fromkeys_app l1 l2 :
  dict_fromkeys (l1 ++ l2)
  = (dict_fromkeys l1 ++ filter (λ y, y ∉ dict_fromkeys l1) (dict_fromkeys l2))%list.
Proof.
  unfold dict_fromkeys at 1. rewrite fold_left_app.
  fold (dict_fromkeys l1). rewrite fold_seen. by rewrite !dict_fromkeys_first_seen.
Qed.

(** X14. Rules added after the configured ones never remove or reorder
    what the configured ones route: the channels of the longer rule list
    are those of the shorter one followed by new names only, each a
    channel of an added rule that fires. *)
Theorem more_rules_extend_route self self' h a more :
  routing_rules self' = (routing_rules self ++ more)%list →
  ∃ extra,
    route_alert self' h a = (route_alert self h a ++ extra)%list
    ∧ (∀ x, x ∈ extra →
            (x ∉ route_alert self h a)
            ∧ ∃ r, r ∈ more ∧ rule_matches h a (conditions r) = true ∧ x ∈ channels r).
Proof.
  intros Hr. unfold route_alert. rewrite Hr, !matching_channels_spec, flat_map_app.
  rewrite dict_fromkeys_app.
  eexists. split; [reflexivity|].
  intros x [Hx Hin]%list_elem_of_filter. split; [done|].
  rewrite dict_fromkeys_first_seen, elem_of_first_seen in Hin.
  apply list_elem_of_In, in_flat_map in Hin as (r & Hr' & Hxr).
  exists r. destruct (rule_matches h a (conditions r)); [| inversion Hxr].
  by rewrite !list_elem_of_In.
Qed.

End RoutingExtras.

Lemma default_routing_table_witness :
  @route_alert Scenario.interpreter init ∅ (set_severity Scenario.db_alert "high") = [].
Proof.
  apply (@default_routing_table Scenario.interpreter init ∅ (set_severity Scenario.db_alert "high") eq_refl).
  - intros [H | [H | H]]; discriminate.
  - discriminate.
Defined.

Lemma more_rules_extend_route_witness :
  ∃ extra,
    @route_alert Scenario.interpreter (mkProcessor ∅ [] _setup_notification_channels
                   (_setup_routing_rules ++ [Scenario.unowned_rule])%list (minutes 5))
                ∅ Scenario.pod_crash
    = (@route_alert Scenario.interpreter init ∅ Scenario.pod_crash ++ extra)%list.
Proof.
  destruct (@more_rules_extend_route Scenario.interpreter init
              (mkProcessor ∅ [] _setup_notification_channels
                 (_setup_routing_rules ++ [Scenario.unowned_rule])%list (minutes 5))
              ∅ Scenario.pod_crash [Scenario.unowned_rule] eq_refl) as (extra & E & _).
  by exists extra.
Defined.

(** ** The send methods under the default configuration *)

Section SendExtras.
Context `{Interpreter}.






(** X16. The email and the Slack method fail on every alert whose tags
    cannot be joined (a list with a member that is no string, or [None]),
    whatever the configuration and the network; the webhook method does
    not join the tags.  With the channels and rules the processor sets up,
    such a critical alert is reported failed by [email_ops] and
    [slack_critical] and delivered by [pagerduty]. *)
Theorem unjoinable_tags_fail_email_and_slack (N : Network) h a :
  Send.join (fetch h (tags a)) = None →
  (∀ channel_config,
     Send.send_email_notification h a channel_config = false
     ∧ Send.send_slack_notification h a channel_config = false)
  ∧ ∀ self,
      notification_channels self = _setup_notification_channels →
      routing_rules self = _setup_routing_rules →
      severity a = "critical" →
      map (λ c, (channel c, result_status c))
          (results (@notify_alert _ (@Send.senders N) self h a))
      = [("email_ops", "failed"); ("slack_critical", "failed"); ("pagerduty", "success")]
      ∧ successful_notifications (@notify_alert _ (@Send.senders N) self h a) = 1%nat
      ∧ failed_notifications (@notify_alert _ (@Send.senders N) self h a) = 2%nat.
Proof.
  intros Hj. split.
  - intros channel_config.
    unfold Send.send_email_notification, Send.send_slack_notification.
    destruct channel_config as [| | | | |entries]; simpl; try done. rewrite Hj. simpl.
    split; [| done].
    by destruct (Send.join (default (JList []) (PyVal.dict_get entries "recipients"))).
  - intros self Hc Hr Hs.
    rewrite notify_alert_outcomes. cbv zeta.
    rewrite (route_alert_default self h a Hr), Hs.
    assert (∀ b : bool,
              first_seen (["email_ops"; "slack_critical"; "pagerduty"] ++ [] ++ []
                          ++ (if b then ["email_ops"; "slack_critical"] else []))
              = ["email_ops"; "slack_critical"; "pagerduty"]) as Hroute
      by (by intros []).
    simpl String.eqb. cbv iota. rewrite Hroute.
    unfold outcome, find_channel. rewrite Hc. simpl.
    unfold send. simpl.
    unfold Send.send_email_notification, Send.send_slack_notification,
           Send.send_webhook_notification. simpl. rewrite Hj. simpl.
    done.
Qed.

End SendExtras.


Lemma unjoinable_tags_fail_email_and_slack_witness :
  successful_notifications (@notify_alert Scenario.interpreter (@Send.senders unreachable) init ∅ numbered_tag)
  = 1%nat.
Proof.
  destruct (@unjoinable_tags_fail_email_and_slack Scenario.interpreter unreachable ∅ numbered_tag eq_refl)
    as [_ Hn].
  apply (Hn init eq_refl eq_refl eq_refl).
Defined.

(** ** The summary *)

Lemma count_of_count_up counts k s :
  count_of (count_up counts k) s
  = if String.eqb k s then Some (default 0 (count_of counts k) + 1) else count_of counts s.
Proof.
  induction counts as [|[k' n] r IH]; simpl.
  - destruct (String.eqb k s); reflexivity.
  - destruct (String.eqb k' k) eqn:E; simpl.
    + apply String.eqb_eq in E as ->.
      destruct (String.eqb k s) eqn:E'; [| done].
      by rewrite Z.add_comm, Z.add_comm.
    + rewrite IH. destruct (String.eqb k s) eqn:E'.
      * apply String.eqb_eq in E' as ->. by rewrite E.
      * done.
Qed.

Lemma total_count_count_up counts k :
  total_count (count_up counts k) = total_count counts + 1.
Proof.
  induction counts as [|[k' n] r IH]; simpl; [lia|].
  destruct (String.eqb k' k); simpl; [lia|]. rewrite IH. lia.
Qed.

Lemma fold_count_up (l : list (string * Alert)) counts :
  let counts' := fold_left (λ counts kv, count_up counts (severity (snd kv))) l counts in
  total_count counts' = total_count counts + Z.of_nat (length l)
  ∧ (∀ s, default 0 (count_of counts' s)
          = default 0 (count_of counts s)
            + Z.of_nat (length (filter (λ kv, severity (snd kv) = s) l)))
  ∧ (∀ s, count_of counts' s = None
          ↔ count_of counts s = None ∧ Forall (λ kv, severity (snd kv) ≠ s) l).
Proof.
  revert counts. induction l as [|kv l IH]; intros counts; simpl.
  - split; [lia|]. split; [intros s; lia|].
    intros s. split; [by intros ? | by intros [? _]].
  - destruct (IH (count_up counts (severity (snd kv)))) as (IH1 & IH2 & IH3).
    split; [| split].
    + rewrite IH1, total_count_count_up. lia.
    + intros s. rewrite IH2, count_of_count_up, filter_cons.
      destruct (String.eqb (severity kv.2) s) eqn:E.
      * apply String.eqb_eq in E. rewrite decide_True by done. subst s.
        cbn [default from_option id length]. lia.
      * assert (severity kv.2 ≠ s) as Hn by (intros Heq; apply String.eqb_eq in Heq; congruence).
        rewrite decide_False by done. lia.
    + intros s. rewrite IH3, count_of_count_up, Forall_cons.
      destruct (String.eqb (severity kv.2) s) eqn:E.
      * apply String.eqb_eq in E. split; [by intros [? _] | intros (_ & Hn & _); by destruct Hn].
      * assert (severity kv.2 ≠ s) as Hn by (intros Heq; apply String.eqb_eq in Heq; congruence).
        tauto.
Qed.

(** X17. The severity breakdown of the summary: its counters add up to
    the number of active alerts; the counter of a severity is the number
    of active alerts of that severity; the three severities always have a
    counter, another severity has one exactly when an active alert has it;
    and the recent alerts are never more than the alerts processed. *)
Theorem summary_breakdown self current_time :
  total_count (severity_breakdown (get_alert_summary self current_time))
  = Z.of_nat (summary_active_alerts (get_alert_summary self current_time))
  ∧ (∀ s, default 0 (count_of (severity_breakdown (get_alert_summary self current_time)) s)
          = Z.of_nat (length (filter (λ kv, severity (snd kv) = s)
                                     (map_to_list (active_alerts self)))))
  ∧ (∀ s, count_of (severity_breakdown (get_alert_summary self current_time)) s = None
          ↔ ¬ valid_severity s
            ∧ ∀ k a, active_alerts self !! k = Some a → severity a ≠ s)
  ∧ (recent_alerts_24h (get_alert_summary self current_time)
     ≤ total_processed (get_alert_summary self current_time))%nat.
Proof.
  unfold get_alert_summary. simpl.
  destruct (fold_count_up (map_to_list (active_alerts self))
              [("critical", 0); ("warning", 0); ("info", 0)]) as (H1 & H2 & H3).
  split; [| split; [| split]].
  - rewrite H1. simpl. by rewrite length_map_to_list.
  - intros s. rewrite H2. cbn [count_of].
    destruct (String.eqb "critical" s), (String.eqb "warning" s), (String.eqb "info" s);
      cbn [default from_option id]; lia.
  - intros s. rewrite H3. unfold valid_severity. cbn [count_of].
    rewrite Forall_forall.
    assert ((∀ kv : string * Alert, kv ∈ map_to_list (active_alerts self) → severity kv.2 ≠ s)
            ↔ ∀ k a, active_alerts self !! k = Some a → severity a ≠ s) as ->.
    { split.
      - intros Hall k a Hk. by apply (Hall (k, a)), elem_of_map_to_list.
      - intros Hall [k a] Hk%elem_of_map_to_list. by apply (Hall k a). }
    destruct (String.eqb "critical" s) eqn:E1; [apply String.eqb_eq in E1; subst s|].
    { split; [by intros [? _] | intros [Hn _]; destruct Hn; tauto]. }
    destruct (String.eqb "warning" s) eqn:E2; [apply String.eqb_eq in E2; subst s|].
    { split; [by intros [? _] | intros [Hn _]; destruct Hn; tauto]. }
    destruct (String.eqb "info" s) eqn:E3; [apply String.eqb_eq in E3; subst s|].
    { split; [by intros [? _] | intros [Hn _]; destruct Hn; tauto]. }
    assert (s ≠ "critical") by (intros ->; discriminate).
    assert (s ≠ "warning") by (intros ->; discriminate).
    assert (s ≠ "info") by (intros ->; discriminate).
    tauto.
  - apply length_filter.
Qed.

(** X18. What a call of [process_alert] does to the summary taken at a
    time less than 24 hours after the call: an alert that is returned
    adds one to the alerts processed and one to the recent alerts, and one
    to the active alerts unless its id was already active; a call that
    returns [None] leaves the summary as it was. *)
Theorem summary_after_call self alert_data now_created now_checked h h' r self' current_time :
  process_alert self alert_data now_created now_checked h = (h', (r, self')) →
  current_time - now_created < hours 24 →
  match r with
  | Some a =>
      total_processed (get_alert_summary self' current_time)
      = S (total_processed (get_alert_summary self current_time))
      ∧ recent_alerts_24h (get_alert_summary self' current_time)
        = S (recent_alerts_24h (get_alert_summary self current_time))
      ∧ summary_active_alerts (get_alert_summary self' current_time)
        = match active_alerts self !! alert_id a with
          | Some _ => summary_active_alerts (get_alert_summary self current_time)
          | None => S (summary_active_alerts (get_alert_summary self current_time))
          end
  | None => get_alert_summary self' current_time = get_alert_summary self current_time
  end.
Proof.
  intros E Ht. destruct r as [a|].
  - apply process_alert_some in E as (s & _ & _ & K & ->).
    destruct K as (_ & _ & _ & _ & _ & _ & Hts & _). simpl in Hts.
    unfold get_alert_summary. simpl. split; [| split].
    + rewrite length_app. simpl. lia.
    + rewrite filter_app, length_app, filter_cons_True by (rewrite Hts; exact Ht).
      simpl. lia.
    + destruct (active_alerts self !! alert_id a) eqn:Hk.
      * by rewrite map_size_insert_Some.
      * by rewrite map_size_insert_None.
  - apply process_alert_none in E as ->. reflexivity.
Qed.

Lemma summary_after_call_witness :
  total_processed
    (get_alert_summary (snd (snd Scenario.after_db_down)) (hours 24))
  = S (total_processed (get_alert_summary init (hours 24))).
Proof.
  assert (process_alert init Scenario.db_down Scenario.ten_o_clock Scenario.ten_o_clock ∅
          = (∅, (Some Scenario.db_alert, snd (snd Scenario.after_db_down)))) as E
    by (vm_compute; reflexivity).
  apply (summary_after_call init Scenario.db_down Scenario.ten_o_clock Scenario.ten_o_clock
           ∅ ∅ (Some Scenario.db_alert) (snd (snd Scenario.after_db_down)) (hours 24) E).
  vm_compute. reflexivity.
Defined.

(** ** The periodic job *)

Lemma process_alert_duplicate self alert_data now_created now_checked h sv :
  fetch h (get alert_data "severity" (JStr "info")) = JStr sv →
  deduplicate_alert self h now_checked (new_alert h alert_data now_created sv) = true →
  process_alert self alert_data now_created now_checked h = (h, (None, self)).
Proof.
  intros Hsv Hd. unfold process_alert.
  pose proof (process_alert_try_cases self alert_data now_created now_checked h) as Hc.
  rewrite Hsv in Hc. simpl in Hc. rewrite Hd in Hc. by rewrite Hc.
Qed.

Section PendingProperties.
Context `{Interpreter} `{Senders}.

Lemma pending_loop_some alert_data now_created now_checked rest self h n h' a self' :
  process_alert self alert_data now_created now_checked h = (h', (Some a, self')) →
  pending_loop ((alert_data, (now_created, now_checked)) :: rest) self h n
  = pending_loop rest self' h' (S n).
Proof. intros E. cbn [pending_loop]. by rewrite E. Qed.

Lemma pending_loop_none alert_data now_created now_checked rest self h n h' self' :
  process_alert self alert_data now_created now_checked h = (h', (None, self')) →
  pending_loop ((alert_data, (now_created, now_checked)) :: rest) self h n
  = pending_loop rest self' h' n.
Proof. intros E. cbn [pending_loop]. by rewrite E. Qed.

Lemma pending_loop_history calls self h n :
  ∃ stored,
    alert_history (snd (snd (pending_loop calls self h n)))
    = (alert_history self ++ stored)%list
    ∧ fst (snd (pending_loop calls self h n)) = (n + length stored)%nat
    ∧ (length stored ≤ length calls)%nat.
Proof.
  revert self h n. induction calls as [|[alert_data [now_created now_checked]] rest IH];
    intros self h n.
  - exists []. simpl. rewrite app_nil_r. split; [done|]. split; lia.
  - destruct (process_alert self alert_data now_created now_checked h)
      as [h' [[a|] self']] eqn:E.
    + rewrite (pending_loop_some _ _ _ rest _ _ n _ _ _ E).
      destruct (IH self' h' (S n)) as (stored & Hh & Hn & Hl).
      apply process_alert_some in E as (s & _ & _ & _ & ->).
      exists (a :: stored). rewrite Hh, Hn. simpl.
      rewrite <- app_assoc. simpl. split; [done|]. split; lia.
    + rewrite (pending_loop_none _ _ _ rest _ _ n _ _ E).
      destruct (IH self' h' n) as (stored & Hh & Hn & Hl).
      apply process_alert_none in E as ->.
      exists stored. rewrite Hh, Hn. simpl. split; [done|]. split; lia.
Qed.

(** X19. The number [process_pending_alerts] returns is the number of
    alerts the call appended to the history, which is at most two;
    nothing already in the history is removed or changed. *)
Theorem pending_count_is_history_growth self cpu_percent clock1 clock2 h :
  ∃ stored,
    alert_history (snd (snd (process_pending_alerts self cpu_percent clock1 clock2 h)))
    = (alert_history self ++ stored)%list
    ∧ fst (snd (process_pending_alerts self cpu_percent clock1 clock2 h)) = length stored
    ∧ (length stored ≤ 2)%nat.
Proof.
  unfold process_pending_alerts.
  destruct (pending_loop_history (zip (sample_alerts cpu_percent) [clock1; clock2]) self h 0)
    as (stored & Hh & Hn & Hl).
  exists stored. split; [exact Hh|]. split; [exact Hn|]. exact Hl.
Qed.

(** X20. A run of the periodic job at a time when every active alert is
    at least the deduplication window old stores both samples: it returns
    2, the CPU sample is stored as a warning and the pod sample as a
    critical alert of [k8s_team], each under its id and at the end of the
    history. *)
Theorem pending_run_stores_both self cpu_percent t1 t1' t2 t2' h :
  (∀ k x, active_alerts self !! k = Some x →
          deduplication_window self ≤ t1' - timestamp x
          ∧ deduplication_window self ≤ t2' - timestamp x) →
  ∃ h' a1 a2,
    process_pending_alerts self cpu_percent (t1, t1') (t2, t2') h
    = (h', (2%nat, store (store self a1) a2))
    ∧ title a1 = Val (JStr "High CPU Usage on Production Server")
    ∧ severity a1 = "warning" ∧ timestamp a1 = t1 ∧ assigned_to a1 = None
    ∧ title a2 = Val (JStr "Kubernetes Pod CrashLoopBackOff")
    ∧ severity a2 = "critical" ∧ timestamp a2 = t2 ∧ assigned_to a2 = Some "k8s_team"
    ∧ alert_id a1 ≠ alert_id a2.
Proof.
  intros Hold.
  assert (deduplicate_alert self h t1' (new_alert h (cpu_sample cpu_percent) t1 "warning")
          = false) as Hd1.
  { apply deduplicate_alert_false. intros k x Hk. unfold is_recent_duplicate.
    destruct (Hold k x Hk) as [Hw _].
    rewrite (proj2 (Z.ltb_ge _ _) Hw). by rewrite andb_false_r. }
  destruct (process_alert_typed self (cpu_sample cpu_percent) t1 t1' h "warning"
              "CPU usage has exceeded 90% for the last 5 minutes on server prod-web-01"
              [JStr "cpu"; JStr "performance"; JStr "production"]
              [("server", JStr "prod-web-01"); ("cpu_percent", cpu_percent)]
              eq_refl eq_refl eq_refl eq_refl Hd1)
    as (h1 & a1 & l1 & E1 & Hsev1 & _ & _ & Hown1 & Hid1 & Htitle1 & _ & _ & Hsrc1 & Hts1 & _).
  assert (deduplicate_alert (store self a1) h1 t2' (new_alert h1 pod_sample t2 "critical")
          = false) as Hd2.
  { apply deduplicate_alert_false. intros k x Hk. unfold is_recent_duplicate.
    apply store_active in Hk as [-> | Hk].
    - rewrite Htitle1. reflexivity.
    - destruct (Hold k x Hk) as [_ Hw]. simpl deduplication_window.
      rewrite (proj2 (Z.ltb_ge _ _) Hw). by rewrite andb_false_r. }
  destruct (process_alert_typed (store self a1) pod_sample t2 t2' h1 "critical"
              "Pod 'api-service-7d4b8c9f-xyz' is in CrashLoopBackOff state"
              [JStr "pod"; JStr "crash"; JStr "api"]
              [("namespace", JStr "production"); ("pod", JStr "api-service-7d4b8c9f-xyz")]
              eq_refl eq_refl eq_refl eq_refl Hd2)
    as (h2 & a2 & l2 & E2 & Hsev2 & _ & _ & Hown2 & Hid2 & Htitle2 & _ & _ & Hsrc2 & Hts2 & _).
  exists h2, a1, a2. unfold process_pending_alerts, sample_alerts.
  cbn [zip zip_with].
  rewrite (pending_loop_some _ _ _ _ _ _ _ _ _ _ E1).
  rewrite (pending_loop_some _ _ _ _ _ _ _ _ _ _ E2).
  split; [reflexivity|].
  split; [exact Htitle1|]. split; [exact Hsev1|]. split; [exact Hts1|].
  split; [exact Hown1|].
  split; [exact Htitle2|]. split; [exact Hsev2|]. split; [exact Hts2|].
  split; [exact Hown2|].
  rewrite Hid1, Hid2. vm_compute. discriminate.
Qed.

(** X21. A run of the periodic job while an earlier CPU alert and an
    earlier pod alert are active and younger than the deduplication
    window does nothing: it returns 0 and leaves the processor and the
    payload objects as they were. *)
Theorem pending_run_within_window self cpu_percent t1 t1' t2 t2' h k1 x1 k2 x2 :
  active_alerts self !! k1 = Some x1 →
  fetch h (title x1) = JStr "High CPU Usage on Production Server" →
  fetch h (source x1) = JStr "monitoring" →
  t1' - timestamp x1 < deduplication_window self →
  active_alerts self !! k2 = Some x2 →
  fetch h (title x2) = JStr "Kubernetes Pod CrashLoopBackOff" →
  fetch h (source x2) = JStr "kubernetes" →
  t2' - timestamp x2 < deduplication_window self →
  process_pending_alerts self cpu_percent (t1, t1') (t2, t2') h = (h, (0%nat, self)).
Proof.
  intros Hk1 Ht1 Hs1 Hw1 Hk2 Ht2 Hs2 Hw2.
  assert (process_alert self (cpu_sample cpu_percent) t1 t1' h = (h, (None, self))) as E1.
  { apply (process_alert_duplicate _ _ _ _ _ "warning"); [reflexivity|].
    apply (deduplicate_alert_true _ _ _ _ k1 x1 Hk1). unfold is_recent_duplicate.
    rewrite Ht1, Hs1, (proj2 (Z.ltb_lt _ _) Hw1). reflexivity. }
  assert (process_alert self pod_sample t2 t2' h = (h, (None, self))) as E2.
  { apply (process_alert_duplicate _ _ _ _ _ "critical"); [reflexivity|].
    apply (deduplicate_alert_true _ _ _ _ k2 x2 Hk2). unfold is_recent_duplicate.
    rewrite Ht2, Hs2, (proj2 (Z.ltb_lt _ _) Hw2). reflexivity. }
  unfold process_pending_alerts, sample_alerts. cbn [zip zip_with].
  rewrite (pending_loop_none _ _ _ _ _ _ _ _ _ E1).
  rewrite (pending_loop_none _ _ _ _ _ _ _ _ _ E2).
  reflexivity.
Qed.

End PendingProperties.

Lemma pending_run_stores_both_witness :
  fst (snd (@process_pending_alerts Scenario.interpreter (@Send.senders unreachable) after_first_run (JInt 92)
              (Scenario.ten_o_clock + minutes 5, Scenario.ten_o_clock + minutes 5)
              (Scenario.ten_o_clock + minutes 5, Scenario.ten_o_clock + minutes 6) ∅))
  = 2%nat.
Proof.
  destruct (@pending_run_stores_both Scenario.interpreter (@Send.senders unreachable) after_first_run (JInt 92)
              (Scenario.ten_o_clock + minutes 5) (Scenario.ten_o_clock + minutes 5)
              (Scenario.ten_o_clock + minutes 5) (Scenario.ten_o_clock + minutes 6) ∅)
    as (h' & a1 & a2 & E & _).
  - intros k x Hk.
    apply store_active in Hk as [-> | Hk]; [vm_compute; split; discriminate|].
    apply store_active in Hk as [-> | Hk]; [vm_compute; split; discriminate|].
    cbn [init active_alerts] in Hk. rewrite lookup_empty in Hk. discriminate.
  - rewrite E. reflexivity.
Defined.

Lemma pending_run_within_window_witness :
  @process_pending_alerts Scenario.interpreter (@Send.senders unreachable) after_first_run (JInt 92)
    (Scenario.ten_o_clock + minutes 4, Scenario.ten_o_clock + minutes 4)
    (Scenario.ten_o_clock + minutes 4, Scenario.ten_o_clock + minutes 4) ∅
  = (∅, (0%nat, after_first_run)).
Proof.
  apply (@pending_run_within_window Scenario.interpreter (@Send.senders unreachable) after_first_run (JInt 92)
           (Scenario.ten_o_clock + minutes 4) (Scenario.ten_o_clock + minutes 4)
           (Scenario.ten_o_clock + minutes 4) (Scenario.ten_o_clock + minutes 4) ∅
           "ed63df09a7b9" cpu_alert "e279d9b65902" pod_alert);
    vm_compute; reflexivity.
Defined.

(** The alerts of [after_first_run] are those the job stores. *)
Lemma after_first_run_is_a_run :
  @process_pending_alerts Scenario.interpreter (@Send.senders unreachable) init (JInt 92)
    (Scenario.ten_o_clock, Scenario.ten_o_clock) (Scenario.ten_o_clock, Scenario.ten_o_clock) ∅
  = (∅, (2%nat, after_first_run)).
Proof. vm_compute. reflexivity. Qed.

(** ** The heap, and the HTTP entry point *)

Lemma process_alert_frame self alert_data now_created now_checked h h' r self' :
  process_alert self alert_data now_created now_checked h = (h', (r, self')) →
  ∀ l, alert_data !! "tags" ≠ Some (Ref l) → alert_data !! "metadata" ≠ Some (Ref l) →
       h' !! l = h !! l.
Proof.
  unfold process_alert. intros E l Ht Hm.
  pose proof (process_alert_try_cases self alert_data now_created now_checked h) as Hc.
  destruct (fetch h (get alert_data "severity" (JStr "info"))) eqn:Hs;
    try (rewrite Hc in E; by inversion E).
  simpl in Hc. destruct (deduplicate_alert self h now_checked _);
    rewrite Hc in E; [by inversion E|].
  set (a0 := new_alert h alert_data now_created s) in *.
  assert (∃ r0, bind (_enrich_alert a0) _apply_severity_rules h = (h', r0)) as [r0 Hr].
  { unfold bind in E |- *. destruct (_enrich_alert a0 h) as [h1 [a1|e1]];
      [| inversion E; by eexists].
    destruct (_apply_severity_rules a1 h1) as [h2 [a2|e2]]; inversion E; by eexists. }
  destruct (safe_enrich_then_escalate a0 _ _ _ Hr) as [F _].
  apply F; unfold a0, new_alert, get; simpl.
  - destruct (alert_data !! "tags") as [[|l']|]; simpl; congruence.
  - destruct (alert_data !! "metadata") as [[|l']|]; simpl; congruence.
Qed.

Lemma payload_of_by_value entries k : by_value (payload_of entries) k.
Proof.
  unfold by_value, payload_of. intros l.
  induction entries as [|[k' v] entries IH]; simpl.
  - by rewrite lookup_empty.
  - destruct (decide (k' = k)) as [-> | Hn].
    + by rewrite lookup_insert_eq.
    + by rewrite lookup_insert_ne.
Qed.

(** X22. Whatever its outcome, a call of [process_alert] writes to no
    object other than the payload's own tags list and metadata dict; for
    a payload that carries both by value, as a decoded request body does,
    nothing at all is written. *)
Theorem only_payload_objects_written self alert_data now_created now_checked h :
  (∀ l, alert_data !! "tags" ≠ Some (Ref l) → alert_data !! "metadata" ≠ Some (Ref l) →
        fst (process_alert self alert_data now_created now_checked h) !! l = h !! l)
  ∧ (by_value alert_data "tags" → by_value alert_data "metadata" →
     fst (process_alert self alert_data now_created now_checked h) = h).
Proof.
  destruct (process_alert self alert_data now_created now_checked h) as [h' [r self']] eqn:E.
  simpl. split.
  - by apply (process_alert_frame _ _ _ _ _ _ _ _ E).
  - intros Vt Vm. apply map_eq. intros l.
    by apply (process_alert_frame _ _ _ _ _ _ _ _ E).
Qed.

Lemma only_payload_objects_written_witness :
  fst (process_alert init Scenario.db_down Scenario.ten_o_clock Scenario.ten_o_clock ∅) = ∅.
Proof.
  apply (only_payload_objects_written init Scenario.db_down Scenario.ten_o_clock
           Scenario.ten_o_clock ∅);
    intros l E; vm_compute in E; discriminate E.
Defined.


Section EntryPoint.
Context `{Interpreter} `{Senders}.

(** X23. The three responses of the [POST /api/alerts] handler.  A body
    that is falsy ([null], [false], [0], an empty string, list or object)
    is refused; a body that is no object, or whose alert was deduplicated
    or could not be processed, is answered [deduplicated]; in both cases
    the processor is left as it was.  The answer is [processed] exactly
    when an alert was stored: it is active under the id answered, it is
    the last of the history, it carries the time of the request, and the
    notifications answered are those of that alert. *)
Theorem create_alert_response self body now_created now_checked h h' resp self' :
  create_alert self body now_created now_checked h = (h', (resp, self')) →
  h' = h
  ∧ match resp with
    | BadRequest => truthy body = false ∧ self' = self
    | Deduplicated => truthy body = true ∧ self' = self
    | Processed id notifications =>
        ∃ entries a,
          body = JDict entries ∧ entries ≠ []
          ∧ process_alert self (payload_of entries) now_created now_checked h
            = (h, (Some a, self'))
          ∧ active_alerts self' !! id = Some a
          ∧ alert_history self' = (alert_history self ++ [a])%list
          ∧ id = generate_alert_id h (payload_of entries)
          ∧ timestamp a = now_created
          ∧ notifications = notify_alert self' h a
          ∧ results_alert_id notifications = id
    end.
Proof.
  unfold create_alert. intros E.
  destruct (truthy body) eqn:Hb; simpl in E; [| by inversion E; subst].
  destruct body as [| | | | |entries]; try (by inversion E; subst).
  destruct (process_alert self (payload_of entries) now_created now_checked h)
    as [h1 [[a|] self1]] eqn:Ep.
  - assert (h1 = h) as ->.
    { apply map_eq. intros l.
      apply (process_alert_frame _ _ _ _ _ _ _ _ Ep); apply payload_of_by_value. }
    inversion E; subst. split; [done|].
    exists entries, a. split; [done|]. split; [by destruct entries|].
    split; [done|].
    apply process_alert_some in Ep as (s & _ & _ & K & ->).
    destruct K as (_ & _ & Hid & _ & _ & _ & Hts & _). simpl in Hid, Hts.
    cbn [store active_alerts alert_history].
    split; [by rewrite lookup_insert_eq|]. split; [done|]. split; [done|].
    split; [done|]. split; [done|].
    by rewrite notify_alert_outcomes.
  - assert (h1 = h) as ->.
    { apply map_eq. intros l.
      apply (process_alert_frame _ _ _ _ _ _ _ _ Ep); apply payload_of_by_value. }
    apply process_alert_none in Ep as ->. by inversion E; subst.
Qed.

(** X24. The empty object is refused by the handler, although
    [process_alert] accepts the empty payload: called directly it stores
    an info alert titled [Unknown Alert] from source [unknown], unless
    such an alert is active and recent. *)
Theorem empty_object_is_refused self now_created now_checked h :
  create_alert self (JDict []) now_created now_checked h = (h, (BadRequest, self))
  ∧ (deduplicate_alert self h now_checked (new_alert h ∅ now_created "info") = false →
     ∃ h' a,
       process_alert self ∅ now_created now_checked h = (h', (Some a, store self a))
       ∧ title a = Val (JStr "Unknown Alert") ∧ source a = Val (JStr "unknown")
       ∧ severity a = "info").
Proof.
  split; [reflexivity|]. intros Hd.
  assert (∀ k d, fetch h (get ∅ k d) = d) as Hget.
  { intros k d. unfold get. by rewrite lookup_empty. }
  destruct (process_alert_typed self ∅ now_created now_checked h "info" EmptyString [] []
              (Hget _ _) (Hget _ _) (Hget _ _) (Hget _ _) Hd)
    as (h' & a & l' & E & Hsev & _ & _ & _ & _ & Htitle & _ & _ & Hsrc & _).
  assert (∀ k d, get ∅ k d = Val d) as Hval.
  { intros k d. unfold get. by rewrite lookup_empty. }
  exists h', a. split; [exact E|]. rewrite Hval in Htitle, Hsrc.
  split; [exact Htitle|]. split; [exact Hsrc|]. exact Hsev.
Qed.

End EntryPoint.

Lemma create_alert_response_witness :
  ∃ a, active_alerts
         (snd (snd (@create_alert Scenario.interpreter (@Send.senders unreachable) init
                      (JDict [("title", JStr "DB down"); ("severity", JStr "warning");
                              ("description", JStr "database connection failed");
                              ("source", JStr "database")])
                      Scenario.ten_o_clock Scenario.ten_o_clock ∅)))
       !! "4743f195745c" = Some a.
Proof.
  destruct (@create_alert Scenario.interpreter (@Send.senders unreachable) init
              (JDict [("title", JStr "DB down"); ("severity", JStr "warning");
                      ("description", JStr "database connection failed");
                      ("source", JStr "database")])
              Scenario.ten_o_clock Scenario.ten_o_clock ∅) as [h' [resp self']] eqn:E.
  pose proof (@create_alert_response Scenario.interpreter (@Send.senders unreachable) _ _ _ _ _ _ _ _ E) as [_ R].
  vm_compute in E. injection E as _ <- <-.
  destruct R as (entries & a & _ & _ & _ & Ha & _).
  exists a. exact Ha.
Defined.

Lemma empty_object_is_refused_witness :
  ∃ h' a, process_alert init ∅ Scenario.ten_o_clock Scenario.ten_o_clock ∅
          = (h', (Some a, store init a)).
Proof.
  destruct (@empty_object_is_refused Scenario.interpreter (@Send.senders unreachable) init Scenario.ten_o_clock
              Scenario.ten_o_clock ∅) as [_ Hp].
  destruct (Hp (deduplicate_alert_init _ _ _)) as (h' & a & E & _).
  by exists h', a.
Defined.

(** ** The active map and the history; end to end *)

Lemma latest_store self a k :
  active_alerts self !! k = last (filter (λ x, alert_id x = k) (alert_history self)) →
  active_alerts (store self a) !! k
  = last (filter (λ x, alert_id x = k) (alert_history (store self a))).
Proof.
  intros Hk. cbn [store active_alerts alert_history]. rewrite filter_app.
  destruct (decide (alert_id a = k)) as [<- | Hn].
  - rewrite lookup_insert_eq, filter_cons_True by done.
    rewrite filter_nil. by rewrite last_snoc.
  - rewrite lookup_insert_ne by done.
    rewrite filter_cons_False by done. rewrite filter_nil. by rewrite app_nil_r.
Qed.

(** X25. Alerts are never resolved or removed: an id that is active
    stays active through every sequence of calls; and in every processor
    reached from a new one, the alert active under an id is the latest
    alert of the history with that id. *)
Theorem active_is_latest_of_history calls h :
  (∀ self k, is_Some (active_alerts self !! k) →
             is_Some (active_alerts (snd (process_all calls h self)) !! k))
  ∧ ∀ k, active_alerts (snd (process_all calls h init)) !! k
         = last (filter (λ x, alert_id x = k)
                        (alert_history (snd (process_all calls h init)))).
Proof.
  split.
  - revert h. induction calls as [|[[p t] t'] calls IH]; intros h self k Hk; [done|].
    simpl. destruct (process_alert self p t t' h) as [h' [r self']] eqn:E.
    apply IH. destruct r as [a|].
    + apply process_alert_some in E as (s & _ & _ & _ & ->).
      cbn [store active_alerts].
      destruct (decide (alert_id a = k)) as [<- | Hn].
      * by rewrite lookup_insert_eq.
      * by rewrite lookup_insert_ne.
    + by apply process_alert_none in E as ->.
  - assert (∀ self h0,
              (∀ k, active_alerts self !! k
                    = last (filter (λ x, alert_id x = k) (alert_history self))) →
              ∀ k, active_alerts (snd (process_all calls h0 self)) !! k
                   = last (filter (λ x, alert_id x = k)
                                  (alert_history (snd (process_all calls h0 self))))) as Hg.
    { induction calls as [|[[p t] t'] calls IH]; intros self h0 Hinv; [done|].
      simpl. destruct (process_alert self p t t' h0) as [h' [r self']] eqn:E.
      apply IH. destruct r as [a|].
      - apply process_alert_some in E as (s & _ & _ & _ & ->).
        intros k. by apply latest_store.
      - by apply process_alert_none in E as ->. }
    apply Hg. intros k. cbn [init active_alerts alert_history].
    by rewrite lookup_empty.
Qed.

Lemma active_is_latest_of_history_witness :
  is_Some (active_alerts
             (snd (process_all
                     [(Scenario.db_down, Scenario.ten_o_clock, Scenario.ten_o_clock)]
                     ∅ after_first_run))
           !! "ed63df09a7b9").
Proof.
  destruct (active_is_latest_of_history
              [(Scenario.db_down, Scenario.ten_o_clock, Scenario.ten_o_clock)] ∅) as [Hk _].
  apply Hk. exists cpu_alert. vm_compute. reflexivity.
Defined.


Section EndToEnd.
Context `{Interpreter} `{Senders}.

(** X26. No channel is notified twice for one alert, however many rules
    name it: the channels of the results are those routed, in that order,
    without repetition. *)
Theorem no_channel_notified_twice self h a :
  map channel (results (notify_alert self h a)) = route_alert self h a
  ∧ NoDup (map channel (results (notify_alert self h a))).
Proof.
  assert (map channel (results (notify_alert self h a)) = route_alert self h a) as E.
  { rewrite notify_alert_outcomes. cbv zeta. cbn [results].
    rewrite map_map. rewrite <- (map_id (route_alert self h a)) at 2.
    apply map_ext. intros n. apply channel_outcome. }
  split; [exact E|]. rewrite E. unfold route_alert.
  rewrite dict_fromkeys_first_seen. apply NoDup_first_seen.
Qed.

(** X27. Escalation decides who is paged.  With the rules the processor
    sets up, a well-typed warning that is not a duplicate is stored and
    then routed to [email_ops], [slack_critical] and [pagerduty] when its
    description contains an escalation keyword, and to [email_ops] and
    [slack_critical] only when it does not. *)
Theorem escalated_warning_is_paged self alert_data now_created now_checked h sv s l d :
  routing_rules self = _setup_routing_rules →
  fetch h (get alert_data "severity" (JStr "info")) = JStr sv →
  PyStr.lower sv = "warning" →
  fetch h (get alert_data "description" (JStr EmptyString)) = JStr s →
  fetch h (get alert_data "tags" (JList [])) = JList l →
  fetch h (get alert_data "metadata" (JDict [])) = JDict d →
  deduplicate_alert self h now_checked (new_alert h alert_data now_created sv) = false →
  ∃ h' a,
    process_alert self alert_data now_created now_checked h = (h', (Some a, store self a))
    ∧ route_alert (store self a) h' a
      = (if existsb (λ kw, PyStr.contains kw (PyStr.lower s)) escalation_keywords
         then ["email_ops"; "slack_critical"; "pagerduty"]
         else ["email_ops"; "slack_critical"])
    ∧ channels_attempted (notify_alert (store self a) h' a)
      = (if existsb (λ kw, PyStr.contains kw (PyStr.lower s)) escalation_keywords
         then 3%nat else 2%nat).
Proof.
  intros Hr Hsv Hw Hs Hl Hd Hdup.
  destruct (process_alert_typed self alert_data now_created now_checked h sv s l d
              Hsv Hs Hl Hd Hdup)
    as (h' & a & l' & E & Hsev & _).
  exists h', a. split; [exact E|].
  assert (route_alert (store self a) h' a
          = (if existsb (λ kw, PyStr.contains kw (PyStr.lower s)) escalation_keywords
             then ["email_ops"; "slack_critical"; "pagerduty"]
             else ["email_ops"; "slack_critical"])) as Hroute.
  { rewrite (route_alert_default (store self a) h' a Hr), Hsev, Hw.
    unfold escalates. rewrite String.eqb_refl, andb_true_r.
    destruct (existsb _ escalation_keywords);
      by destruct (PyVal.py_eq (fetch h' (source a)) (JStr "kubernetes")). }
  split; [exact Hroute|].
  rewrite notify_alert_outcomes. cbv zeta. cbn [channels_attempted].
  rewrite Hroute. by destruct (existsb _ escalation_keywords).
Qed.

End EndToEnd.

Lemma escalated_warning_is_paged_witness :
  ∃ h' a,
    process_alert init Scenario.db_down Scenario.ten_o_clock Scenario.ten_o_clock ∅
    = (h', (Some a, store init a))
    ∧ @route_alert Scenario.interpreter (store init a) h' a
      = ["email_ops"; "slack_critical"; "pagerduty"].
Proof.
  destruct (@escalated_warning_is_paged Scenario.interpreter (@Send.senders unreachable) init Scenario.db_down
              Scenario.ten_o_clock Scenario.ten_o_clock ∅ "warning"
              "database connection failed" [] []
              eq_refl eq_refl eq_refl eq_refl eq_refl eq_refl (deduplicate_alert_init _ _ _))
    as (h' & a & E & Hroute & _).
  exists h', a. split; [exact E|]. exact Hroute.
Defined.

(** ** The id and the fields as submitted *)

(** X28. When a payload names its title and its source, the id of the
    alert stored for it is the fingerprint of the title, the source and
    the description as they are when the payload is submitted, an absent
    description counting as the empty string; so two such payloads that
    are submitted with the same title, source and description are stored
    under the same id, whatever the processors, heaps and clock
    readings. *)
Theorem same_fields_same_id
    self1 h1 p1 t1 t1' h1' a1 self1' self2 h2 p2 t2 t2' h2' a2 self2' :
  process_alert self1 p1 t1 t1' h1 = (h1', (Some a1, self1')) →
  process_alert self2 p2 t2 t2' h2 = (h2', (Some a2, self2')) →
  is_Some (p1 !! "title") → is_Some (p1 !! "source") →
  is_Some (p2 !! "title") → is_Some (p2 !! "source") →
  fetch h1 (title a1) = fetch h2 (title a2) →
  fetch h1 (source a1) = fetch h2 (source a2) →
  fetch h1 (description a1) = fetch h2 (description a2) →
  alert_id a1
  = fingerprint (fetch h1 (title a1)) (fetch h1 (source a1)) (fetch h1 (description a1))
  ∧ alert_id a1 = alert_id a2.
Proof.
  intros E1 E2 T1 S1 T2 S2 Ht Hs Hd.
  assert (∀ self h p t t' h' a self',
            process_alert self p t t' h = (h', (Some a, self')) →
            is_Some (p !! "title") → is_Some (p !! "source") →
            alert_id a
            = fingerprint (fetch h (title a)) (fetch h (source a))
                          (fetch h (description a))) as Hid.
  { intros self h p t t' h' a self' E HT HS.
    destruct (process_alert_some _ _ _ _ _ _ _ _ E) as (s & _ & _ & K & _).
    destruct K as (_ & _ & Ki & Kt & Kd & Ks & _).
    rewrite Ki, Kt, Kd, Ks. simpl. rewrite generate_alert_id_fingerprint.
    by rewrite (get_present p "title" _ (JStr "Unknown Alert") HT),
               (get_present p "source" _ (JStr "unknown") HS). }
  split; [by eapply Hid|].
  rewrite (Hid _ _ _ _ _ _ _ _ E1 T1 S1), (Hid _ _ _ _ _ _ _ _ E2 T2 S2).
  by rewrite Ht, Hs, Hd.
Qed.

Lemma same_fields_same_id_witness :
  alert_id Scenario.db_alert
  = fingerprint (JStr "DB down") (JStr "database") (JStr "database connection failed")
  ∧ alert_id Scenario.db_alert = alert_id Scenario.db_alert_info.
Proof.
  apply (same_fields_same_id
           init ∅ Scenario.db_down Scenario.ten_o_clock Scenario.ten_o_clock ∅
           Scenario.db_alert (store init Scenario.db_alert)
           init ∅ Scenario.db_down_info Scenario.ten_o_clock Scenario.ten_o_clock ∅
           Scenario.db_alert_info (store init Scenario.db_alert_info));
    try (vm_compute; reflexivity); by eexists.
Defined.
